(** * The upload endpoint of zipline: [src/pages/api/upload.ts]

    A shallow embedding of the request handler [handler] and the properties
    of its rate-limit gate, header validation, chunked path and single-shot
    path.

    The handler is one asynchronous function that talks to a database
    (prisma), a blob store (datasource), the file system, a worker thread
    and a handful of helpers of [lib/].  The embedding threads a [State]
    (the database tables the handler reads, and the chronological [trace] of
    the calls it makes) through a small monad with early return ([return
    res.badRequest(..)]) and exceptions.  Helpers whose code lives outside
    the handler, and the JavaScript built-ins it calls, are the fields of an
    environment [Env]; every theorem holds for every environment.

    The calls whose failure the handler deals with ([uploader.array],
    [parseExpiry], [removeGPSData]), [decodeURI], which throws on a
    malformed name, and the image encoder, which rejects bytes that are no
    image, may fail in the model; a missing [req.files[0]] or partial
    filename is the [TypeError] it is in JavaScript.  The database, the blob
    store and the file system are taken to answer. *)

From Stdlib Require Import ZArith QArith String Ascii List Bool Lia.
From stdpp Require Import base option list gmap strings pretty.

Import ListNotations.
Local Open Scope string_scope.
Local Open Scope Z_scope.
Local Open Scope list_scope.

(** ** JavaScript values used by the handler *)

Module Js.

(** A JavaScript number: [NaN], an infinity, or a finite value.  (The sign of
    zero is not observable by the handler.) *)
Inductive num : Type :=
| NaN
| Inf (negative : bool)
| Fin (q : Q).

Definition Qltb (x y : Q) : bool :=
  (Qnum x * Zpos (Qden y) <? Qnum y * Zpos (Qden x))%Z.

Definition Qeqb (x y : Q) : bool :=
  (Qnum x * Zpos (Qden y) =? Qnum y * Zpos (Qden x))%Z.

Definition ofZ (z : Z) : num := Fin (inject_Z z).

(** [x < y] on numbers; any comparison with [NaN] is false. *)
Definition ltb (x y : num) : bool :=
  match x, y with
  | NaN, _ | _, NaN => false
  | Inf true, Inf true => false
  | Inf true, _ => true
  | _, Inf true => false
  | Inf false, _ => false
  | _, Inf false => true
  | Fin a, Fin b => Qltb a b
  end.

Definition eqb (x y : num) : bool :=
  match x, y with
  | Fin a, Fin b => Qeqb a b
  | Inf a, Inf b => Bool.eqb a b
  | _, _ => false
  end.

(** A header-derived number is [null] when the header is absent:
    [h ? Number(h) : null].  In comparisons and in [isNaN], [null] is 0. *)
Definition toNum (x : option num) : num :=
  match x with Some n => n | None => ofZ 0 end.

Definition isNaN (x : option num) : bool :=
  match toNum x with NaN => true | _ => false end.

(** Truthiness of a number-or-null: false for [null], [0] and [NaN]. *)
Definition truthyNum (x : option num) : bool :=
  match x with
  | None | Some NaN => false
  | Some (Inf _) => true
  | Some (Fin q) => negb (Qeqb q 0)
  end.

(** Truthiness of a string-or-undefined: false for [undefined] and [""]. *)
Definition truthy (x : option string) : bool :=
  match x with
  | None | Some "" => false
  | Some _ => true
  end.

(** [`${x}`] for a string-or-undefined. *)
Definition show (x : option string) : string :=
  match x with Some s => s | None => "undefined" end.

(** [s.startsWith(p)] *)
Definition startsWith (s p : string) : bool := String.prefix p s.

Definition dropStr (n : nat) (s : string) : string :=
  String.substring n (String.length s - n) s.

(** [s.replace(pat, rep)] for a string pattern without [$]: the first
    occurrence only. *)
Fixpoint replace (pat rep s : string) : string :=
  if String.prefix pat s then rep +:+ dropStr (String.length pat) s
  else match s with
       | EmptyString => EmptyString
       | String c s' => String c (replace pat rep s')
       end.

(** [s.split(sep)] for a one-character separator. *)
Fixpoint split (sep : ascii) (s : string) : list string :=
  match s with
  | EmptyString => [EmptyString]
  | String c s' =>
      if Ascii.eqb c sep then EmptyString :: split sep s'
      else match split sep s' with
           | h :: t => String c h :: t
           | [] => [String c EmptyString]
           end
  end.

(** [s.toLowerCase()] on the ASCII letters.  Header values are Latin-1, and
    no other character lowers to an ASCII letter of a format name. *)
Definition lowerAscii (c : ascii) : ascii :=
  let n := nat_of_ascii c in
  if (Nat.leb 65 n && Nat.leb n 90)%bool then ascii_of_nat (n + 32) else c.

Fixpoint toLowerCase (s : string) : string :=
  match s with
  | EmptyString => EmptyString
  | String c s' => String (lowerAscii c) (toLowerCase s')
  end.

(** [s.match(p)] is non-null, for a pattern [p] without special characters:
    [p] occurs in [s]. *)
Fixpoint occurs (p s : string) : bool :=
  if String.prefix p s then true
  else match s with
       | EmptyString => false
       | String _ s' => occurs p s'
       end.

(** [l.includes(x)] on strings. *)
Definition includes (l : list string) (x : string) : bool :=
  existsb (String.eqb x) l.

(** [l.join(sep)] *)
Fixpoint join (sep : string) (l : list string) : string :=
  match l with
  | [] => ""
  | [x] => x
  | x :: l' => x +:+ sep +:+ join sep l'
  end.

End Js.

(** [name.split('.').length === 1 ? '' : name.split('.').pop()] *)
Definition extOf (name : string) : string :=
  let parts := Js.split "." name in
  if Nat.eqb (List.length parts) 1 then "" else List.last parts "".

(** ** Data model *)

Definition bytes := list Byte.byte.

(** The result of a call that may throw. *)
Inductive Exc (A : Type) : Type :=
| Ok (a : A)
| Err (message : string).
Arguments Ok {A} a.
Arguments Err {A} message.

(** The name formats of [lib/format]. *)
Inductive NameFormat : Type := Uuid | Date | Random | Name | Gfycat.

(** Modelled from the spec: the list [NameFormats] exported by [lib/format]
    ("random, name, date, uuid, gfycat-style ... a closed enumeration"). *)
Definition NameFormats : list (string * NameFormat) :=
  [("uuid", Uuid); ("date", Date); ("random", Random); ("name", Name);
   ("gfycat", Gfycat)].

Definition isName (f : NameFormat) : bool :=
  match f with Name => true | _ => false end.

Record User := {
  user_id : Z;
  user_token : string;
  user_username : string;
  user_administrator : bool;
  user_ratelimit : option Z;       (* a Date, in milliseconds, or null *)
  user_domains : list string;
}.

Record Folder := {
  folder_id : Z;
  folder_userId : Z;
}.

(** A row of the file table: the [data] handed to [prisma.file.create] and
    the id the store assigns.  A field the call leaves out is [None]. *)
Record FileRecord := {
  file_id : Z;
  file_name : string;
  file_mimetype : option string;
  file_userId : Z;
  file_embed : option bool;
  file_password : option string;
  file_expiresAt : option Z;
  file_maxViews : option Js.num;
  file_originalName : option string;
  file_size : option Z;
  file_folderId : option Js.num;
}.

(** One element of [req.files], as multer fills it in. *)
Record UploadedFile := {
  up_originalname : string;
  up_mimetype : string;
  up_size : Z;
  up_buffer : bytes;
}.

(** What [uploader.array('file')] leaves behind: an error, no [req.files]
    (the body was not multipart), or the list of files. *)
Inductive Multipart : Type :=
| MpError (message : string)
| MpNone
| MpFiles (fs : list UploadedFile).

Record Request := {
  headers : gmap string string;
  body : Multipart;
}.

Definition hdr (req : Request) (k : string) : option string := headers req !! k.

Record Config := {
  ratelimit_admin : Z;
  ratelimit_user : Z;
  uploader_default_expiration : option string;
  uploader_default_format : string;
  uploader_admin_limit : Z;
  uploader_user_limit : Z;
  uploader_disabled_extensions : list string;
  uploader_assume_mimetypes : bool;
  uploader_route : string;
  uploader_length : Z;
  chunks_enabled : bool;
  core_temp_directory : string;
  core_return_https : bool;
  discord_upload : bool;
  exif_enabled : bool;
  exif_remove_gps : bool;
}.

(** The JSON body built up in [response]. *)
Record ResponseBody := {
  resp_files : list string;
  resp_expiresAt : option Z;
  resp_removed_gps : option bool;
  resp_assumed_mimetype : option (option string);  (* [false] is [Some None] *)
  resp_folder : option Z;
}.

Inductive Response : Type :=
| Forbidden (reason : string)            (* res.forbidden: 403 *)
| RateLimited (remaining : Z)            (* res.ratelimited: 429 *)
| BadRequest (reason : string)           (* res.badRequest: 400 *)
| Json (b : ResponseBody)                (* res.json(response): 200 *)
| PlainText (urls : string)              (* res.end(files.join(',')): 200 *)
| ChunkPending (urls : list string)      (* res.json({pending: true, files}) *)
| ChunkSuccess.                          (* res.json({success: true}) *)

Definition status (r : Response) : Z :=
  match r with
  | Forbidden _ => 403
  | RateLimited _ => 429
  | BadRequest _ => 400
  | Json _ | PlainText _ | ChunkPending _ | ChunkSuccess => 200
  end.

(** The [workerData] of the reassembly worker. *)
Record WorkerData := {
  w_user : User;
  w_fileId : Z;
  w_filename : string;
  w_mimetype : option string;
  w_identifier : option string;
  w_totalBytes : option Js.num;
  w_expiresAt : option Z;
  w_format : NameFormat;
  w_fileMaxViews : option Js.num;
}.

(** The calls with an effect outside the handler, in the order made. *)
Inductive Event : Type :=
| EvUserUpdate (id : Z) (ratelimit : option Z)      (* prisma.user.update *)
| EvWriteTemp (path : string) (data : bytes)        (* writeFile *)
| EvFileCreate (r : FileRecord)                     (* prisma.file.create *)
| EvInvis (len : Z) (fileId : Z)                    (* createInvisImage *)
| EvSave (name : string) (data : bytes) (type : string)  (* datasource.save *)
| EvWorker (w : WorkerData)                         (* new Worker *)
| EvDiscord (fileId : Z) (raw url : string)         (* sendUpload *)
| EvRemoveGPS (fileId : Z)                          (* removeGPSData *)
| EvLogError (fileId : Z) (message : string).       (* logger.error *)

Record State := {
  users : list User;
  files : list FileRecord;
  folders : list Folder;
  nextFileId : Z;
  trace : list Event;
}.

(** Helpers of [lib/] and built-ins, as the handler calls them.  The calls
    that draw random values take the index of the file being handled. *)
Record Env := {
  now : Z;                                              (* Date.now() *)
  Number : string -> Js.num;                            (* Number(s) *)
  numToString : Js.num -> string;                       (* `${n}` *)
  parseExpiry : string -> Exc Z;
  formatFileName : nat -> NameFormat -> string -> string;
  guess : string -> option string;
  hashPassword : nat -> string -> string;
  createInvisImage : nat -> Z -> Z -> string;
  removeGPSData : FileRecord -> Exc unit;
  sharpJpeg : bytes -> Js.num -> Exc bytes;  (* sharp(b).jpeg({quality}) *)
  decodeURI : string -> Exc string;
  encodeURI : string -> string;
  pathExt : string -> string;                           (* parse(p).ext *)
  pathJoin : string -> string -> string;                (* join(a, b) *)
  randomIndex : nat -> nat -> nat;       (* floor(Math.random() * n) *)
}.

(** ** The handler monad: state, early [return res.x(..)], exceptions *)

Inductive Res (A : Type) : Type :=
| Val (a : A)
| Ret (r : Response)
| Throw (message : string).
Arguments Val {A} a.
Arguments Ret {A} r.
Arguments Throw {A} message.

Definition M (A : Type) : Type := State -> Res A * State.

Definition ret {A} (a : A) : M A := fun st => (Val a, st).

Definition bind {A B} (c : M A) (k : A -> M B) : M B :=
  fun st =>
    match c st with
    | (Val a, st') => k a st'
    | (Ret r, st') => (Ret r, st')
    | (Throw m, st') => (Throw m, st')
    end.

Definition respond {A} (r : Response) : M A := fun st => (Ret r, st).
Definition throw {A} (m : string) : M A := fun st => (Throw m, st).
Definition get : M State := fun st => (Val st, st).

Definition emit (e : Event) : M unit :=
  fun st =>
    (Val tt, {| users := users st; files := files st; folders := folders st;
                nextFileId := nextFileId st; trace := trace st ++ [e] |}).

Notation "'let*' x ':=' c 'in' k" := (bind c (fun x => k))
  (at level 10, x name, c at level 100, k at level 200).
Notation "c ';;' k" := (bind c (fun _ => k))
  (at level 100, k at level 200, right associativity).

(** [when c m]: [if (c) { m }] *)
Definition when (c : bool) (m : M unit) : M unit := if c then m else ret tt.

(** ** The handler *)

Section Handler.

Variable env : Env.
Variable zconfig : Config.
Variable req : Request.

Definition header (k : string) : option string := hdr req k.

(** *** Database calls *)

(** [prisma.user.findFirst({ where: { token } })] *)
Definition findUser (token : string) : M (option User) :=
  let* st := get in
  ret (List.find (fun u => String.eqb (user_token u) token) (users st)).

Definition withRatelimit (id : Z) (v : option Z) (u : User) : User :=
  if user_id u =? id then
    {| user_id := user_id u; user_token := user_token u;
       user_username := user_username u;
       user_administrator := user_administrator u;
       user_ratelimit := v; user_domains := user_domains u |}
  else u.

(** [prisma.user.update({ where: { id }, data: { ratelimit } })] *)
Definition updateRatelimit (id : Z) (v : option Z) : M unit :=
  fun st =>
    (Val tt, {| users := map (withRatelimit id v) (users st);
                files := files st; folders := folders st;
                nextFileId := nextFileId st;
                trace := trace st ++ [EvUserUpdate id v] |}).

(** [prisma.folder.findFirst({ where: { id, userId } })] *)
Definition findFolder (id : Js.num) (userId : Z) : M (option Folder) :=
  let* st := get in
  ret (List.find (fun f => Js.eqb (Js.ofZ (folder_id f)) id
                           && (folder_userId f =? userId))%bool (folders st)).

(** [prisma.file.findFirst({ where: { name } })]; an [undefined] name is no
    filter at all. *)
Definition nameMatches (name : option string) (r : FileRecord) : bool :=
  match name with
  | Some n => String.eqb (file_name r) n
  | None => true
  end.

Definition findFile (name : option string) : M (option FileRecord) :=
  let* st := get in
  ret (List.find (nameMatches name) (files st)).

(** [prisma.file.create({ data })]: the store assigns the id. *)
Definition createFile (data : Z -> FileRecord) : M FileRecord :=
  fun st =>
    let r := data (nextFileId st) in
    (Val r, {| users := users st; files := files st ++ [r];
               folders := folders st; nextFileId := nextFileId st + 1;
               trace := trace st ++ [EvFileCreate r] |}).

(** *** Lines 23-31: authentication *)

Definition authenticate : M User :=
  if negb (Js.truthy (header "authorization")) then
    respond (Forbidden "no authorization")
  else
    let* user := findUser (Js.show (header "authorization")) in
    match user with
    | None => respond (Forbidden "authorization incorrect")
    | Some u => ret u
    end.

(** *** Lines 33-70: the rate-limit gate *)

Definition rateLimit (user : User) : M unit :=
  let contentRange := Js.truthy (header "content-range") in
  match user_ratelimit user with
  | Some limit =>
      if negb contentRange then
        let remaining := limit - now env in
        if remaining <=? 0 then updateRatelimit (user_id user) None
        else respond (RateLimited remaining)
      else ret tt
  | None =>
      if negb contentRange then
        if user_administrator user && (0 <? ratelimit_admin zconfig) then
          updateRatelimit (user_id user)
            (Some (now env + ratelimit_admin zconfig * 1000))
        else if negb (user_administrator user) && (0 <? ratelimit_user zconfig)
        then
          if user_administrator user && (0 <? ratelimit_user zconfig) then
            updateRatelimit (user_id user)
              (Some (now env + ratelimit_user zconfig * 1000))
          else ret tt
        else ret tt
      else ret tt
  end.

(** *** Lines 72-77: multer *)

Definition multer : M unit :=
  match body req with
  | MpError m => throw m
  | _ => ret tt
  end.

(** *** Lines 79-137: the option headers *)

Record Options := {
  expiry : option Z;
  response : ResponseBody;
  format : NameFormat;
  imageCompressionPercent : option Js.num;
  fileMaxViews : option Js.num;
  folderToAdd : option Js.num;
}.

Definition emptyResponse : ResponseBody :=
  {| resp_files := []; resp_expiresAt := None; resp_removed_gps := None;
     resp_assumed_mimetype := None; resp_folder := None |}.

Definition setExpiresAt (b : ResponseBody) (d : Z) : ResponseBody :=
  {| resp_files := resp_files b; resp_expiresAt := Some d;
     resp_removed_gps := resp_removed_gps b;
     resp_assumed_mimetype := resp_assumed_mimetype b;
     resp_folder := resp_folder b |}.

Definition setFolder (b : ResponseBody) (id : Z) : ResponseBody :=
  {| resp_files := resp_files b; resp_expiresAt := resp_expiresAt b;
     resp_removed_gps := resp_removed_gps b;
     resp_assumed_mimetype := resp_assumed_mimetype b;
     resp_folder := Some id |}.

Definition setRemovedGps (b : ResponseBody) (v : bool) : ResponseBody :=
  {| resp_files := resp_files b; resp_expiresAt := resp_expiresAt b;
     resp_removed_gps := Some v;
     resp_assumed_mimetype := resp_assumed_mimetype b;
     resp_folder := resp_folder b |}.

Definition setAssumed (b : ResponseBody) (v : option string) : ResponseBody :=
  {| resp_files := resp_files b; resp_expiresAt := resp_expiresAt b;
     resp_removed_gps := resp_removed_gps b;
     resp_assumed_mimetype := Some v;
     resp_folder := resp_folder b |}.

Definition pushFile (b : ResponseBody) (url : string) : ResponseBody :=
  {| resp_files := resp_files b ++ [url]; resp_expiresAt := resp_expiresAt b;
     resp_removed_gps := resp_removed_gps b;
     resp_assumed_mimetype := resp_assumed_mimetype b;
     resp_folder := resp_folder b |}.

(** [h ? Number(h) : null] *)
Definition numberHeader (k : string) : option Js.num :=
  if Js.truthy (header k) then Some (Number env (Js.show (header k)))
  else None.

(** Lines 88-98 *)
Definition clientExpiry : M (option Z * ResponseBody) :=
  let expiresAt := header "expires-at" in
  if Js.truthy expiresAt then
    match parseExpiry env (Js.show expiresAt) with
    | Ok d => ret (Some d, setExpiresAt emptyResponse d)
    | Err m => respond (BadRequest m)
    end
  else ret (None, emptyResponse).

(** Lines 100-106 *)
Definition defaultExpiry (expiry : option Z) : M (option Z) :=
  if Js.truthy (uploader_default_expiration zconfig) then
    match parseExpiry env (Js.show (uploader_default_expiration zconfig)) with
    | Ok d => ret (Some d)
    | Err m => respond (BadRequest (m +:+ " (UPLOADER_DEFAULT_EXPIRATION)"))
    end
  else ret expiry.

(** Lines 108-111 *)
Definition requestFormat : NameFormat :=
  let rawFormat :=
    Js.toLowerCase (if Js.truthy (header "format") then Js.show (header "format")
                    else uploader_default_format zconfig) in
  match List.find (fun p => String.eqb (fst p) rawFormat) NameFormats with
  | Some p => snd p
  | None => Random
  end.

(** Lines 113-119 *)
Definition compressionPercent : M (option Js.num) :=
  let imageCompressionPercent := numberHeader "image-compression-percent" in
  if Js.isNaN imageCompressionPercent then
    respond (BadRequest "invalid image compression percent (invalid number)")
  else if Js.ltb (Js.toNum imageCompressionPercent) (Js.ofZ 0)
          || Js.ltb (Js.ofZ 100) (Js.toNum imageCompressionPercent) then
    respond (BadRequest "invalid image compression percent (% < 0 || % > 100)")
  else ret imageCompressionPercent.

(** Lines 121-123 *)
Definition maxViews : M (option Js.num) :=
  let fileMaxViews := numberHeader "max-views" in
  if Js.isNaN fileMaxViews then
    respond (BadRequest "invalid max views (invalid number)")
  else if Js.ltb (Js.toNum fileMaxViews) (Js.ofZ 0) then
    respond (BadRequest "invalid max views (max views < 0)")
  else ret fileMaxViews.

(** Lines 125-137 *)
Definition folderOption (user : User) (response : ResponseBody)
  : M (option Js.num * ResponseBody) :=
  let folderToAdd := numberHeader "x-zipline-folder" in
  if Js.truthyNum folderToAdd then
    if Js.isNaN folderToAdd then
      respond (BadRequest "invalid folder id (invalid number)")
    else
      let* folder := findFolder (Js.toNum folderToAdd) (user_id user) in
      match folder with
      | None => respond (BadRequest "invalid folder id (no folder found)")
      | Some f => ret (folderToAdd, setFolder response (folder_id f))
      end
  else ret (folderToAdd, response).

Definition parseOptions (user : User) : M Options :=
  let* parsed := clientExpiry in
  let '(expiry, response) := parsed in
  let* expiry := defaultExpiry expiry in
  let format := requestFormat in
  let* imageCompressionPercent := compressionPercent in
  let* fileMaxViews := maxViews in
  let* found := folderOption user response in
  let '(folderToAdd, response) := found in
  ret {| expiry := expiry; response := response; format := format;
         imageCompressionPercent := imageCompressionPercent;
         fileMaxViews := fileMaxViews; folderToAdd := folderToAdd |}.

(** [...(folderToAdd && { folderId: folderToAdd })] *)
Definition folderIdOf (folderToAdd : option Js.num) : option Js.num :=
  if Js.truthyNum folderToAdd then folderToAdd else None.

(** *** The public URL (lines 195-206 and 329-340) *)

Definition protocol : string :=
  if core_return_https zconfig then "https" else "http".

Definition pickDomain (i : nat) (user : User) : string :=
  if Js.truthy (header "override-domain") then
    protocol +:+ "://" +:+ Js.show (header "override-domain")
  else if negb (Nat.eqb (List.length (user_domains user)) 0) then
    Js.show (user_domains user
               !! randomIndex env i (List.length (user_domains user)))
  else protocol +:+ "://" +:+ Js.show (header "host").

Definition routePrefix : string :=
  if String.eqb (uploader_route zconfig) "/" then "/"
  else uploader_route zconfig +:+ "/".

(** *** Lines 139-237: a chunk of a partial upload *)

(** Lines 152-156: [bytes start-end/total] *)
Definition contentRange : list Js.num :=
  map (Number env)
      (Js.split "/"
         (Js.replace "-" "/"
            (Js.replace "bytes " "" (Js.show (header "content-range"))))).

(** [`${n}`] for a destructured element, [undefined] past the end. *)
Definition showNum (n : option Js.num) : string :=
  match n with Some x => numToString env x | None => "undefined" end.

(** [req.files[0].buffer]; a [TypeError] without a first file. *)
Definition firstBuffer : M bytes :=
  match body req with
  | MpFiles (f :: _) => ret (up_buffer f)
  | _ => throw "TypeError"
  end.

Definition chunked (user : User) (o : Options) : M Response :=
  (if isName (format o) then
     let* existing := findFile (header "x-zipline-partial-filename") in
     match existing with
     | Some _ =>
         respond (BadRequest "filename already exists (conflict: NAME format)")
     | None => ret tt
     end
   else ret tt);;
  let start := contentRange !! 0%nat in
  let end_ := contentRange !! 1%nat in
  let total := contentRange !! 2%nat in
  let filename := header "x-zipline-partial-filename" in
  let mimetype := header "x-zipline-partial-mimetype" in
  let identifier := header "x-zipline-partial-identifier" in
  let lastchunk :=
    match header "x-zipline-partial-lastchunk" with
    | Some v => String.eqb v "true"
    | None => false
    end in
  let tempFile :=
    pathJoin env (core_temp_directory zconfig)
      ("zipline_partial_" +:+ Js.show identifier +:+ "_" +:+ showNum start
       +:+ "_" +:+ showNum end_) in
  let* buffer := firstBuffer in
  emit (EvWriteTemp tempFile buffer);;
  if lastchunk then
    match filename with
    | None => throw "TypeError"          (* filename.split of undefined *)
    | Some filename =>
        let fileName := formatFileName env 0 (format o) filename in
        let ext := extOf filename in
        let* file :=
          createFile (fun id =>
            {| file_id := id;
               file_name :=
                 fileName +:+ (if Js.truthy (Some ext) then "." else "") +:+ ext;
               file_mimetype :=
                 if Js.truthy (header "uploadtext") then Some "text/plain"
                 else mimetype;
               file_userId := user_id user;
               file_embed := None;
               file_password := None;
               file_expiresAt := None;
               file_maxViews := None;
               file_originalName :=
                 if Js.truthy (header "original-name") then Some filename
                 else None;
               file_size := None;
               file_folderId := folderIdOf (folderToAdd o) |}) in
        let domain := pickDomain 0 user in
        let responseUrl :=
          domain +:+ routePrefix +:+ encodeURI env (file_name file) in
        emit (EvWorker
                {| w_user := user; w_fileId := file_id file;
                   w_filename := file_name file;
                   w_mimetype := file_mimetype file;
                   w_identifier := identifier; w_totalBytes := total;
                   w_expiresAt := expiry o; w_format := format o;
                   w_fileMaxViews := fileMaxViews o |});;
        ret (ChunkPending [responseUrl])
    end
  else ret ChunkSuccess.

(** *** Lines 239-371: the files of a single-shot upload *)

Definition sizeLimit (user : User) : Z :=
  if user_administrator user then uploader_admin_limit zconfig
  else uploader_user_limit zconfig.

(** [`file[${i}]`] *)
Definition fileTag (i : nat) : string := "file[" +:+ pretty i +:+ "]".

(** The filename whose existence line 269 looks up. *)
Definition existName (decodedName : string) : string :=
  if Js.truthy (header "x-zipline-filename")
  then Js.show (header "x-zipline-filename") else decodedName.

(** Lines 257-276: the checks on file [i]; the decoded name, its extension
    and the formatted name are what the rest of the iteration uses. *)
Definition validateFile (user : User) (o : Options) (i : nat)
    (file : UploadedFile) : M (string * string * string) :=
  if sizeLimit user <? up_size file then
    respond (BadRequest (fileTag i +:+ ": size too big"))
  else if negb (Js.truthy (Some (up_originalname file))) then
    respond (BadRequest (fileTag i +:+ ": no filename"))
  else
    match decodeURI env (up_originalname file) with
    | Err m => throw m
    | Ok decodedName =>
        let ext := extOf decodedName in
        if Js.includes (uploader_disabled_extensions zconfig) ext then
          respond (BadRequest
                     (fileTag i +:+ ": disabled extension recieved: " +:+ ext))
        else
          let fileName := formatFileName env i (format o) decodedName in
          (if isName (format o) || Js.truthy (header "x-zipline-filename") then
             let* existing := findFile (Some (existName decodedName)) in
             match existing with
             | Some _ =>
                 respond (BadRequest
                            (fileTag i +:+ ": filename already exists: '"
                             +:+ decodedName +:+ "'"))
             | None => ret tt
             end
           else ret tt);;
          ret (decodedName, ext, fileName)
    end.

(** Lines 283-294: the declared mimetype, or the one guessed from the
    extension for a generic declaration. *)
Definition resolveMime (file : UploadedFile) (decodedName : string)
    (response : ResponseBody) : string * ResponseBody :=
  if String.eqb (up_mimetype file) "application/octet-stream"
     && uploader_assume_mimetypes zconfig then
    let ext := Js.replace "." "" (pathExt env decodedName) in
    let mime := guess env ext in
    if negb (Js.truthy mime) then (up_mimetype file, setAssumed response None)
    else (Js.show mime, setAssumed response (Some (Js.show mime)))
  else (up_mimetype file, response).

(** Line 296 *)
Definition compressionUsed (o : Options) (file : UploadedFile) : bool :=
  Js.truthyNum (imageCompressionPercent o)
  && Js.startsWith (up_mimetype file) "image/".

(** Line 315 *)
Definition zwsRequested : bool :=
  match header "zws" with
  | Some z => Js.occurs "true" (Js.toLowerCase z)
  | None => false
  end.

Definition isImage (r : FileRecord) : bool :=
  match file_mimetype r with
  | Some m => Js.startsWith m "image/"
  | None => false
  end.

(** Line 353: the GPS data of the stored image is to be removed. *)
Definition gpsAttempted (fileUpload : FileRecord) : bool :=
  exif_enabled zconfig && exif_remove_gps zconfig && isImage fileUpload.

(** Lines 353-362 *)
Definition stripGps (fileUpload : FileRecord) (response : ResponseBody)
  : M ResponseBody :=
  if gpsAttempted fileUpload then
    emit (EvRemoveGPS (file_id fileUpload));;
    match removeGPSData env fileUpload with
    | Ok _ => ret (setRemovedGps response true)
    | Err m =>
        emit (EvLogError (file_id fileUpload) m);;
        ret (setRemovedGps response false)
    end
  else ret response.

(** Lines 298-313: the record of file [i]. *)
Definition newRecord (user : User) (o : Options) (i : nat)
    (file : UploadedFile) (decodedName ext fileName mimetype : string)
    (id : Z) : FileRecord :=
  {| file_id := id;
     file_name :=
       fileName +:+ (if compressionUsed o file then ".jpg"
                     else (if Js.truthy (Some ext) then "." else "") +:+ ext);
     file_mimetype :=
       Some (if Js.truthy (header "uploadtext") then "text/plain"
             else if compressionUsed o file then "image/jpeg" else mimetype);
     file_userId := user_id user;
     file_embed := Some (Js.truthy (header "embed"));
     file_password :=
       if Js.truthy (header "password")
       then Some (hashPassword env i (Js.show (header "password"))) else None;
     file_expiresAt := expiry o;
     file_maxViews := fileMaxViews o;
     file_originalName :=
       if Js.truthy (header "original-name") then Some decodedName else None;
     file_size := Some (up_size file);
     file_folderId := folderIdOf (folderToAdd o) |}.

(** Lines 318-326: the encoder rejects a buffer that holds no image. *)
Definition saveBlob (o : Options) (file : UploadedFile) (name : string)
  : M unit :=
  if compressionUsed o file then
    match sharpJpeg env (up_buffer file)
            (Js.toNum (imageCompressionPercent o)) with
    | Ok buffer => emit (EvSave name buffer "image/jpeg")
    | Err m => throw m
    end
  else emit (EvSave name (up_buffer file) (up_mimetype file)).

(** Lines 315-316: the alias of the record, when one is asked for. *)
Definition aliasOf (i : nat) (fileUpload : FileRecord) : option string :=
  if zwsRequested
  then Some (createInvisImage env i (uploader_length zconfig)
               (file_id fileUpload))
  else None.

(** [invis ? invis.invis : encodeURI(fileUpload.name)] *)
Definition targetOf (i : nat) (fileUpload : FileRecord) : string :=
  match aliasOf i fileUpload with
  | Some alias => alias
  | None => encodeURI env (file_name fileUpload)
  end.

(** Lines 338-340 *)
Definition responseUrlOf (i : nat) (user : User) (fileUpload : FileRecord)
  : string :=
  pickDomain i user +:+ routePrefix +:+ targetOf i fileUpload.

(** Lines 255-362: one iteration of the loop over [req.files]. *)
Definition uploadFile (user : User) (o : Options) (i : nat)
    (file : UploadedFile) (response : ResponseBody) : M ResponseBody :=
  let* checked := validateFile user o i file in
  let '(decodedName, ext, fileName) := checked in
  let '(mimetype, response) := resolveMime file decodedName response in
  let* fileUpload :=
    createFile (newRecord user o i file decodedName ext fileName mimetype) in
  when zwsRequested
    (emit (EvInvis (uploader_length zconfig) (file_id fileUpload)));;
  saveBlob o file (file_name fileUpload);;
  let responseUrl := responseUrlOf i user fileUpload in
  let response := pushFile response responseUrl in
  when (discord_upload zconfig)
    (emit (EvDiscord (file_id fileUpload)
             (pickDomain i user +:+ "/r/" +:+ targetOf i fileUpload)
             responseUrl));;
  stripGps fileUpload response.

(** Line 254: [for (let i = 0; i !== req.files.length; ++i)], from index
    [i] over the files not yet handled. *)
Fixpoint uploadLoop (user : User) (o : Options) (i : nat)
    (fs : list UploadedFile) (response : ResponseBody) : M ResponseBody :=
  match fs with
  | [] => ret response
  | file :: rest =>
      let* response := uploadFile user o i file response in
      uploadLoop user o (S i) rest response
  end.

(** Lines 365-370: the answer of a single-shot upload. *)
Definition finish (response : ResponseBody) : M Response :=
  if Js.truthy (header "no-json")
  then ret (PlainText (Js.join "," (resp_files response)))
  else ret (Json response).

Definition singleShot (user : User) (o : Options) : M Response :=
  match body req with
  | MpFiles fs =>
      if Nat.eqb (List.length fs) 0 then respond (BadRequest "no files")
      else
        let* response := uploadLoop user o 0 fs (response o) in
        finish response
  | _ => respond (BadRequest "no files")
  end.

(** *** Lines 22-371 *)

(** Lines 23-70: the request gets past authentication and the rate limit. *)
Definition gate : M User :=
  let* user := authenticate in
  rateLimit user;;
  ret user.

(** Everything up to the routing decision of line 140. *)
Definition prelude : M (User * Options) :=
  let* user := gate in
  multer;;
  let* o := parseOptions user in
  ret (user, o).

Definition isChunk : bool :=
  Js.truthy (header "content-range") && chunks_enabled zconfig.

(** Line 140 on: one of the two paths. *)
Definition route (user : User) (o : Options) : M Response :=
  if isChunk then chunked user o else singleShot user o.

Definition handler : M Response :=
  let* ctx := prelude in
  let '(user, o) := ctx in
  route user o.

(** Line 72 on, for the user let through the gate. *)
Definition afterGate (user : User) : M Response :=
  multer;;
  let* o := parseOptions user in
  route user o.

(** *** Vocabulary for the single-shot path *)

(** The validations pass for [file], whose decoded name is [decodedName],
    against the file table [db]: the size is within the limit of the user's
    class, there is a filename, it can be URI-decoded, the extension of the
    decoded name is not disabled and, for the [name] format or with a
    filename override, no record is named as line 269 says: as the
    x-zipline-filename header when it is set, as the decoded name
    otherwise. *)
Definition accepted (user : User) (o : Options) (db : list FileRecord)
    (file : UploadedFile) (decodedName : string) : Prop :=
  up_size file <= sizeLimit user
  /\ up_originalname file <> ""
  /\ decodeURI env (up_originalname file) = Ok decodedName
  /\ Js.includes (uploader_disabled_extensions zconfig) (extOf decodedName)
     = false
  /\ (isName (format o) || Js.truthy (header "x-zipline-filename") = true ->
      forall r, In r db -> file_name r <> existName decodedName).

(** The record of the file at index [i] of the batch, with the id [id]. *)
Definition recordOf (user : User) (o : Options) (i : nat)
    (file : UploadedFile) (decodedName : string) (id : Z) : FileRecord :=
  newRecord user o i file decodedName (extOf decodedName)
    (formatFileName env i (format o) decodedName)
    (fst (resolveMime file decodedName emptyResponse)) id.

(** [Records user o db id i fs rs]: [rs] are the records of the first files
    of [fs], in order, each accepted against the table as it was when its
    turn came; [db] and [id] are the table and the next id when file [i],
    the head of [fs], is reached. *)
Inductive Records (user : User) (o : Options)
  : list FileRecord -> Z -> nat -> list UploadedFile -> list FileRecord
    -> Prop :=
| RecordsStop db id i fs : Records user o db id i fs []
| RecordsNext db id i file rest decodedName rs :
    accepted user o db file decodedName ->
    Records user o (db ++ [recordOf user o i file decodedName id])
      (id + 1) (S i) rest rs ->
    Records user o db id i (file :: rest)
      (recordOf user o i file decodedName id :: rs).

End Handler.

(** [req.files], or nothing. *)
Definition batch (req : Request) : list UploadedFile :=
  match body req with MpFiles fs => fs | _ => [] end.

(** What the client of one request sees. *)
Inductive Outcome : Type :=
| Returned (r : Response)
| Thrown (message : string).

Definition run (env : Env) (zconfig : Config) (req : Request) (st : State)
  : Outcome * State :=
  match handler env zconfig req st with
  | (Val r, st') | (Ret r, st') => (Returned r, st')
  | (Throw m, st') => (Thrown m, st')
  end.


(** ** The state is a function of the calls made *)

(** The effect of one call on the tables. *)
Definition apply (st : State) (e : Event) : State :=
  match e with
  | EvUserUpdate id v =>
      {| users := map (withRatelimit id v) (users st); files := files st;
         folders := folders st; nextFileId := nextFileId st;
         trace := trace st ++ [e] |}
  | EvFileCreate r =>
      {| users := users st; files := files st ++ [r];
         folders := folders st; nextFileId := nextFileId st + 1;
         trace := trace st ++ [e] |}
  | _ =>
      {| users := users st; files := files st; folders := folders st;
         nextFileId := nextFileId st; trace := trace st ++ [e] |}
  end.

Definition replay (st : State) (evs : list Event) : State :=
  fold_left apply evs st.

Definition isUserUpdate (e : Event) : bool :=
  match e with EvUserUpdate _ _ => true | _ => false end.

Definition isFileCreate (e : Event) : bool :=
  match e with EvFileCreate _ => true | _ => false end.

Definition isSave (e : Event) : bool :=
  match e with EvSave _ _ _ => true | _ => false end.

(** Any call but [prisma.user.update]: the calls of the two upload paths. *)
Definition notUserUpdate (e : Event) : bool := negb (isUserUpdate e).

(** The records created, and the blob names saved, in order. *)
Fixpoint created (evs : list Event) : list FileRecord :=
  match evs with
  | [] => []
  | EvFileCreate r :: evs' => r :: created evs'
  | _ :: evs' => created evs'
  end.

Fixpoint saved (evs : list Event) : list string :=
  match evs with
  | [] => []
  | EvSave n _ _ :: evs' => n :: saved evs'
  | _ :: evs' => saved evs'
  end.

(** [emits Q c]: whatever the start state, [c] makes a sequence of calls
    that all satisfy [Q], and the final state is the start state after those
    calls. *)
Definition emits (Q : Event -> bool) {A} (c : M A) : Prop :=
  forall st, exists evs, snd (c st) = replay st evs /\ forallb Q evs = true.

Definition noCall (e : Event) : bool := false.

(** [responds P V c]: an early response of [c] satisfies [P], and a value it
    continues with satisfies [V]. *)
Definition responds (P : Response -> bool) {A} (V : A -> bool) (c : M A)
  : Prop :=
  forall st,
    match fst (c st) with
    | Val a => V a
    | Ret r => P r
    | Throw _ => true
    end = true.

(** [nothrow c]: [c] never ends in an exception. *)
Definition nothrow {A} (c : M A) : Prop :=
  forall st, match fst (c st) with Throw _ => false | _ => true end = true.

Definition anyValue {A} (a : A) : bool := true.
Definition noValue {A} (a : A) : bool := false.

(** ** Vocabulary of the properties *)



(** The ratelimit column of the user [id]. *)
Definition ratelimitOf (st : State) (id : Z) : option (option Z) :=
  option_map user_ratelimit
    (List.find (fun u => user_id u =? id) (users st)).

(** The response is not a 429. *)
Definition notLimited (r : Response) : bool :=
  match r with RateLimited _ => false | _ => true end.

(** The outcome is a 429. *)
Definition isRateLimited (out : Outcome) : bool :=
  match out with Returned r => negb (notLimited r) | Thrown _ => false end.

(** The response is a 400. *)
Definition isBadRequest (r : Response) : bool :=
  match r with BadRequest _ => true | _ => false end.

(** The response is a 200. *)
Definition isOk (r : Response) : bool := status r =? 200.

(** The response is not a 200. *)
Definition rejected (r : Response) : bool := negb (status r =? 200).

(** The outcome is a 200. *)
Definition isSuccess (out : Outcome) : bool :=
  match out with
  | Returned r => status r =? 200
  | Thrown _ => false
  end.

(** A monitor for the order of record creation and blob saving: it holds the
    record created last while its blob is not saved yet.  A save must find
    such a record, of the name being saved; a creation must find none. *)
Fixpoint monitor (pending : option FileRecord) (evs : list Event)
  : option (option FileRecord) :=
  match evs with
  | [] => Some pending
  | EvFileCreate r :: evs' =>
      match pending with
      | None => monitor (Some r) evs'
      | Some _ => None
      end
  | EvSave n _ _ :: evs' =>
      match pending with
      | Some r => if String.eqb n (file_name r) then monitor None evs' else None
      | None => None
      end
  | _ :: evs' => monitor pending evs'
  end.

(** Neither [prisma.file.create] nor [datasource.save] nor
    [prisma.user.update]. *)
Definition quiet (e : Event) : bool :=
  negb (isFileCreate e) && negb (isSave e) && notUserUpdate e.

(** A call that sets no rate-limit timestamp: anything but a
    [prisma.user.update] with a date. *)
Definition setsNoLimit (e : Event) : bool :=
  match e with
  | EvUserUpdate _ (Some _) => false
  | _ => true
  end.

(** [removeGPSData] was called; its failure was logged. *)
Definition gpsRemovalTried (e : Event) : bool :=
  match e with EvRemoveGPS _ => true | _ => false end.

Definition gpsRemovalFailed (e : Event) : bool :=
  match e with EvLogError _ _ => true | _ => false end.

(** ** Vocabulary of the further properties *)

(** The character [c] occurs in [s]. *)
Fixpoint hasChar (c : ascii) (s : string) : bool :=
  match s with
  | EmptyString => false
  | String x s' => Ascii.eqb x c || hasChar c s'
  end.

(** The blobs handed to [datasource.save], in order: name, bytes, type. *)
Fixpoint blobs (evs : list Event) : list (string * bytes * string) :=
  match evs with
  | [] => []
  | EvSave n d t :: evs' => (n, d, t) :: blobs evs'
  | _ :: evs' => blobs evs'
  end.

(** The blob [b] is what lines 318-326 save for [file]: the JPEG made of its
    buffer when compression applies, its buffer under its declared mimetype
    otherwise. *)
Definition storesFile (env : Env) (o : Options)
    (b : string * bytes * string) (file : UploadedFile) : Prop :=
  if compressionUsed o file then
    sharpJpeg env (up_buffer file) (Js.toNum (imageCompressionPercent o))
    = Ok (snd (fst b))
    /\ snd b = "image/jpeg"
  else snd (fst b) = up_buffer file /\ snd b = up_mimetype file.

(** The URLs of the records [rs], the first of which belongs to file [i]. *)
Fixpoint urlsOf (env : Env) (zconfig : Config) (req : Request) (user : User)
    (i : nat) (rs : list FileRecord) : list string :=
  match rs with
  | [] => []
  | r :: rs' =>
      responseUrlOf env zconfig req i user r
      :: urlsOf env zconfig req user (S i) rs'
  end.

(** The calls of the chunked path, and those of the single-shot path. *)
Definition chunkCall (e : Event) : bool :=
  match e with
  | EvUserUpdate _ _ | EvWriteTemp _ _ | EvFileCreate _ | EvWorker _ => true
  | _ => false
  end.

Definition singleCall (e : Event) : bool :=
  match e with
  | EvWriteTemp _ _ | EvWorker _ => false
  | _ => true
  end.

(** The calls that are made on request only: an alias needs the zws header,
    a notification the discord configuration, a GPS removal (and the log of
    its failure) the exif configuration. *)
Definition optionalCall (zconfig : Config) (req : Request) (e : Event)
  : bool :=
  match e with
  | EvInvis _ _ => zwsRequested req
  | EvDiscord _ _ _ => discord_upload zconfig
  | EvRemoveGPS _ | EvLogError _ _ =>
      exif_enabled zconfig && exif_remove_gps zconfig
  | _ => true
  end.

(** A number-or-null that passed the max-views check of lines 121-123. *)
Definition validViews (v : option Js.num) : Prop :=
  Js.isNaN v = false /\ Js.ltb (Js.toNum v) (Js.ofZ 0) = false.

(** ** A concrete deployment, to run the handler on *)

Module Scenario.

Definition digit (c : ascii) : option Z :=
  let n := nat_of_ascii c in
  if (Nat.leb 48 n && Nat.leb n 57)%bool then Some (Z.of_nat (n - 48))
  else None.

Fixpoint digits (acc : Z) (s : string) : option Z :=
  match s with
  | EmptyString => Some acc
  | String c s' =>
      match digit c with
      | Some d => digits (acc * 10 + d) s'
      | None => None
      end
  end.

(** Decimal integers with an optional sign; anything else is [NaN]. *)
Definition number (s : string) : Js.num :=
  match s with
  | EmptyString => Js.ofZ 0
  | String "-" (String c s' as t) =>
      match digits 0 t with Some z => Js.ofZ (- z) | None => Js.NaN end
  | _ => match digits 0 s with Some z => Js.ofZ z | None => Js.NaN end
  end.

Definition numberString (n : Js.num) : string :=
  match n with
  | Js.Fin q => pretty (Qnum q)
  | Js.Inf _ => "Infinity"
  | Js.NaN => "NaN"
  end.

Definition env : Env :=
  {| now := 2000;
     Number := number;
     numToString := numberString;
     parseExpiry := fun s =>
       match digits 0 s with Some z => Ok z | None => Err "invalid date" end;
     formatFileName := fun i f name =>
       match f with
       | Name => hd "" (Js.split "." name)
       | _ => "rnd" +:+ pretty i
       end;
     guess := fun ext =>
       if String.eqb ext "png" then Some "image/png"
       else if String.eqb ext "txt" then Some "text/plain" else None;
     hashPassword := fun _ pw => "hash:" +:+ pw;
     createInvisImage := fun i _ _ => "zws" +:+ pretty i;
     removeGPSData := fun r =>
       if Js.occurs "nogps" (file_name r) then Err "no exif data" else Ok tt;
     sharpJpeg := fun b _ =>
       match b with
       | Byte.xff :: _ => Ok b
       | _ => Err "Input buffer contains unsupported image format"
       end;
     decodeURI := fun s =>
       if Js.occurs "%" s then Err "URI malformed" else Ok s;
     encodeURI := fun s => s;
     pathExt := fun p =>
       if String.eqb (extOf p) "" then "" else "." +:+ extOf p;
     pathJoin := fun a b => a +:+ "/" +:+ b;
     randomIndex := fun _ _ => 0%nat |}.

Definition config : Config :=
  {| ratelimit_admin := 60;
     ratelimit_user := 30;
     uploader_default_expiration := None;
     uploader_default_format := "random";
     uploader_admin_limit := 1000;
     uploader_user_limit := 100;
     uploader_disabled_extensions := ["exe"];
     uploader_assume_mimetypes := true;
     uploader_route := "/u";
     uploader_length := 6;
     chunks_enabled := true;
     core_temp_directory := "/tmp";
     core_return_https := false;
     discord_upload := false;
     exif_enabled := true;
     exif_remove_gps := true |}.

Definition withDefaultExpiration (c : Config) (d : string) : Config :=
  {| ratelimit_admin := ratelimit_admin c;
     ratelimit_user := ratelimit_user c;
     uploader_default_expiration := Some d;
     uploader_default_format := uploader_default_format c;
     uploader_admin_limit := uploader_admin_limit c;
     uploader_user_limit := uploader_user_limit c;
     uploader_disabled_extensions := uploader_disabled_extensions c;
     uploader_assume_mimetypes := uploader_assume_mimetypes c;
     uploader_route := uploader_route c;
     uploader_length := uploader_length c;
     chunks_enabled := chunks_enabled c;
     core_temp_directory := core_temp_directory c;
     core_return_https := core_return_https c;
     discord_upload := discord_upload c;
     exif_enabled := exif_enabled c;
     exif_remove_gps := exif_remove_gps c |}.

(** An administrator whose cooldown ran out at 1000 (it is 2000 now), an
    administrator and a standard user without a cooldown, and a standard
    user still cooling down. *)
Definition admin : User :=
  {| user_id := 1; user_token := "tok-admin"; user_username := "root";
     user_administrator := true; user_ratelimit := Some 1000;
     user_domains := [] |}.

Definition freshAdmin : User :=
  {| user_id := 2; user_token := "tok-fresh"; user_username := "ops";
     user_administrator := true; user_ratelimit := None;
     user_domains := [] |}.

Definition alice : User :=
  {| user_id := 3; user_token := "tok-alice"; user_username := "alice";
     user_administrator := false; user_ratelimit := None;
     user_domains := [] |}.

Definition bob : User :=
  {| user_id := 4; user_token := "tok-bob"; user_username := "bob";
     user_administrator := false; user_ratelimit := Some 5000;
     user_domains := [] |}.

Definition state : State :=
  {| users := [admin; freshAdmin; alice; bob]; files := []; folders := [];
     nextFileId := 1; trace := [] |}.

Definition request (hs : list (string * string)) (b : Multipart) : Request :=
  {| headers := list_to_map hs; body := b |}.

Definition payload (n : nat) : bytes := repeat Byte.x00 n.

Definition upload (name mime : string) (size : nat) : UploadedFile :=
  {| up_originalname := name; up_mimetype := mime;
     up_size := Z.of_nat size; up_buffer := payload size |}.

(** Requests *)

Definition png : UploadedFile := upload "a.png" "image/png" 3.

Definition adminUpload : Request :=
  request [("authorization", "tok-admin"); ("host", "h.io")] (MpFiles [png]).

Definition aliceUpload : Request :=
  request [("authorization", "tok-alice"); ("host", "h.io")] (MpFiles [png]).

(** Bob, still cooling down, sends a chunk. *)
Definition bobChunk : Request :=
  request [("authorization", "tok-bob"); ("host", "h.io");
           ("content-range", "bytes 0-5/20");
           ("x-zipline-partial-identifier", "abc");
           ("x-zipline-partial-filename", "big.bin")]
    (MpFiles [upload "blob" "application/octet-stream" 5]).

(** An upload that asks for a compression of 250 percent. *)
Definition overCompressed : Request :=
  request [("authorization", "tok-alice"); ("host", "h.io");
           ("image-compression-percent", "250")] (MpFiles [png]).

(** The options of a request without option headers. *)
Definition plainOptions : Options :=
  {| expiry := None; response := emptyResponse; format := Random;
     imageCompressionPercent := None; fileMaxViews := None;
     folderToAdd := None |}.

Definition nameOptions : Options :=
  {| expiry := None; response := emptyResponse; format := Name;
     imageCompressionPercent := None; fileMaxViews := None;
     folderToAdd := None |}.

(** A picture and a generic file. *)
Definition aliceBatch : Request :=
  request [("authorization", "tok-alice"); ("host", "h.io")]
    (MpFiles [png; upload "b.bin" "application/octet-stream" 2]).

(** A picture and a file above the 100 bytes a standard user may send. *)
Definition big : UploadedFile := upload "big.bin" "application/octet-stream" 500.

Definition aliceTooBig : Request :=
  request [("authorization", "tok-alice"); ("host", "h.io")]
    (MpFiles [png; big]).

Definition afterPng : Res ResponseBody * State :=
  uploadLoop env config aliceTooBig alice plainOptions 0 [png] emptyResponse
    state.

Definition valueOf (r : Res ResponseBody) : ResponseBody :=
  match r with Val b => b | _ => emptyResponse end.

(** An upload with its own expiry, under a configured default expiry. *)
Definition expiringConfig : Config := withDefaultExpiration config "9000".

Definition aliceExpiring : Request :=
  request [("authorization", "tok-alice"); ("host", "h.io");
           ("expires-at", "7000")] (MpFiles [png]).

Definition expiringOptions : Options :=
  {| expiry := Some 9000; response := setExpiresAt emptyResponse 7000;
     format := Random; imageCompressionPercent := None;
     fileMaxViews := None; folderToAdd := None |}.

(** Pictures kept under their own names; [removeGPSData] fails on the one
    called nogps.png. *)
Definition nogps : UploadedFile := upload "nogps.png" "image/png" 4.

Definition gpsJson : Request :=
  request [("authorization", "tok-alice"); ("host", "h.io");
           ("format", "name")] (MpFiles [nogps]).

Definition gpsNoJson : Request :=
  request [("authorization", "tok-alice"); ("host", "h.io");
           ("format", "name"); ("no-json", "true")] (MpFiles [nogps]).

Definition gpsBatch : Request :=
  request [("authorization", "tok-alice"); ("host", "h.io");
           ("format", "name")] (MpFiles [nogps; upload "ok.png" "image/png" 4]).

(** A chunked upload of 20 bytes. *)
Definition chunk (range : string) (size : nat) (last : bool) : Request :=
  request
    ([("authorization", "tok-alice"); ("host", "h.io");
      ("content-range", range);
      ("x-zipline-partial-identifier", "abc");
      ("x-zipline-partial-filename", "big.bin");
      ("x-zipline-partial-mimetype", "application/octet-stream")]
     ++ (if last then [("x-zipline-partial-lastchunk", "true")] else []))
    (MpFiles [upload "blob" "application/octet-stream" size]).




(** Further requests *)

Definition anonymous : Request :=
  request [("host", "h.io")] (MpFiles [png]).

Definition stranger : Request :=
  request [("authorization", "tok-eve"); ("host", "h.io")] (MpFiles [png]).

Definition bobUpload : Request :=
  request [("authorization", "tok-bob"); ("host", "h.io")] (MpFiles [png]).

(** The administrator without a cooldown sends a request with no file. *)
Definition emptyUpload : Request :=
  request [("authorization", "tok-fresh"); ("host", "h.io")] MpNone.

Definition aliceEmpty : Request :=
  request [("authorization", "tok-alice"); ("host", "h.io")] (MpFiles []).

(** Alice owns the folder 7; she files a picture there, to be seen 5
    times. *)
Definition shelf : Folder := {| folder_id := 7; folder_userId := 3 |}.

Definition stateWithFolder : State :=
  {| users := [admin; freshAdmin; alice; bob]; files := [];
     folders := [shelf]; nextFileId := 1; trace := [] |}.

Definition aliceFiling : Request :=
  request [("authorization", "tok-alice"); ("host", "h.io");
           ("x-zipline-folder", "7"); ("max-views", "5")] (MpFiles [png]).

Definition filingOptions : Options :=
  {| expiry := None; response := setFolder emptyResponse 7; format := Random;
     imageCompressionPercent := None; fileMaxViews := Some (Js.ofZ 5);
     folderToAdd := Some (Js.ofZ 7) |}.

(** Expiries that do not parse. *)
Definition aliceSoon : Request :=
  request [("authorization", "tok-alice"); ("host", "h.io");
           ("expires-at", "soon")] (MpFiles [png]).

Definition brokenConfig : Config := withDefaultExpiration config "never".

(** A chunk of a name-format upload whose name is taken. *)
Definition taken : FileRecord :=
  {| file_id := 1; file_name := "big.bin"; file_mimetype := None;
     file_userId := 4; file_embed := None; file_password := None;
     file_expiresAt := None; file_maxViews := None;
     file_originalName := None; file_size := None; file_folderId := None |}.

Definition stateWithFile : State :=
  {| users := [admin; freshAdmin; alice; bob]; files := [taken];
     folders := []; nextFileId := 2; trace := [] |}.

Definition namedChunk : Request :=
  request [("authorization", "tok-alice"); ("host", "h.io");
           ("format", "name"); ("content-range", "bytes 0-5/20");
           ("x-zipline-partial-identifier", "abc");
           ("x-zipline-partial-filename", "big.bin")]
    (MpFiles [upload "blob" "application/octet-stream" 5]).

(** A picture the encoder takes, sent to be compressed to 50 percent, and
    the same request with bytes that are no image. *)
Definition photo : UploadedFile :=
  {| up_originalname := "pic.png"; up_mimetype := "image/png";
     up_size := 4; up_buffer := [Byte.xff; Byte.xd8; Byte.xff; Byte.xe0] |}.

Definition compressing : Request :=
  request [("authorization", "tok-alice"); ("host", "h.io");
           ("image-compression-percent", "50")] (MpFiles [photo]).

Definition compressingNoise : Request :=
  request [("authorization", "tok-alice"); ("host", "h.io");
           ("image-compression-percent", "50")] (MpFiles [png]).

Definition compressOptions : Options :=
  {| expiry := None; response := emptyResponse; format := Random;
     imageCompressionPercent := Some (Js.ofZ 50); fileMaxViews := None;
     folderToAdd := None |}.

(** A picture whose GPS removal fails, sent for compression under its own
    name. *)
Definition nogpsPhoto : UploadedFile :=
  {| up_originalname := "nogps.png"; up_mimetype := "image/png";
     up_size := 4; up_buffer := [Byte.xff; Byte.xd8; Byte.xff; Byte.xe0] |}.

Definition gpsCompressed : Request :=
  request [("authorization", "tok-alice"); ("host", "h.io");
           ("format", "name"); ("image-compression-percent", "50")]
    (MpFiles [nogpsPhoto]).

Definition compressNameOptions : Options :=
  {| expiry := None; response := emptyResponse; format := Name;
     imageCompressionPercent := Some (Js.ofZ 50); fileMaxViews := None;
     folderToAdd := None |}.

(** A name that is no URI encoding, with a disabled extension. *)
Definition malformed : Request :=
  request [("authorization", "tok-alice"); ("host", "h.io")]
    (MpFiles [upload "bad%.exe" "application/octet-stream" 3]).

(** A picture sent with a filename override that names a record. *)
Definition overriding : Request :=
  request [("authorization", "tok-alice"); ("host", "h.io");
           ("x-zipline-filename", "big.bin")] (MpFiles [png]).

(** An administrator without a timestamp, where administrators have no
    cooldown. *)
Definition noCooldown : Config :=
  {| ratelimit_admin := 0;
     ratelimit_user := 30;
     uploader_default_expiration := None;
     uploader_default_format := "random";
     uploader_admin_limit := 1000;
     uploader_user_limit := 100;
     uploader_disabled_extensions := ["exe"];
     uploader_assume_mimetypes := true;
     uploader_route := "/u";
     uploader_length := 6;
     chunks_enabled := true;
     core_temp_directory := "/tmp";
     core_return_https := false;
     discord_upload := false;
     exif_enabled := true;
     exif_remove_gps := true |}.

Definition freshAdminUpload : Request :=
  request [("authorization", "tok-fresh"); ("host", "h.io")] (MpFiles [png]).

(** A body the multipart parser gives up on. *)
Definition garbled : Request :=
  request [("authorization", "tok-alice"); ("host", "h.io")]
    (MpError "Unexpected end of form").

(** A chunk request without a file part. *)
Definition bareChunk : Request :=
  request [("authorization", "tok-alice"); ("host", "h.io");
           ("content-range", "bytes 0-5/20");
           ("x-zipline-partial-identifier", "abc");
           ("x-zipline-partial-filename", "big.bin")] MpNone.

End Scenario.

(** ** Basic facts about [replay] *)

Lemma replay_app st evs1 evs2 :
  replay st (evs1 ++ evs2) = replay (replay st evs1) evs2.
Proof. unfold replay. apply fold_left_app. Qed.

Lemma replay_trace st evs : trace (replay st evs) = trace st ++ evs.
Proof.
  revert st. induction evs as [|e evs IH]; intros st; simpl.
  - now rewrite app_nil_r.
  - rewrite IH. destruct e; simpl; now rewrite <- app_assoc.
Qed.

Lemma replay_inj st evs evs' : replay st evs = replay st evs' -> evs = evs'.
Proof.
  intros H. apply (f_equal trace) in H. rewrite !replay_trace in H.
  now apply app_inv_head in H.
Qed.

Lemma replay_folders st evs : folders (replay st evs) = folders st.
Proof.
  revert st. induction evs as [|e evs IH]; intros st; simpl; [easy|].
  rewrite IH. now destruct e.
Qed.

Lemma replay_users st evs :
  forallb notUserUpdate evs = true -> users (replay st evs) = users st.
Proof.
  revert st. induction evs as [|e evs IH]; intros st H; simpl in *; [easy|].
  apply andb_prop in H as [He H]. rewrite IH by exact H.
  now destruct e.
Qed.

Lemma replay_files st evs :
  files (replay st evs) = files st ++ created evs.
Proof.
  revert st. induction evs as [|e evs IH]; intros st; simpl.
  - now rewrite app_nil_r.
  - rewrite IH. destruct e; simpl; try reflexivity.
    now rewrite <- app_assoc.
Qed.

Lemma created_app evs1 evs2 : created (evs1 ++ evs2) = created evs1 ++ created evs2.
Proof.
  induction evs1 as [|e evs1 IH]; simpl; [easy|].
  destruct e; simpl; now rewrite ?IH.
Qed.

Lemma saved_app evs1 evs2 : saved (evs1 ++ evs2) = saved evs1 ++ saved evs2.
Proof.
  induction evs1 as [|e evs1 IH]; simpl; [easy|].
  destruct e; simpl; now rewrite ?IH.
Qed.

Lemma created_none evs :
  forallb (fun e => negb (isFileCreate e)) evs = true -> created evs = [].
Proof.
  induction evs as [|e evs IH]; simpl; [easy|].
  intros H. apply andb_prop in H as [He H]. destruct e; simpl in *; auto.
  discriminate.
Qed.

Lemma saved_none evs :
  forallb (fun e => negb (isSave e)) evs = true -> saved evs = [].
Proof.
  induction evs as [|e evs IH]; simpl; [easy|].
  intros H. apply andb_prop in H as [He H]. destruct e; simpl in *; auto.
  discriminate.
Qed.

Lemma forallb_weaken {A} (P Q : A -> bool) l :
  (forall x, P x = true -> Q x = true) ->
  forallb P l = true -> forallb Q l = true.
Proof.
  intros HPQ. induction l as [|x l IH]; simpl; [easy|].
  intros H. apply andb_prop in H as [Hx H]. now rewrite (HPQ _ Hx), IH.
Qed.

Section Emits.

Context {Q : Event -> bool}.

Lemma emits_ret {A} (a : A) : emits Q (ret a).
Proof. intros st. now exists []. Qed.

Lemma emits_respond {A} r : emits Q (@respond A r).
Proof. intros st. now exists []. Qed.

Lemma emits_throw {A} m : emits Q (@throw A m).
Proof. intros st. now exists []. Qed.

Lemma emits_get : emits Q get.
Proof. intros st. now exists []. Qed.

Lemma emits_bind {A B} (c : M A) (k : A -> M B) :
  emits Q c -> (forall a, emits Q (k a)) -> emits Q (bind c k).
Proof.
  intros Hc Hk st. unfold bind.
  destruct (Hc st) as (evs1 & E1 & Q1).
  destruct (c st) as [[a|r|m] st1]; simpl in E1; subst st1;
    try (exists evs1; now split).
  destruct (Hk a (replay st evs1)) as (evs2 & E2 & Q2).
  exists (evs1 ++ evs2). rewrite replay_app, forallb_app, Q1, Q2. now split.
Qed.

Lemma emits_emit e :
  Q e = true -> isUserUpdate e = false -> isFileCreate e = false ->
  emits Q (emit e).
Proof.
  intros He Hu Hc st. exists [e]. simpl. rewrite He. split; [|easy].
  now destruct e.
Qed.

Lemma emits_updateRatelimit id v :
  Q (EvUserUpdate id v) = true -> emits Q (updateRatelimit id v).
Proof. intros He st. exists [EvUserUpdate id v]. simpl. now rewrite He. Qed.

Lemma emits_createFile data :
  (forall id, Q (EvFileCreate (data id)) = true) -> emits Q (createFile data).
Proof.
  intros He st. exists [EvFileCreate (data (nextFileId st))]. simpl.
  now rewrite He.
Qed.

Lemma emits_when c m : emits Q m -> emits Q (when c m).
Proof. destruct c; simpl; [easy|]. intros _. apply emits_ret. Qed.

End Emits.

Lemma emits_weaken (P Q : Event -> bool) {A} (c : M A) :
  (forall e, P e = true -> Q e = true) -> emits P c -> emits Q c.
Proof.
  intros HPQ Hc st. destruct (Hc st) as (evs & E & HP).
  exists evs. split; [easy|]. now apply (forallb_weaken P Q).
Qed.

(** One step of a proof that a computation only makes calls in [Q]. *)
Ltac emits_step :=
  first
    [ apply emits_ret | apply emits_respond | apply emits_throw
    | apply emits_get
    | apply emits_bind; [|intros ?]
    | apply emits_when
    | apply emits_emit; reflexivity
    | apply emits_updateRatelimit; reflexivity
    | apply emits_createFile; intros ?; reflexivity
    | match goal with
      | |- emits _ (if ?b then _ else _) => destruct b
      | |- emits _ (match ?x with _ => _ end) => destruct x
      | |- emits _ (let '(_, _) := ?x in _) => destruct x
      end ].

Ltac emits_auto := repeat emits_step.

(** ** Which phase makes which calls *)

Lemma emits_noCall {A} (c : M A) st : emits noCall c -> snd (c st) = st.
Proof.
  intros H. destruct (H st) as (evs & E & HQ).
  destruct evs as [|e evs]; [exact E|discriminate].
Qed.

Section Phases.

Variable env : Env.
Variable zconfig : Config.
Variable req : Request.

Lemma authenticate_reads : emits noCall (authenticate req).
Proof. unfold authenticate, findUser. emits_auto. Qed.

Lemma multer_reads : emits noCall (multer req).
Proof. unfold multer. emits_auto. Qed.

Lemma parseOptions_reads user : emits noCall (parseOptions env zconfig req user).
Proof.
  unfold parseOptions, clientExpiry, defaultExpiry, compressionPercent,
    maxViews, folderOption, findFolder.
  emits_auto.
Qed.

Lemma validateFile_reads user o i file :
  emits noCall (validateFile env zconfig req user o i file).
Proof. unfold validateFile, findFile. emits_auto. Qed.

Lemma rateLimit_updates user :
  emits isUserUpdate (rateLimit env zconfig req user).
Proof. unfold rateLimit. emits_auto. Qed.

Lemma rateLimit_continuation user :
  Js.truthy (header req "content-range") = true ->
  emits noCall (rateLimit env zconfig req user).
Proof. intros H. unfold rateLimit. rewrite H. simpl. emits_auto. Qed.

Lemma rateLimit_standard user :
  user_administrator user = false -> user_ratelimit user = None ->
  emits noCall (rateLimit env zconfig req user).
Proof.
  intros Ha Hr. unfold rateLimit. rewrite Ha, Hr. simpl. emits_auto.
Qed.

Lemma stripGps_files r response :
  emits notUserUpdate (stripGps env zconfig r response).
Proof. unfold stripGps. emits_auto. Qed.

Lemma uploadFile_files user o i file response :
  emits notUserUpdate (uploadFile env zconfig req user o i file response).
Proof.
  unfold uploadFile.
  apply emits_bind.
  { apply (emits_weaken noCall); [discriminate|apply validateFile_reads]. }
  intros [[decodedName ext] fileName].
  destruct (resolveMime _ _ _ _ _) as [mimetype response'].
  unfold saveBlob. emits_auto. apply stripGps_files.
Qed.

Lemma uploadLoop_files user o fs : forall i response,
  emits notUserUpdate (uploadLoop env zconfig req user o i fs response).
Proof.
  induction fs as [|file rest IH]; intros i response; simpl.
  - apply emits_ret.
  - apply emits_bind; [apply uploadFile_files|]. intros response'. apply IH.
Qed.

Lemma singleShot_files user o :
  emits notUserUpdate (singleShot env zconfig req user o).
Proof.
  unfold singleShot, finish. destruct (body req); emits_auto.
  apply uploadLoop_files.
Qed.

Lemma chunked_files user o : emits notUserUpdate (chunked env zconfig req user o).
Proof. unfold chunked, findFile, firstBuffer. emits_auto. Qed.

End Phases.

(** ** Which responses a phase can give *)

Section Responds.

Context {P : Response -> bool}.

Lemma responds_ret {A} (V : A -> bool) a : V a = true -> responds P V (ret a).
Proof. intros H st. exact H. Qed.

Lemma responds_respond {A} (V : A -> bool) r :
  P r = true -> responds P V (@respond A r).
Proof. intros H st. exact H. Qed.

Lemma responds_throw {A} (V : A -> bool) m : responds P V (@throw A m).
Proof. intros st. reflexivity. Qed.

Lemma responds_bind {A B} (V1 : A -> bool) (V : B -> bool) c (k : A -> M B) :
  responds P V1 c -> (forall a, V1 a = true -> responds P V (k a)) ->
  responds P V (bind c k).
Proof.
  intros Hc Hk st. unfold bind. specialize (Hc st).
  destruct (c st) as [[a|r|m] st1]; simpl in *; try easy.
  apply (Hk a Hc).
Qed.

Lemma responds_any {A} (V : A -> bool) (c : M A) :
  responds P V c -> responds P anyValue c.
Proof.
  intros H st. specialize (H st). now destruct (fst (c st)).
Qed.

Lemma responds_get : responds P anyValue get.
Proof. intros st. reflexivity. Qed.

Lemma responds_emit e : responds P anyValue (emit e).
Proof. intros st. reflexivity. Qed.

Lemma responds_updateRatelimit id v : responds P anyValue (updateRatelimit id v).
Proof. intros st. reflexivity. Qed.

Lemma responds_createFile data : responds P anyValue (createFile data).
Proof. intros st. reflexivity. Qed.

Lemma responds_when c m : responds P anyValue m -> responds P anyValue (when c m).
Proof. destruct c; simpl; [easy|]. intros _ st. reflexivity. Qed.

End Responds.

Lemma responds_weaken (P Q : Response -> bool) {A} (V W : A -> bool)
    (c : M A) :
  (forall r, P r = true -> Q r = true) ->
  (forall a, V a = true -> W a = true) ->
  responds P V c -> responds Q W c.
Proof.
  intros HPQ HVW H st. specialize (H st).
  destruct (fst (c st)); auto.
Qed.

Ltac responds_step :=
  first
    [ apply responds_ret; reflexivity
    | apply responds_respond; reflexivity
    | apply responds_throw
    | apply responds_get | apply responds_emit
    | apply responds_updateRatelimit | apply responds_createFile
    | apply responds_when
    | apply (responds_bind anyValue); [|intros ? _]
    | match goal with
      | |- responds _ _ (if ?b then _ else _) => destruct b
      | |- responds _ _ (match ?x with _ => _ end) => destruct x
      end ].

Ltac responds_auto := repeat responds_step.

(** ** The monad laws the proofs use, and the shape of [handler] *)

Lemma bind_assoc {A B C} (c : M A) (k : A -> M B) (h : B -> M C) st :
  bind (bind c k) h st = bind c (fun a => bind (k a) h) st.
Proof. unfold bind. now destruct (c st) as [[a|r|m] st1]. Qed.

Lemma bind_val {A B} (c : M A) (k : A -> M B) st a st1 :
  c st = (Val a, st1) -> bind c k st = k a st1.
Proof. intros H. unfold bind. now rewrite H. Qed.

Lemma bind_ret_stop {A B} (c : M A) (k : A -> M B) st r st1 :
  c st = (Ret r, st1) -> bind c k st = (Ret r, st1).
Proof. intros H. unfold bind. now rewrite H. Qed.

Lemma bind_throw_stop {A B} (c : M A) (k : A -> M B) st m st1 :
  c st = (Throw m, st1) -> bind c k st = (Throw m, st1).
Proof. intros H. unfold bind. now rewrite H. Qed.

Section Shape.

Variable env : Env.
Variable zconfig : Config.
Variable req : Request.

Lemma handler_route st user o st1 :
  prelude env zconfig req st = (Val (user, o), st1) ->
  handler env zconfig req st = route env zconfig req user o st1.
Proof. intros H. unfold handler. now rewrite (bind_val _ _ _ _ _ H). Qed.

Lemma handler_afterGate st :
  handler env zconfig req st =
  bind (gate env zconfig req) (afterGate env zconfig req) st.
Proof.
  unfold handler, prelude, afterGate, bind.
  destruct (gate env zconfig req st) as [[user|r|m] st1]; try reflexivity.
  destruct (multer req st1) as [[[]|r|m] st2]; try reflexivity.
  destruct (parseOptions env zconfig req user st2) as [[o|r|m] st3];
    reflexivity.
Qed.

Lemma prelude_afterGate st user st1 :
  gate env zconfig req st = (Val user, st1) ->
  (forall m, body req <> MpError m) ->
  prelude env zconfig req st =
  bind (parseOptions env zconfig req user) (fun o => ret (user, o)) st1.
Proof.
  intros Hg Hb. unfold prelude. rewrite (bind_val _ _ _ _ _ Hg).
  unfold multer. destruct (body req); try reflexivity.
  now elim (Hb message).
Qed.

Lemma route_files user o : emits notUserUpdate (route env zconfig req user o).
Proof.
  unfold route. destruct (isChunk zconfig req);
    [apply chunked_files|apply singleShot_files].
Qed.

Lemma afterGate_files user :
  emits notUserUpdate (afterGate env zconfig req user).
Proof.
  unfold afterGate. apply emits_bind.
  { apply (emits_weaken noCall); [discriminate|apply multer_reads]. }
  intros _. apply emits_bind.
  { apply (emits_weaken noCall); [discriminate|apply parseOptions_reads]. }
  intros o. apply route_files.
Qed.

Lemma gate_updates : emits isUserUpdate (gate env zconfig req).
Proof.
  unfold gate. apply emits_bind.
  { apply (emits_weaken noCall); [discriminate|apply authenticate_reads]. }
  intros user. apply emits_bind; [apply rateLimit_updates|].
  intros _. apply emits_ret.
Qed.

End Shape.

Lemma run_state env zconfig req st :
  snd (run env zconfig req st) = snd (handler env zconfig req st).
Proof.
  unfold run. now destruct (handler env zconfig req st) as [[r|r|m] st'].
Qed.

Lemma run_outcome env zconfig req st :
  fst (run env zconfig req st) =
  match fst (handler env zconfig req st) with
  | Val r | Ret r => Returned r
  | Throw m => Thrown m
  end.
Proof.
  unfold run. now destruct (handler env zconfig req st) as [[r|r|m] st'].
Qed.

(** ** Past the gate, an early answer is a 400 *)

Section PastGate.

Variable env : Env.
Variable zconfig : Config.
Variable req : Request.

Lemma authenticate_notLimited :
  responds notLimited anyValue (authenticate req).
Proof. unfold authenticate, findUser. responds_auto. Qed.

Lemma parseOptions_badRequest user :
  responds isBadRequest anyValue (parseOptions env zconfig req user).
Proof.
  unfold parseOptions, clientExpiry, defaultExpiry, compressionPercent,
    maxViews, folderOption, findFolder.
  responds_auto.
Qed.

Lemma uploadFile_badRequest user o i file response :
  responds isBadRequest anyValue
    (uploadFile env zconfig req user o i file response).
Proof.
  unfold uploadFile, validateFile, findFile, saveBlob, stripGps.
  responds_auto.
Qed.

Lemma uploadLoop_badRequest user o fs : forall i response,
  responds isBadRequest anyValue
    (uploadLoop env zconfig req user o i fs response).
Proof.
  induction fs as [|file rest IH]; intros i response; simpl.
  - now apply responds_ret.
  - apply (responds_bind anyValue); [apply uploadFile_badRequest|].
    intros response' _. apply IH.
Qed.

Lemma singleShot_badRequest user o :
  responds isBadRequest isOk (singleShot env zconfig req user o).
Proof.
  unfold singleShot, finish.
  destruct (body req); responds_auto. apply uploadLoop_badRequest.
Qed.

Lemma route_badRequest user o :
  responds isBadRequest isOk (route env zconfig req user o).
Proof.
  unfold route. destruct (isChunk zconfig req).
  - unfold chunked, findFile, firstBuffer. responds_auto.
  - apply singleShot_badRequest.
Qed.

Lemma afterGate_badRequest user :
  responds isBadRequest isOk (afterGate env zconfig req user).
Proof.
  unfold afterGate, multer.
  apply (responds_bind anyValue); [responds_auto|]. intros _ _.
  apply (responds_bind anyValue); [apply parseOptions_badRequest|].
  intros o _. apply route_badRequest.
Qed.

Lemma afterGate_notLimited user :
  responds notLimited notLimited (afterGate env zconfig req user).
Proof.
  apply (responds_weaken isBadRequest _ isOk); [now intros []|now intros []|].
  apply afterGate_badRequest.
Qed.

End PastGate.

(** ** The rate-limit gate *)

Lemma responds_outcome env zconfig req st (P : Response -> bool) :
  responds P P (handler env zconfig req) ->
  match fst (run env zconfig req st) with
  | Returned r => P r
  | Thrown _ => true
  end = true.
Proof.
  intros H. rewrite run_outcome. specialize (H st).
  now destruct (fst (handler env zconfig req st)).
Qed.

Lemma find_withRatelimit id v us :
  List.find (fun u => user_id u =? id) (map (withRatelimit id v) us) =
  option_map (withRatelimit id v) (List.find (fun u => user_id u =? id) us).
Proof.
  induction us as [|u us IH]; simpl; [easy|].
  unfold withRatelimit at 1.
  destruct (user_id u =? id) eqn:E; simpl; rewrite E; [|exact IH].
  unfold withRatelimit. now rewrite E.
Qed.

Lemma find_by_id_of_find {f} us (user : User) :
  List.find f us = Some user ->
  exists u, List.find (fun u => user_id u =? user_id user) us = Some u.
Proof.
  induction us as [|u us IH]; simpl; [discriminate|].
  destruct (f u).
  - intros [= ->]. rewrite Z.eqb_refl. now exists user.
  - intros H. destruct (user_id u =? user_id user); [now exists u|auto].
Qed.

Section Gate.

Variable env : Env.
Variable zconfig : Config.
Variable req : Request.

Lemma authenticate_found st user st1 :
  authenticate req st = (Val user, st1) ->
  st1 = st /\ exists u,
    List.find (fun u => user_id u =? user_id user) (users st) = Some u.
Proof.
  intros H. split.
  - pose proof (emits_noCall _ st (authenticate_reads req)) as E.
    now rewrite H in E.
  - revert H. unfold authenticate, findUser, bind, get, ret, respond.
    destruct (negb _); [discriminate|].
    destruct (List.find _ (users st)) as [u|] eqn:F; [|discriminate].
    intros [= -> _]. exact (find_by_id_of_find _ _ F).
Qed.

Lemma gate_val st user :
  authenticate req st = (Val user, st) ->
  gate env zconfig req st =
  bind (rateLimit env zconfig req user) (fun _ => ret user) st.
Proof. intros H. unfold gate. now rewrite (bind_val _ _ _ _ _ H). Qed.

(** A request with a content-range header goes through the gate untouched. *)
Lemma gate_continuation :
  Js.truthy (header req "content-range") = true ->
  emits noCall (gate env zconfig req)
  /\ responds notLimited anyValue (gate env zconfig req).
Proof.
  intros H. unfold gate. split.
  - apply emits_bind; [apply authenticate_reads|]. intros user.
    apply emits_bind; [now apply rateLimit_continuation|].
    intros _. apply emits_ret.
  - apply (responds_bind anyValue); [apply authenticate_notLimited|].
    intros user _. unfold rateLimit. rewrite H. simpl. responds_auto.
Qed.

(** A standard user without a timestamp: no branch of the gate applies. *)
Lemma gate_standard st user :
  authenticate req st = (Val user, st) ->
  user_administrator user = false -> user_ratelimit user = None ->
  gate env zconfig req st = (Val user, st).
Proof.
  intros H Ha Hr. rewrite (gate_val _ _ H).
  unfold rateLimit, bind. rewrite Ha, Hr. simpl.
  destruct (negb _); [|reflexivity].
  now destruct (0 <? ratelimit_user zconfig).
Qed.

(** An elapsed timestamp is cleared, and that is all the gate does. *)
Lemma gate_expired st user limit :
  authenticate req st = (Val user, st) ->
  user_ratelimit user = Some limit -> limit <= now env ->
  Js.truthy (header req "content-range") = false ->
  gate env zconfig req st =
  (Val user, replay st [EvUserUpdate (user_id user) None]).
Proof.
  intros H Hr Hl Hc. rewrite (gate_val _ _ H).
  unfold rateLimit, bind. rewrite Hr, Hc. simpl.
  destruct (limit - now env <=? 0) eqn:E; [reflexivity|].
  apply Z.leb_gt in E. lia.
Qed.

(** An administrator without a timestamp starts a cooldown. *)
Lemma gate_fresh st user :
  authenticate req st = (Val user, st) ->
  user_ratelimit user = None -> user_administrator user = true ->
  0 < ratelimit_admin zconfig ->
  Js.truthy (header req "content-range") = false ->
  gate env zconfig req st =
  (Val user,
   replay st [EvUserUpdate (user_id user)
                (Some (now env + ratelimit_admin zconfig * 1000))]).
Proof.
  intros H Hr Ha Hp Hc. rewrite (gate_val _ _ H).
  unfold rateLimit, bind. rewrite Hr, Ha, Hc. simpl.
  apply Z.ltb_lt in Hp. now rewrite Hp.
Qed.

(** Past the gate, the handler makes no call to [prisma.user.update] and
    never answers 429. *)
Lemma handler_past_gate st user st1 :
  gate env zconfig req st = (Val user, st1) ->
  isRateLimited (fst (run env zconfig req st)) = false
  /\ exists evs, snd (run env zconfig req st) = replay st1 evs
                 /\ forallb notUserUpdate evs = true.
Proof.
  intros Hg. rewrite run_outcome, run_state, handler_afterGate.
  rewrite (bind_val _ _ _ _ _ Hg). split.
  - pose proof (afterGate_notLimited env zconfig req user st1) as H.
    destruct (fst (afterGate env zconfig req user st1)); simpl;
      try reflexivity; now rewrite H.
  - apply afterGate_files.
Qed.

End Gate.

(** C5: a request that carries a (non-empty) content-range header is never
    answered 429, and handling it makes no call to [prisma.user.update]: the
    user table, and with it every rate-limit timestamp, is the same after the
    request as before. *)
Theorem continuation_bypasses_rate_limit env zconfig req st :
  Js.truthy (header req "content-range") = true ->
  isRateLimited (fst (run env zconfig req st)) = false
  /\ users (snd (run env zconfig req st)) = users st
  /\ exists evs, snd (run env zconfig req st) = replay st evs
                 /\ forallb notUserUpdate evs = true.
Proof.
  intros H.
  destruct (gate_continuation env zconfig req H) as [Hreads Hresp].
  assert (E : emits notUserUpdate (handler env zconfig req)).
  { intros st0. rewrite handler_afterGate. revert st0.
    apply emits_bind.
    - apply (emits_weaken noCall); [discriminate|exact Hreads].
    - intros user. apply afterGate_files. }
  assert (R : responds notLimited notLimited (handler env zconfig req)).
  { intros st0. rewrite handler_afterGate. revert st0.
    apply (responds_bind anyValue); [exact Hresp|].
    intros user _. apply afterGate_notLimited. }
  destruct (E st) as (evs & Eq & Hq). rewrite <- run_state in Eq.
  split; [|split].
  - pose proof (responds_outcome env zconfig req st _ R) as O.
    unfold isRateLimited. destruct (fst (run env zconfig req st)); [|easy].
    now rewrite O.
  - rewrite Eq. now apply replay_users.
  - now exists evs.
Qed.

(** C10: handling a request of a standard user (not an administrator)
    never sets a rate-limit timestamp, whatever the configured user cooldown
    and whether the request is a chunk or not: no call to
    [prisma.user.update] carries a date.  When the timestamp of the user is
    unset, the gate lets the request through as it is and no call to
    [prisma.user.update] is made at all, so the user table is unchanged (the
    branch that would set the cooldown sits under a nested test for an
    administrator). *)
Theorem standard_user_never_limited env zconfig req st user :
  authenticate req st = (Val user, st) ->
  user_administrator user = false ->
  (exists evs, snd (run env zconfig req st) = replay st evs
               /\ forallb setsNoLimit evs = true)
  /\ (user_ratelimit user = None ->
      gate env zconfig req st = (Val user, st)
      /\ users (snd (run env zconfig req st)) = users st
      /\ exists evs, snd (run env zconfig req st) = replay st evs
                     /\ forallb notUserUpdate evs = true).
Proof.
  intros H Ha. split.
  - assert (E : emits setsNoLimit
                  (bind (bind (rateLimit env zconfig req user)
                           (fun _ => ret user))
                     (afterGate env zconfig req))).
    { apply emits_bind.
      - unfold rateLimit. rewrite Ha. simpl. emits_auto.
      - intros u. apply (emits_weaken notUserUpdate);
          [now intros []|apply afterGate_files]. }
    destruct (E st) as (evs & Eq & Hq). exists evs. split; [|exact Hq].
    rewrite run_state, handler_afterGate, <- Eq.
    unfold bind at 1 3. now rewrite (gate_val env zconfig req st user H).
  - intros Hr.
    pose proof (gate_standard env zconfig req st user H Ha Hr) as Hg.
    destruct (handler_past_gate env zconfig req st user st Hg)
      as (_ & evs & Eq & Hq).
    split; [exact Hg|split].
    + rewrite Eq. now apply replay_users.
    + now exists evs.
Qed.

(** The gate sets no timestamp unless it finds an administrator without
    one, the cooldown positive, on a request without content-range. *)
Lemma rateLimit_sets_no_limit env zconfig req user :
  Js.truthy (header req "content-range") = true
  \/ user_ratelimit user <> None
  \/ user_administrator user = false
  \/ ratelimit_admin zconfig <= 0 ->
  emits setsNoLimit (rateLimit env zconfig req user).
Proof.
  intros H. unfold rateLimit.
  destruct (Js.truthy (header req "content-range")); simpl;
    [destruct (user_ratelimit user); apply emits_ret|].
  destruct (user_ratelimit user) as [limit|].
  { destruct (limit - now env <=? 0);
      [now apply emits_updateRatelimit|apply emits_respond]. }
  destruct (user_administrator user); simpl.
  - destruct (0 <? ratelimit_admin zconfig) eqn:E; [|apply emits_ret].
    apply Z.ltb_lt in E.
    destruct H as [H|[H|[H|H]]]; try discriminate; [now elim H|lia].
  - destruct (0 <? ratelimit_user zconfig); apply emits_ret.
Qed.

(** C4, as the code has it: when the stored timestamp of a user
    (administrator or not) has elapsed, a request without content-range goes
    through the gate, which clears the timestamp and does nothing else; the
    request is not answered 429, no further [prisma.user.update] is made, and
    when the request ends the timestamp is unset, not renewed.  The fresh
    timestamp [now + cooldown] is what the gate gives an administrator it
    finds with an unset timestamp when the administrator cooldown is above
    0, that is, on a later request; and that is the only case: whenever a
    request of an authenticated user makes a [prisma.user.update] that
    carries a date, the request has no content-range, the user is an
    administrator whose timestamp was unset, the administrator cooldown is
    above 0, the update is the first call of the request, for that user and
    with the date [now + cooldown]. *)
Theorem expired_limit_is_cleared env zconfig req st user :
  authenticate req st = (Val user, st) ->
  (Js.truthy (header req "content-range") = false ->
   forall limit,
     user_ratelimit user = Some limit -> limit <= now env ->
     gate env zconfig req st =
       (Val user, replay st [EvUserUpdate (user_id user) None])
     /\ isRateLimited (fst (run env zconfig req st)) = false
     /\ (exists evs,
           snd (run env zconfig req st) =
             replay st (EvUserUpdate (user_id user) None :: evs)
           /\ forallb notUserUpdate evs = true)
     /\ ratelimitOf (snd (run env zconfig req st)) (user_id user) = Some None)
  /\ (Js.truthy (header req "content-range") = false ->
      user_ratelimit user = None -> user_administrator user = true ->
      0 < ratelimit_admin zconfig ->
      gate env zconfig req st =
        (Val user,
         replay st [EvUserUpdate (user_id user)
                      (Some (now env + ratelimit_admin zconfig * 1000))])
      /\ now env < now env + ratelimit_admin zconfig * 1000)
  /\ (forall evs id t,
        snd (run env zconfig req st) = replay st evs ->
        In (EvUserUpdate id (Some t)) evs ->
        Js.truthy (header req "content-range") = false
        /\ user_ratelimit user = None
        /\ user_administrator user = true
        /\ 0 < ratelimit_admin zconfig
        /\ id = user_id user
        /\ t = now env + ratelimit_admin zconfig * 1000
        /\ exists evs',
             evs = EvUserUpdate id (Some t) :: evs'
             /\ forallb notUserUpdate evs' = true).
Proof.
  intros H. split; [|split].
  - intros Hc limit Hr Hl.
    pose proof (gate_expired env zconfig req st user limit H Hr Hl Hc) as Hg.
    destruct (handler_past_gate env zconfig req st user _ Hg)
      as (Hn & evs & Eq & Hq).
    split; [exact Hg|split; [exact Hn|split]].
    + now exists evs.
    + unfold ratelimitOf. rewrite Eq, (replay_users _ _ Hq). simpl.
      rewrite find_withRatelimit.
      destruct (authenticate_found req st user st H) as (_ & u & F).
      rewrite F. simpl. unfold withRatelimit.
      apply find_some in F as [_ F]. now rewrite F.
  - intros Hc Hr Ha Hp. split; [now apply gate_fresh|lia].
  - intros evs id t E Hin.
    assert (No : emits setsNoLimit (rateLimit env zconfig req user) -> False).
    { intros Hrl.
      assert (Eh : emits setsNoLimit
                     (bind (bind (rateLimit env zconfig req user)
                              (fun _ => ret user))
                        (afterGate env zconfig req))).
      { apply emits_bind.
        - apply emits_bind; [exact Hrl|]. intros _. apply emits_ret.
        - intros u. apply (emits_weaken notUserUpdate);
            [now intros []|apply afterGate_files]. }
      destruct (Eh st) as (evs0 & Eq & Hq).
      assert (E0 : snd (run env zconfig req st) = replay st evs0).
      { rewrite run_state, handler_afterGate, <- Eq.
        unfold bind at 1 3. now rewrite (gate_val env zconfig req st user H). }
      rewrite E0 in E. apply replay_inj in E. subst evs0.
      rewrite forallb_forall in Hq. specialize (Hq _ Hin). discriminate. }
    destruct (Js.truthy (header req "content-range")) eqn:Hc.
    { elim No. apply rateLimit_sets_no_limit. now left. }
    destruct (user_ratelimit user) as [limit|] eqn:Hr.
    { elim No. apply rateLimit_sets_no_limit. right. left. now rewrite Hr. }
    destruct (user_administrator user) eqn:Ha.
    2:{ elim No. apply rateLimit_sets_no_limit. right. right. now left. }
    destruct (Z.ltb_spec 0 (ratelimit_admin zconfig)) as [Hp|Hp].
    2:{ elim No. apply rateLimit_sets_no_limit. right. right. now right. }
    pose proof (gate_fresh env zconfig req st user H Hr Ha Hp Hc) as Hg.
    destruct (handler_past_gate env zconfig req st user _ Hg)
      as (_ & evs' & Eq & Hq).
    rewrite Eq, <- replay_app in E. apply replay_inj in E. subst evs.
    destruct Hin as [Hin|Hin].
    + injection Hin as <- <-. repeat split; try assumption. now exists evs'.
    + rewrite forallb_forall in Hq. specialize (Hq _ Hin). discriminate.
Qed.

(** C4 as stated fails: the administrator's timestamp 1000 has elapsed at
    2000 and the administrator cooldown is 60 s, the upload succeeds, and the
    administrator is left without any timestamp. *)
Lemma expired_admin_gets_no_fresh_limit :
  let out := run Scenario.env Scenario.config Scenario.adminUpload
               Scenario.state in
  authenticate Scenario.adminUpload Scenario.state
    = (Val Scenario.admin, Scenario.state)
  /\ user_administrator Scenario.admin = true
  /\ user_ratelimit Scenario.admin = Some 1000
  /\ 1000 <= now Scenario.env
  /\ 0 < ratelimit_admin Scenario.config
  /\ Js.truthy (header Scenario.adminUpload "content-range") = false
  /\ isSuccess (fst out) = true
  /\ ~ (exists t, ratelimitOf (snd out) (user_id Scenario.admin)
                   = Some (Some t) /\ now Scenario.env < t).
Proof.
  repeat split; try reflexivity; try (simpl; lia).
  intros (t & H & _). vm_compute in H. discriminate.
Qed.

Lemma expired_limit_is_cleared_witness :
  authenticate Scenario.adminUpload Scenario.state
    = (Val Scenario.admin, Scenario.state)
  /\ Js.truthy (header Scenario.adminUpload "content-range") = false
  /\ user_ratelimit Scenario.admin = Some 1000
  /\ ratelimitOf
       (snd (run Scenario.env Scenario.config Scenario.adminUpload
               Scenario.state)) 1 = Some None
  /\ forall evs id t,
       snd (run Scenario.env Scenario.config Scenario.adminUpload
              Scenario.state) = replay Scenario.state evs ->
       ~ In (EvUserUpdate id (Some t)) evs.
Proof.
  split; [reflexivity|split; [reflexivity|split; [reflexivity|]]].
  destruct (expired_limit_is_cleared Scenario.env Scenario.config
              Scenario.adminUpload Scenario.state Scenario.admin)
    as (A & _ & C); [reflexivity|].
  destruct (A eq_refl 1000) as (_ & _ & _ & R); [reflexivity|simpl; lia|].
  split; [exact R|].
  intros evs id t E Hin.
  destruct (C evs id t E Hin) as (_ & Hr & _). discriminate Hr.
Defined.

Lemma continuation_bypasses_rate_limit_witness :
  Js.truthy (header Scenario.bobChunk "content-range") = true
  /\ isRateLimited
       (fst (run Scenario.env Scenario.config Scenario.bobChunk
               Scenario.state)) = false
  /\ users (snd (run Scenario.env Scenario.config Scenario.bobChunk
                   Scenario.state)) = users Scenario.state.
Proof.
  split; [reflexivity|].
  destruct (continuation_bypasses_rate_limit Scenario.env Scenario.config
              Scenario.bobChunk Scenario.state) as (A & B & _);
    [reflexivity|].
  split; [exact A|exact B].
Defined.

Lemma standard_user_never_limited_witness :
  authenticate Scenario.aliceUpload Scenario.state
    = (Val Scenario.alice, Scenario.state)
  /\ 0 < ratelimit_user Scenario.config
  /\ users (snd (run Scenario.env Scenario.config Scenario.aliceUpload
                   Scenario.state)) = users Scenario.state.
Proof.
  split; [reflexivity|split; [reflexivity|]].
  destruct (standard_user_never_limited Scenario.env Scenario.config
              Scenario.aliceUpload Scenario.state Scenario.alice)
    as (_ & H); [reflexivity|reflexivity|].
  apply H. reflexivity.
Defined.

(** ** The image-compression-percent header *)

Lemma nothrow_ret {A} (a : A) : nothrow (ret a).
Proof. intros st. reflexivity. Qed.

Lemma nothrow_respond {A} r : nothrow (@respond A r).
Proof. intros st. reflexivity. Qed.

Lemma nothrow_get : nothrow get.
Proof. intros st. reflexivity. Qed.

Lemma nothrow_bind {A B} (c : M A) (k : A -> M B) :
  nothrow c -> (forall a, nothrow (k a)) -> nothrow (bind c k).
Proof.
  intros Hc Hk st. unfold bind. specialize (Hc st).
  destruct (c st) as [[a|r|m] st1]; simpl in *; try easy. apply Hk.
Qed.

Ltac nothrow_step :=
  first
    [ apply nothrow_ret | apply nothrow_respond | apply nothrow_get
    | apply nothrow_bind; [|intros ?]
    | match goal with
      | |- nothrow (if ?b then _ else _) => destruct b
      | |- nothrow (match ?x with _ => _ end) => destruct x
      end ].

Section Compression.

Variable env : Env.
Variable zconfig : Config.
Variable req : Request.

Lemma parseOptions_nothrow user : nothrow (parseOptions env zconfig req user).
Proof.
  unfold parseOptions, clientExpiry, defaultExpiry, compressionPercent,
    maxViews, folderOption, findFolder.
  repeat nothrow_step.
Qed.

Lemma gate_rejected : responds rejected anyValue (gate env zconfig req).
Proof. unfold gate, authenticate, findUser, rateLimit. responds_auto. Qed.

Lemma prelude_updates : emits isUserUpdate (prelude env zconfig req).
Proof.
  unfold prelude. apply emits_bind; [apply gate_updates|]. intros user.
  apply emits_bind.
  { apply (emits_weaken noCall); [discriminate|apply multer_reads]. }
  intros _. apply emits_bind.
  { apply (emits_weaken noCall); [discriminate|apply parseOptions_reads]. }
  intros o. apply emits_ret.
Qed.

Variable s : string.
Hypothesis present : header req "image-compression-percent" = Some s.
Hypothesis nonEmpty : s <> "".
Hypothesis invalid :
  Number env s = Js.NaN
  \/ Js.ltb (Number env s) (Js.ofZ 0) = true
  \/ Js.ltb (Js.ofZ 100) (Number env s) = true.

Lemma compressionPercent_rejects :
  responds isBadRequest noValue (compressionPercent env req).
Proof.
  unfold compressionPercent, numberHeader. rewrite present.
  destruct s as [|c s']; [now elim nonEmpty|].
  cbn [Js.truthy Js.show Js.isNaN Js.toNum].
  destruct invalid as [H|[H|H]].
  - rewrite H. now apply responds_respond.
  - rewrite H. destruct (Number env (String c s'));
      now apply responds_respond.
  - rewrite H, orb_true_r. destruct (Number env (String c s'));
      now apply responds_respond.
Qed.

Lemma parseOptions_rejects user :
  responds isBadRequest noValue (parseOptions env zconfig req user).
Proof.
  unfold parseOptions.
  apply (responds_bind anyValue).
  { unfold clientExpiry. responds_auto. }
  intros [expiry0 response0] _.
  apply (responds_bind anyValue).
  { unfold defaultExpiry. responds_auto. }
  intros expiry1 _.
  apply (responds_bind noValue); [apply compressionPercent_rejects|].
  intros a Ha. discriminate Ha.
Qed.

Lemma prelude_rejects : responds rejected noValue (prelude env zconfig req).
Proof.
  unfold prelude.
  apply (responds_bind anyValue); [apply gate_rejected|]. intros user _.
  apply (responds_bind anyValue); [unfold multer; responds_auto|].
  intros _ _.
  apply (responds_bind noValue).
  - apply (responds_weaken isBadRequest _ noValue);
      [now intros []|easy|apply parseOptions_rejects].
  - intros a Ha. discriminate Ha.
Qed.

Lemma handler_stops_in_prelude st :
  handler env zconfig req st =
  match prelude env zconfig req st with
  | (Val _, st1) => (Throw "", st1)
  | (Ret r, st1) => (Ret r, st1)
  | (Throw m, st1) => (Throw m, st1)
  end
  /\ match fst (prelude env zconfig req st) with
     | Val _ => False
     | Ret r => rejected r = true
     | Throw _ => True
     end.
Proof.
  pose proof (prelude_rejects st) as H. unfold handler, bind.
  destruct (prelude env zconfig req st) as [[a|r|m] st1]; simpl in *;
    try easy.
Qed.

End Compression.

(** C7: a request whose image-compression-percent header is present (not
    empty) and is not a number, or is a number below 0 or above 100, is
    rejected before any file is looked at: the outcome is not a 200, the only
    calls made are the rate-limit bookkeeping of the gate (no chunk is
    written, no record created, no blob saved, the file table is unchanged),
    and once the request is through authentication, the rate limit and the
    multipart parser, the answer is a 400 and nothing has happened since the
    gate. *)
Theorem invalid_compression_percent_rejected env zconfig req st s :
  header req "image-compression-percent" = Some s ->
  s <> "" ->
  (Number env s = Js.NaN
   \/ Js.ltb (Number env s) (Js.ofZ 0) = true
   \/ Js.ltb (Js.ofZ 100) (Number env s) = true) ->
  isSuccess (fst (run env zconfig req st)) = false
  /\ (exists evs, snd (run env zconfig req st) = replay st evs
                  /\ forallb isUserUpdate evs = true)
  /\ files (snd (run env zconfig req st)) = files st
  /\ (forall user st1,
        gate env zconfig req st = (Val user, st1) ->
        (forall m, body req <> MpError m) ->
        exists reason,
          run env zconfig req st = (Returned (BadRequest reason), st1)).
Proof.
  intros Hs Hne Hbad.
  destruct (handler_stops_in_prelude env zconfig req s Hs Hne Hbad st)
    as [Hh Hp].
  destruct (prelude_updates env zconfig req st) as (evs & Eq & Hq).
  assert (Est : snd (run env zconfig req st) = replay st evs).
  { rewrite run_state, Hh, <- Eq.
    now destruct (prelude env zconfig req st) as [[a|r|m] st1]. }
  split; [|split; [|split]].
  - rewrite run_outcome, Hh. unfold isSuccess.
    destruct (prelude env zconfig req st) as [[a|r|m] st1]; simpl in *;
      try easy.
    unfold rejected in Hp. now destruct (status r =? 200).
  - now exists evs.
  - rewrite Est, replay_files, created_none, app_nil_r; [easy|].
    apply (forallb_weaken isUserUpdate); [|exact Hq]. now intros [].
  - intros user st1 Hg Hb.
    pose proof (prelude_afterGate env zconfig req st user st1 Hg Hb) as Hpre.
    pose proof (parseOptions_rejects env zconfig req s Hs Hne Hbad user st1)
      as Hr.
    pose proof (parseOptions_nothrow env zconfig req user st1) as Hn.
    pose proof (emits_noCall _ st1 (parseOptions_reads env zconfig req user))
      as Hst.
    unfold run. rewrite Hh, Hpre. unfold bind.
    destruct (parseOptions env zconfig req user st1) as [[o|r|m] st2];
      simpl in *; subst; try discriminate.
    destruct r; try discriminate. now exists reason.
Qed.

Lemma invalid_compression_percent_rejected_witness :
  header Scenario.overCompressed "image-compression-percent" = Some "250"
  /\ Js.ltb (Js.ofZ 100) (Number Scenario.env "250") = true
  /\ isSuccess (fst (run Scenario.env Scenario.config Scenario.overCompressed
                       Scenario.state)) = false
  /\ files (snd (run Scenario.env Scenario.config Scenario.overCompressed
                   Scenario.state)) = files Scenario.state.
Proof.
  split; [reflexivity|split; [reflexivity|]].
  destruct (invalid_compression_percent_rejected Scenario.env Scenario.config
              Scenario.overCompressed Scenario.state "250")
    as (A & _ & B & _);
    [reflexivity|discriminate|right; right; reflexivity|].
  split; [exact A|exact B].
Defined.

(** ** One iteration of the loop over [req.files] *)

Lemma replay_nextFileId st evs :
  nextFileId (replay st evs) = nextFileId st + Z.of_nat (List.length (created evs)).
Proof.
  revert st. induction evs as [|e evs IH]; intros st; simpl; [lia|].
  rewrite IH. destruct e; simpl; lia.
Qed.

Lemma monitor_app p l1 l2 :
  monitor p (l1 ++ l2) =
  match monitor p l1 with
  | Some p' => monitor p' l2
  | None => None
  end.
Proof.
  revert p. induction l1 as [|e l1 IH]; intros p; simpl; [easy|].
  destruct e; try apply IH.
  - destruct p; [easy|apply IH].
  - destruct p as [r|]; [|easy].
    destruct (String.eqb name (file_name r)); [apply IH|easy].
Qed.

Lemma monitor_quiet p l : forallb quiet l = true -> monitor p l = Some p.
Proof.
  induction l as [|e l IH]; simpl; [easy|].
  intros H. apply andb_prop in H as [He H]. destruct e; try discriminate; auto.
Qed.

Lemma quiet_created l : forallb quiet l = true -> created l = [].
Proof.
  intros H. apply created_none. apply (forallb_weaken quiet); [|exact H].
  intros e He. unfold quiet in He. now destruct (isFileCreate e).
Qed.

Lemma quiet_saved l : forallb quiet l = true -> saved l = [].
Proof.
  intros H. apply saved_none. apply (forallb_weaken quiet); [|exact H].
  intros e He. unfold quiet in He.
  destruct (isFileCreate e); [discriminate|]. now destruct (isSave e).
Qed.

Lemma quiet_notUserUpdate l :
  forallb quiet l = true -> forallb notUserUpdate l = true.
Proof.
  apply forallb_weaken. intros e He. unfold quiet in He.
  now apply andb_prop in He as [_ He].
Qed.

Lemma find_nameMatches_none db name :
  List.find (nameMatches (Some name)) db = None <->
  (forall r, In r db -> file_name r <> name).
Proof.
  split.
  - intros H r Hr E. pose proof (find_none _ _ H r Hr) as F.
    simpl in F. apply String.eqb_neq in F. contradiction.
  - intros H. induction db as [|r db IH]; simpl; [easy|].
    destruct (String.eqb (file_name r) name) eqn:E.
    + apply String.eqb_eq in E. now elim (H r (or_introl eq_refl)).
    + apply IH. intros r' Hr'. apply H. now right.
Qed.

Lemma blobs_app evs1 evs2 : blobs (evs1 ++ evs2) = blobs evs1 ++ blobs evs2.
Proof.
  induction evs1 as [|e evs1 IH]; simpl; [easy|].
  destruct e; simpl; now rewrite ?IH.
Qed.

Lemma quiet_blobs l : forallb quiet l = true -> blobs l = [].
Proof.
  induction l as [|e l IH]; simpl; [easy|].
  intros H. apply andb_prop in H as [He H].
  destruct e; try discriminate; auto.
Qed.

Section Single.

Variable env : Env.
Variable zconfig : Config.
Variable req : Request.
Variable user : User.
Variable o : Options.

Lemma validateFile_state i file st :
  snd (validateFile env zconfig req user o i file st) = st.
Proof. apply emits_noCall, validateFile_reads. Qed.

(** The four rejections, in the order of the code. *)
Lemma validateFile_tooBig i file st :
  sizeLimit zconfig user < up_size file ->
  validateFile env zconfig req user o i file st =
  (Ret (BadRequest (fileTag i +:+ ": size too big")), st).
Proof.
  intros H. unfold validateFile. apply Z.ltb_lt in H. now rewrite H.
Qed.

Lemma validateFile_noFilename i file st :
  up_size file <= sizeLimit zconfig user ->
  up_originalname file = "" ->
  validateFile env zconfig req user o i file st =
  (Ret (BadRequest (fileTag i +:+ ": no filename")), st).
Proof.
  intros H1 H2. unfold validateFile.
  apply Z.ltb_ge in H1. now rewrite H1, H2.
Qed.

Lemma truthy_nonempty s : s <> "" -> Js.truthy (Some s) = true.
Proof. destruct s; [now intros []|easy]. Qed.

Lemma validateFile_disabled i file st decodedName :
  up_size file <= sizeLimit zconfig user ->
  up_originalname file <> "" ->
  decodeURI env (up_originalname file) = Ok decodedName ->
  Js.includes (uploader_disabled_extensions zconfig) (extOf decodedName)
    = true ->
  validateFile env zconfig req user o i file st =
  (Ret (BadRequest (fileTag i +:+ ": disabled extension recieved: "
                    +:+ extOf decodedName)), st).
Proof.
  intros H1 H2 H3 H4. unfold validateFile.
  apply Z.ltb_ge in H1. now rewrite H1, (truthy_nonempty _ H2), H3, H4.
Qed.

Lemma validateFile_nameTaken i file st decodedName r :
  up_size file <= sizeLimit zconfig user ->
  up_originalname file <> "" ->
  decodeURI env (up_originalname file) = Ok decodedName ->
  Js.includes (uploader_disabled_extensions zconfig) (extOf decodedName)
    = false ->
  isName (format o) || Js.truthy (header req "x-zipline-filename") = true ->
  In r (files st) -> file_name r = existName req decodedName ->
  validateFile env zconfig req user o i file st =
  (Ret (BadRequest (fileTag i +:+ ": filename already exists: '"
                    +:+ decodedName +:+ "'")), st).
Proof.
  intros H1 H2 H3 H4 H5 H6 H7. unfold validateFile.
  apply Z.ltb_ge in H1. rewrite H1, (truthy_nonempty _ H2), H3, H4, H5.
  simpl. unfold bind, findFile, get, ret. simpl.
  destruct (List.find _ (files st)) eqn:F; [reflexivity|].
  pose proof (proj1 (find_nameMatches_none _ _) F r H6) as F'.
  contradiction.
Qed.

(** Between the filename and the extension check: a name that cannot be
    decoded ends the request in the exception of [decodeURI]. *)
Lemma validateFile_malformed i file st m :
  up_size file <= sizeLimit zconfig user ->
  up_originalname file <> "" ->
  decodeURI env (up_originalname file) = Err m ->
  validateFile env zconfig req user o i file st = (Throw m, st).
Proof.
  intros H1 H2 H3. unfold validateFile.
  apply Z.ltb_ge in H1. now rewrite H1, (truthy_nonempty _ H2), H3.
Qed.

Lemma validateFile_accepted i file st decodedName ext fileName st' :
  validateFile env zconfig req user o i file st
    = (Val (decodedName, ext, fileName), st') ->
  st' = st
  /\ accepted env zconfig req user o (files st) file decodedName
  /\ ext = extOf decodedName
  /\ fileName = formatFileName env i (format o) decodedName.
Proof.
  intros H. pose proof (validateFile_state i file st) as S.
  rewrite H in S. simpl in S. subst st'. split; [reflexivity|].
  revert H. unfold validateFile, accepted.
  destruct (sizeLimit zconfig user <? up_size file) eqn:E1; [discriminate|].
  apply Z.ltb_ge in E1.
  destruct (up_originalname file) as [|c s] eqn:E2; [discriminate|].
  simpl negb. cbv iota.
  destruct (decodeURI env (String c s)) as [dn|m] eqn:E3; [|discriminate].
  destruct (Js.includes _ (extOf dn)) eqn:E4; [discriminate|].
  unfold bind, findFile, get, ret, respond. simpl.
  destruct (isName (format o) || Js.truthy (header req "x-zipline-filename"))
    eqn:E5.
  - destruct (List.find _ (files st)) eqn:F; [discriminate|].
    intros [= <- <- <-]. repeat split; auto; try discriminate.
    intros _. now apply find_nameMatches_none.
  - intros [= <- <- <-]. repeat split; auto; discriminate.
Qed.

Lemma resolveMime_fst file decodedName response :
  fst (resolveMime env zconfig file decodedName response) =
  fst (resolveMime env zconfig file decodedName emptyResponse).
Proof.
  unfold resolveMime.
  destruct (String.eqb _ _ && _); [|reflexivity].
  now destruct (negb _).
Qed.

(** The three ways the GPS step ends. *)
Lemma stripGps_skipped r response st :
  gpsAttempted zconfig r = false ->
  stripGps env zconfig r response st = (Val response, st).
Proof. intros H. unfold stripGps. now rewrite H. Qed.

Lemma stripGps_done r response st u :
  gpsAttempted zconfig r = true -> removeGPSData env r = Ok u ->
  stripGps env zconfig r response st =
  (Val (setRemovedGps response true), replay st [EvRemoveGPS (file_id r)]).
Proof.
  intros H E. unfold stripGps. now rewrite H, E.
Qed.

Lemma stripGps_failed r response st m :
  gpsAttempted zconfig r = true -> removeGPSData env r = Err m ->
  stripGps env zconfig r response st =
  (Val (setRemovedGps response false),
   replay st [EvRemoveGPS (file_id r); EvLogError (file_id r) m]).
Proof.
  intros H E. unfold stripGps. now rewrite H, E.
Qed.

Lemma stripGps_quiet r response st :
  exists tail response',
    stripGps env zconfig r response st = (Val response', replay st tail)
    /\ forallb quiet tail = true
    /\ resp_files response' = resp_files response
    /\ resp_expiresAt response' = resp_expiresAt response.
Proof.
  destruct (gpsAttempted zconfig r) eqn:H.
  - destruct (removeGPSData env r) as [u|m] eqn:E.
    + rewrite (stripGps_done _ _ _ _ H E). now eexists _, _.
    + rewrite (stripGps_failed _ _ _ _ H E). now eexists _, _.
  - rewrite (stripGps_skipped _ _ _ H). now exists [], response.
Qed.

(** What the encoder makes of [file], when it is asked. *)
Lemma encoder_cases file :
  (exists d t, storesFile env o (""%string, d, t) file)
  \/ (compressionUsed o file = true
      /\ exists m,
           sharpJpeg env (up_buffer file)
             (Js.toNum (imageCompressionPercent o)) = Err m).
Proof.
  unfold storesFile. destruct (compressionUsed o file) eqn:C.
  - destruct (sharpJpeg env (up_buffer file)
                (Js.toNum (imageCompressionPercent o))) as [d|m] eqn:E.
    + left. now exists d, "image/jpeg".
    + right. split; [reflexivity|]. now exists m.
  - left. now exists (up_buffer file), (up_mimetype file).
Qed.

(** An accepted file whose blob can be made: its record is created, then its
    blob is saved, then the GPS step runs on the response with its URL. *)
Lemma uploadFile_stored i file response st decodedName ext fileName n d t :
  validateFile env zconfig req user o i file st
    = (Val (decodedName, ext, fileName), st) ->
  storesFile env o (n, d, t) file ->
  let r := recordOf env zconfig req user o i file decodedName (nextFileId st) in
  exists mid disc,
    forallb quiet mid = true /\ forallb quiet disc = true
    /\ uploadFile env zconfig req user o i file response st =
       stripGps env zconfig r
         (pushFile (snd (resolveMime env zconfig file decodedName response))
            (responseUrlOf env zconfig req i user r))
         (replay st (EvFileCreate r :: mid ++ EvSave (file_name r) d t :: disc)).
Proof.
  intros H Hb r.
  destruct (validateFile_accepted _ _ _ _ _ _ _ H) as (_ & _ & -> & ->).
  exists (if zwsRequested req
          then [EvInvis (uploader_length zconfig) (file_id r)] else []).
  exists (if discord_upload zconfig
          then [EvDiscord (file_id r)
                  (pickDomain env zconfig req i user +:+ "/r/"
                   +:+ targetOf env zconfig req i r)
                  (responseUrlOf env zconfig req i user r)]
          else []).
  split; [now destruct (zwsRequested req)|].
  split; [now destruct (discord_upload zconfig)|].
  unfold uploadFile. rewrite (bind_val _ _ _ _ _ H).
  subst r. unfold recordOf.
  rewrite <- (resolveMime_fst file decodedName response).
  destruct (resolveMime env zconfig file decodedName response)
    as [mimetype response1]. simpl fst. simpl snd.
  unfold bind, createFile, when, saveBlob, emit, ret.
  unfold storesFile in Hb. simpl in Hb.
  destruct (compressionUsed o file); destruct Hb as [Hd ->];
    [rewrite Hd|subst d];
    destruct (zwsRequested req), (discord_upload zconfig); reflexivity.
Qed.

(** An accepted file whose bytes the encoder rejects: the record is created
    (and its alias, when asked for), and the request ends there. *)
Lemma uploadFile_encoder_fails i file response st decodedName ext fileName m :
  validateFile env zconfig req user o i file st
    = (Val (decodedName, ext, fileName), st) ->
  compressionUsed o file = true ->
  sharpJpeg env (up_buffer file) (Js.toNum (imageCompressionPercent o))
    = Err m ->
  let r := recordOf env zconfig req user o i file decodedName (nextFileId st) in
  exists mid,
    forallb quiet mid = true
    /\ uploadFile env zconfig req user o i file response st
       = (Throw m, replay st (EvFileCreate r :: mid)).
Proof.
  intros H Hc He r.
  destruct (validateFile_accepted _ _ _ _ _ _ _ H) as (_ & _ & -> & ->).
  exists (if zwsRequested req
          then [EvInvis (uploader_length zconfig) (file_id r)] else []).
  split; [now destruct (zwsRequested req)|].
  unfold uploadFile. rewrite (bind_val _ _ _ _ _ H).
  subst r. unfold recordOf.
  rewrite <- (resolveMime_fst file decodedName response).
  destruct (resolveMime env zconfig file decodedName response)
    as [mimetype response1]. simpl fst.
  unfold bind, createFile, when, saveBlob, emit, ret, throw.
  rewrite Hc, He.
  destruct (zwsRequested req); reflexivity.
Qed.

(** A file that passed validation: it goes through, or the request stops at
    the encoder, the record created. *)
Lemma uploadFile_valid i file response st decodedName ext fileName :
  validateFile env zconfig req user o i file st
    = (Val (decodedName, ext, fileName), st) ->
  let r := recordOf env zconfig req user o i file decodedName (nextFileId st) in
  (exists evs response' b,
     uploadFile env zconfig req user o i file response st
       = (Val response', replay st evs)
     /\ created evs = [r]
     /\ saved evs = [file_name r]
     /\ blobs evs = [b] /\ storesFile env o b file
     /\ monitor None evs = Some None
     /\ resp_files response'
        = resp_files response ++ [responseUrlOf env zconfig req i user r]
     /\ resp_expiresAt response' = resp_expiresAt response)
  \/ (exists evs m,
        uploadFile env zconfig req user o i file response st
          = (Throw m, replay st evs)
        /\ compressionUsed o file = true
        /\ sharpJpeg env (up_buffer file)
             (Js.toNum (imageCompressionPercent o)) = Err m
        /\ created evs = [r]
        /\ saved evs = [] /\ blobs evs = []
        /\ monitor None evs = Some (Some r)).
Proof.
  intros V r.
  destruct (encoder_cases file) as [(d & t & Hb)|(Hc & m & He)].
  - left.
    destruct (uploadFile_stored i file response st _ _ _ _ _ _ V Hb)
      as (mid & disc & Hmid & Hdisc & E). fold r in E.
    destruct (stripGps_quiet r
                (pushFile (snd (resolveMime env zconfig file decodedName
                                  response))
                   (responseUrlOf env zconfig req i user r))
                (replay st (EvFileCreate r :: mid
                            ++ EvSave (file_name r) d t :: disc)))
      as (tail & response' & G & Htail & Hfiles & Hexp).
    exists ((EvFileCreate r :: mid ++ EvSave (file_name r) d t :: disc)
            ++ tail), response', (file_name r, d, t).
    split; [now rewrite E, G, replay_app|].
    split.
    { rewrite created_app. cbn [created]. rewrite created_app.
      cbn [created].
      now rewrite (quiet_created _ Hmid), (quiet_created _ Hdisc),
        (quiet_created _ Htail). }
    split.
    { rewrite saved_app. cbn [saved]. rewrite saved_app. cbn [saved].
      now rewrite (quiet_saved _ Hmid), (quiet_saved _ Hdisc),
        (quiet_saved _ Htail). }
    split.
    { rewrite blobs_app. cbn [blobs]. rewrite blobs_app. cbn [blobs].
      now rewrite (quiet_blobs _ Hmid), (quiet_blobs _ Hdisc),
        (quiet_blobs _ Htail). }
    split; [exact Hb|]. split.
    { simpl. rewrite <- app_assoc. rewrite monitor_app.
      rewrite (monitor_quiet _ _ Hmid). simpl.
      rewrite String.eqb_refl. apply monitor_quiet.
      now rewrite forallb_app, Hdisc, Htail. }
    split.
    { rewrite Hfiles. simpl. f_equal. unfold resolveMime.
      destruct (String.eqb _ _ && _); [|reflexivity].
      now destruct (negb _). }
    rewrite Hexp. unfold resolveMime.
    destruct (String.eqb _ _ && _); [|reflexivity].
    now destruct (negb _).
  - right.
    destruct (uploadFile_encoder_fails i file response st _ _ _ m V Hc He)
      as (mid & Hmid & E). fold r in E.
    exists (EvFileCreate r :: mid), m.
    split; [exact E|]. split; [exact Hc|]. split; [exact He|].
    cbn [created saved blobs monitor].
    rewrite (quiet_created _ Hmid), (quiet_saved _ Hmid),
      (quiet_blobs _ Hmid), (monitor_quiet _ _ Hmid).
    repeat split.
Qed.

(** One iteration: the file goes through, or the request stops before
    anything is done for it, or it stops at the encoder, the record
    created. *)
Lemma uploadFile_step i file response st :
  (exists evs response' decodedName b,
     uploadFile env zconfig req user o i file response st
       = (Val response', replay st evs)
     /\ accepted env zconfig req user o (files st) file decodedName
     /\ created evs
        = [recordOf env zconfig req user o i file decodedName (nextFileId st)]
     /\ saved evs
        = [file_name
             (recordOf env zconfig req user o i file decodedName
                (nextFileId st))]
     /\ blobs evs = [b] /\ storesFile env o b file
     /\ monitor None evs = Some None
     /\ resp_files response'
        = resp_files response
          ++ [responseUrlOf env zconfig req i user
                (recordOf env zconfig req user o i file decodedName
                   (nextFileId st))]
     /\ resp_expiresAt response' = resp_expiresAt response)
  \/ (snd (uploadFile env zconfig req user o i file response st) = st
      /\ ((exists r,
             fst (uploadFile env zconfig req user o i file response st)
             = Ret r)
          \/ (exists m,
                fst (uploadFile env zconfig req user o i file response st)
                = Throw m)))
  \/ (exists evs decodedName m,
        uploadFile env zconfig req user o i file response st
          = (Throw m, replay st evs)
        /\ accepted env zconfig req user o (files st) file decodedName
        /\ created evs
           = [recordOf env zconfig req user o i file decodedName
                (nextFileId st)]
        /\ saved evs = [] /\ blobs evs = []
        /\ monitor None evs
           = Some (Some (recordOf env zconfig req user o i file decodedName
                           (nextFileId st)))).
Proof.
  pose proof (validateFile_state i file st) as S.
  destruct (validateFile env zconfig req user o i file st)
    as [[[[decodedName ext] fileName]|r|m] st0] eqn:V; simpl in S; subst st0.
  - destruct (validateFile_accepted _ _ _ _ _ _ _ V) as (_ & Hacc & _ & _).
    destruct (uploadFile_valid i file response st _ _ _ V)
      as [(evs & response' & b & E & H)
         |(evs & m & E & _ & _ & H)].
    + left. now exists evs, response', decodedName, b.
    + right. right. now exists evs, decodedName, m.
  - right. left. unfold uploadFile. rewrite (bind_ret_stop _ _ _ _ _ V).
    split; [reflexivity|]. left. now exists r.
  - right. left. unfold uploadFile. rewrite (bind_throw_stop _ _ _ _ _ V).
    split; [reflexivity|]. right. now exists m.
Qed.

Lemma uploadLoop_app fs1 fs2 : forall i response st,
  uploadLoop env zconfig req user o i (fs1 ++ fs2) response st =
  bind (uploadLoop env zconfig req user o i fs1 response)
    (fun response' =>
       uploadLoop env zconfig req user o (i + List.length fs1) fs2 response')
    st.
Proof.
  induction fs1 as [|file fs1 IH]; intros i response st;
    cbn [app uploadLoop List.length].
  - unfold bind, ret. now rewrite Nat.add_0_r.
  - rewrite bind_assoc.
    destruct (uploadFile env zconfig req user o i file response st)
      as [[response'|r|m] st1] eqn:E.
    + rewrite !(bind_val _ _ _ _ _ E), IH. now rewrite Nat.add_succ_r.
    + now rewrite !(bind_ret_stop _ _ _ _ _ E).
    + now rewrite !(bind_throw_stop _ _ _ _ _ E).
Qed.

(** The loop: the calls made keep the order creation, then save; the
    records created are those of the files accepted, in order; the blobs
    saved are those of the first files, under the names of their records;
    at most the last record is left without its blob, and only when the
    loop ends in an exception. *)
Lemma uploadLoop_records fs : forall i response st,
  exists evs,
    snd (uploadLoop env zconfig req user o i fs response st) = replay st evs
    /\ (exists q, monitor None evs = Some q)
    /\ Records env zconfig req user o (files st) (nextFileId st) i fs
         (created evs)
    /\ saved evs
       = map file_name (take (List.length (saved evs)) (created evs))
    /\ Forall2 (storesFile env o) (blobs evs)
         (take (List.length (saved evs)) fs)
    /\ (List.length (saved evs) <= List.length (created evs))%nat
    /\ (List.length (created evs) <= S (List.length (saved evs)))%nat
    /\ (List.length (created evs) <= List.length fs)%nat
    /\ (forall response',
          fst (uploadLoop env zconfig req user o i fs response st)
            = Val response' ->
          List.length (created evs) = List.length fs
          /\ saved evs = map file_name (created evs)
          /\ resp_files response'
             = resp_files response
               ++ urlsOf env zconfig req user i (created evs)
          /\ resp_expiresAt response' = resp_expiresAt response)
    /\ (forall r,
          fst (uploadLoop env zconfig req user o i fs response st) = Ret r ->
          saved evs = map file_name (created evs)
          /\ (List.length (created evs) < List.length fs)%nat)
    /\ (forall m,
          fst (uploadLoop env zconfig req user o i fs response st)
            = Throw m ->
          (List.length (saved evs) < List.length fs)%nat).
Proof.
  induction fs as [|file rest IH]; intros i response st; cbn [uploadLoop].
  - exists []. simpl.
    split; [reflexivity|]. split; [now exists None|].
    split; [constructor|]. split; [reflexivity|]. split; [constructor|].
    split; [lia|]. split; [lia|]. split; [lia|].
    split; [|split; discriminate].
    intros response' [= <-]. now rewrite app_nil_r.
  - destruct (uploadFile_step i file response st)
      as [(evs1 & response1 & dn & b & E & Hacc & Hc & Hs & Hb & Hst & Hm
           & Hf & Hexp)
         |[[S N]|(evs1 & dn & m & E & Hacc & Hc & Hs & Hb & Hm)]].
    + rewrite (bind_val _ _ _ _ _ E).
      destruct (IH (S i) response1 (replay st evs1))
        as (evs2 & E2 & Hm2 & R2 & Hs2 & Hb2 & Hle1 & Hle2 & Hle3 & Hval
            & Hret & Hthrow).
      exists (evs1 ++ evs2).
      rewrite created_app, saved_app, blobs_app, monitor_app, Hc, Hs, Hb, Hm.
      cbn [app List.length take map].
      split; [now rewrite E2, replay_app|].
      split; [exact Hm2|].
      split.
      { constructor; [exact Hacc|].
        rewrite replay_files, replay_nextFileId, Hc in R2. exact R2. }
      split; [now rewrite <- Hs2|].
      split; [now constructor|].
      split; [lia|]. split; [lia|]. split; [lia|]. split; [|split].
      * intros response' H.
        destruct (Hval response' H) as (Hl & Hsv & Hu & He).
        split; [now rewrite Hl|]. split; [now rewrite Hsv|].
        split; [|now rewrite He].
        rewrite Hu, Hf, <- app_assoc. reflexivity.
      * intros r H. destruct (Hret r H) as [Hsv Hl].
        split; [now rewrite Hsv|lia].
      * intros m H. specialize (Hthrow m H). lia.
    + exists []. unfold bind.
      destruct (uploadFile env zconfig req user o i file response st)
        as [[a|r|m] st1]; simpl in S, N; subst st1;
        try (destruct N as [[? N]|[? N]]; discriminate); simpl;
        (split; [reflexivity|]); (split; [now exists None|]);
        (split; [constructor|]); (split; [reflexivity|]);
        (split; [constructor|]); (split; [lia|]); (split; [lia|]);
        (split; [lia|]); (split; [discriminate|]);
        (split; [intros ? _; split; [reflexivity|lia]|intros ? _; lia]).
    + exists evs1. rewrite (bind_throw_stop _ _ _ _ _ E).
      rewrite Hc, Hs, Hb, Hm. simpl.
      split; [reflexivity|]. split; [now eexists|].
      split; [constructor; [exact Hacc|constructor]|].
      split; [reflexivity|]. split; [constructor|].
      split; [lia|]. split; [lia|]. split; [lia|].
      split; [discriminate|]. split; [discriminate|]. intros _ _. lia.
Qed.

End Single.

Lemma In_lookup {A} (x : A) (l : list A) :
  In x l -> exists k, l !! k = Some x.
Proof.
  induction l as [|y l IH]; simpl; [easy|].
  intros [->|H]; [now exists 0%nat|].
  destruct (IH H) as (k & Hk). now exists (S k).
Qed.

Lemma lookup_In {A} (l : list A) : forall k x, l !! k = Some x -> In x l.
Proof.
  induction l as [|y l IH]; intros [|k] x H; simpl in *; try discriminate.
  - left. now injection H.
  - right. exact (IH k x H).
Qed.

Lemma Records_lookup env zconfig req user o db id i fs rs :
  Records env zconfig req user o db id i fs rs ->
  forall k r, rs !! k = Some r ->
  exists file decodedName,
    fs !! k = Some file
    /\ accepted env zconfig req user o (db ++ take k rs) file decodedName
    /\ r = recordOf env zconfig req user o (i + k) file decodedName
             (id + Z.of_nat k).
Proof.
  induction 1 as [|db id i file rest dn rs Hacc _ IH]; intros k r Hk.
  - discriminate.
  - destruct k as [|k]; simpl in *.
    + injection Hk as <-. exists file, dn.
      now rewrite app_nil_r, Nat.add_0_r, Z.add_0_r.
    + destruct (IH k r Hk) as (f & dn' & Hf & Ha & Hr).
      exists f, dn'. split; [exact Hf|split].
      * now rewrite <- app_assoc in Ha.
      * rewrite Hr. f_equal; lia.
Qed.

(** What the monitor accepts: a save follows the creation of the record it
    names, with no other creation or save in between. *)
Lemma monitor_save evs : forall p q pre n d t post,
  monitor p evs = Some q ->
  evs = pre ++ EvSave n d t :: post ->
  (exists pre1 r pre2,
     pre = pre1 ++ EvFileCreate r :: pre2 /\ n = file_name r
     /\ created pre2 = [] /\ saved pre2 = [])
  \/ (exists r, p = Some r /\ n = file_name r
                /\ created pre = [] /\ saved pre = []).
Proof.
  induction evs as [|e evs IH]; intros p q pre n d t post Hm Heq.
  - now destruct pre.
  - destruct pre as [|e' pre]; simpl in Heq; injection Heq as -> Heq.
    + right. simpl in Hm. destruct p as [r|]; [|discriminate].
      destruct (String.eqb n (file_name r)) eqn:E; [|discriminate].
      apply String.eqb_eq in E. now exists r.
    + simpl in Hm.
      destruct e';
        try (destruct (IH p q pre n d t post Hm Heq)
               as [(pre1 & r & pre2 & -> & Hn & Hc & Hs)
                  |(r & Hp & Hn & Hc & Hs)];
             [left; eexists (_ :: pre1), r, pre2; now repeat split
             |right; now exists r]).
      * destruct p; [discriminate|].
        destruct (IH (Some r) q pre n d t post Hm Heq)
          as [(pre1 & r' & pre2 & -> & Hn & Hc & Hs)
             |(r' & [= <-] & Hn & Hc & Hs)].
        -- left. now exists (EvFileCreate r :: pre1), r', pre2.
        -- left. now exists [], r, pre.
      * destruct p as [r|]; [|discriminate].
        destruct (String.eqb name (file_name r)); [|discriminate].
        destruct (IH None q pre n d t post Hm Heq)
          as [(pre1 & r' & pre2 & -> & Hn & Hc & Hs)
             |(r' & Hp & _)]; [|discriminate].
        left. now exists (EvSave name data type :: pre1), r', pre2.
Qed.

(** ** The single-shot path, end to end *)

Section SinglePath.

Variable env : Env.
Variable zconfig : Config.
Variable req : Request.

Lemma bind_val_inv {A B} (c : M A) (k : A -> M B) st b st' :
  bind c k st = (Val b, st') ->
  exists a st1, c st = (Val a, st1) /\ k a st1 = (Val b, st').
Proof.
  unfold bind. destruct (c st) as [[a|r|m] st1]; try discriminate.
  intros H. now exists a, st1.
Qed.

(** The response the options start from holds no URL yet. *)
Lemma parseOptions_no_url user st0 o st1 :
  parseOptions env zconfig req user st0 = (Val o, st1) ->
  resp_files (response o) = [].
Proof.
  unfold parseOptions. intros H.
  apply bind_val_inv in H as ([e0 r0] & s1 & H1 & H).
  apply bind_val_inv in H as (e1 & s2 & _ & H).
  apply bind_val_inv in H as (icp & s3 & _ & H).
  apply bind_val_inv in H as (mv & s4 & _ & H).
  apply bind_val_inv in H as ([fo r1] & s5 & H5 & H).
  injection H as <- _. simpl.
  assert (R0 : resp_files r0 = []).
  { revert H1. unfold clientExpiry.
    destruct (Js.truthy _); [destruct (parseExpiry _ _)|];
      try discriminate; now intros [= _ <- _]. }
  revert H5. unfold folderOption, findFolder, bind, get, ret.
  destruct (Js.truthyNum _); [destruct (Js.isNaN _); [discriminate|]|].
  - destruct (List.find _ _); [|discriminate]. now intros [= _ <- _].
  - now intros [= _ <- _].
Qed.

Lemma prelude_options st user o st1 :
  prelude env zconfig req st = (Val (user, o), st1) ->
  exists st0, parseOptions env zconfig req user st0 = (Val o, st1).
Proof.
  unfold prelude, bind.
  destruct (gate env zconfig req st) as [[u|r|m] st2]; try discriminate.
  destruct (multer req st2) as [[[]|r|m] st3]; try discriminate.
  destruct (parseOptions env zconfig req u st3) as [[o'|r|m] st4] eqn:E;
    try discriminate.
  unfold ret. intros [= -> -> ->]. now exists st3.
Qed.

(** After the prelude, a request that is not a chunk runs the loop: what the
    loop does is what the request does. *)
Lemma run_single st user o st1 :
  prelude env zconfig req st = (Val (user, o), st1) ->
  isChunk zconfig req = false ->
  exists evs,
    snd (run env zconfig req st) = replay st1 evs
    /\ (exists q, monitor None evs = Some q)
    /\ Records env zconfig req user o (files st1) (nextFileId st1) 0
         (batch req) (created evs)
    /\ saved evs
       = map file_name (take (List.length (saved evs)) (created evs))
    /\ Forall2 (storesFile env o) (blobs evs)
         (take (List.length (saved evs)) (batch req))
    /\ (List.length (saved evs) <= List.length (created evs))%nat
    /\ (List.length (created evs) <= S (List.length (saved evs)))%nat
    /\ (List.length (created evs) <= List.length (batch req))%nat
    /\ (forall resp,
          fst (run env zconfig req st) = Returned resp ->
          saved evs = map file_name (created evs))
    /\ (forall resp,
          fst (run env zconfig req st) = Returned resp -> isOk resp = true ->
          List.length (created evs) = List.length (batch req)
          /\ (resp = PlainText
                       (Js.join ","
                          (urlsOf env zconfig req user 0 (created evs)))
              \/ exists b,
                   resp = Json b
                   /\ resp_files b
                      = urlsOf env zconfig req user 0 (created evs)))
    /\ (forall b,
          fst (run env zconfig req st) = Returned (Json b) ->
          resp_expiresAt b = resp_expiresAt (response o))
    /\ (isSuccess (fst (run env zconfig req st)) = false ->
        batch req <> [] ->
        (List.length (saved evs) < List.length (batch req))%nat)
    /\ (forall resp,
          fst (run env zconfig req st) = Returned resp ->
          isOk resp = false ->
          batch req <> [] ->
          (List.length (created evs) < List.length (batch req))%nat).
Proof.
  intros Hp Hc.
  destruct (prelude_options st user o st1 Hp) as (st0 & Ho).
  pose proof (parseOptions_no_url user st0 o st1 Ho) as Hnil.
  unfold run. rewrite (handler_route _ _ _ _ _ _ _ Hp).
  unfold route, singleShot, batch. rewrite Hc.
  destruct (body req) as [m| |[|f fs]] eqn:Hbody;
    try (exists []; simpl;
         (split; [reflexivity|]); (split; [now exists None|]);
         (split; [constructor|]); (split; [reflexivity|]);
         (split; [constructor|]); (split; [lia|]); (split; [lia|]);
         (split; [lia|]); (split; [reflexivity|]);
         (split; [intros resp [= <-]; discriminate|]);
         (split; [discriminate|]);
         (split; [intros _ N; now elim N|intros resp _ _ N; now elim N])).
  destruct (uploadLoop_records env zconfig req user o (f :: fs) 0%nat
              (response o) st1)
    as (evs & E & Hm & R & Hs & Hb & Hle1 & Hle2 & Hle3 & Hval & Hret
        & Hthrow).
  exists evs. cbn [List.length Nat.eqb]. unfold bind, finish, ret.
  pose proof (uploadLoop_badRequest env zconfig req user o (f :: fs) 0%nat
                (response o) st1) as B.
  destruct (uploadLoop env zconfig req user o 0 (f :: fs) (response o) st1)
    as [[response'|r|m] st'] eqn:L; simpl in E, B; subst st'.
  - destruct (Hval response' eq_refl) as (Hl & Hsv & Hu & He).
    rewrite Hnil in Hu. simpl in Hu.
    destruct (Js.truthy (header req "no-json")); simpl;
      (split; [reflexivity|]); (split; [exact Hm|]); (split; [exact R|]);
      (split; [exact Hs|]); (split; [exact Hb|]); (split; [exact Hle1|]);
      (split; [exact Hle2|]); (split; [exact Hle3|]);
      (split; [intros; exact Hsv|]);
      (split; [intros resp [= <-] _; split; [exact Hl|]|]).
    + left. now rewrite Hu.
    + split; [discriminate|]. split; [intros H; discriminate H|].
      intros resp [= <-] H. discriminate H.
    + right. now exists response'.
    + split; [now intros b [= <-]|]. split; [intros H; discriminate H|].
      intros resp [= <-] H. discriminate H.
  - destruct (Hret r eq_refl) as [Hsv Hl]. simpl.
    split; [reflexivity|]. split; [exact Hm|]. split; [exact R|].
    split; [exact Hs|]. split; [exact Hb|]. split; [exact Hle1|].
    split; [exact Hle2|]. split; [exact Hle3|].
    split; [intros; exact Hsv|].
    split; [intros resp [= <-] Hok; destruct r; discriminate|].
    split; [intros b [= ->]; discriminate|].
    split; [|intros; exact Hl].
    intros _ _. apply (f_equal (@List.length _)) in Hsv.
    rewrite length_map in Hsv. simpl in Hl. lia.
  - specialize (Hthrow m eq_refl). simpl.
    split; [reflexivity|]. split; [exact Hm|]. split; [exact R|].
    split; [exact Hs|]. split; [exact Hb|]. split; [exact Hle1|].
    split; [exact Hle2|]. split; [exact Hle3|].
    split; [discriminate|]. split; [discriminate|]. split; [discriminate|].
    split; [|discriminate]. intros _ _. exact Hthrow.
Qed.

(** The two expiries line 88-106 leave behind. *)
Lemma parseOptions_expiry user st0 o st1 :
  parseOptions env zconfig req user st0 = (Val o, st1) ->
  resp_expiresAt (response o) =
    (if Js.truthy (header req "expires-at") then
       match parseExpiry env (Js.show (header req "expires-at")) with
       | Ok d => Some d
       | Err _ => None
       end
     else None)
  /\ (Js.truthy (uploader_default_expiration zconfig) = true ->
      exists d,
        parseExpiry env (Js.show (uploader_default_expiration zconfig)) = Ok d
        /\ expiry o = Some d).
Proof.
  unfold parseOptions, clientExpiry, defaultExpiry, compressionPercent,
    maxViews, folderOption, findFolder, bind, get, ret, respond.
  destruct (Js.truthy (header req "expires-at"));
    [destruct (parseExpiry env (Js.show (header req "expires-at")));
       [|discriminate]|];
    (destruct (Js.truthy (uploader_default_expiration zconfig));
      [destruct (parseExpiry env
                   (Js.show (uploader_default_expiration zconfig)));
         [|discriminate]|]);
    destruct (Js.isNaN (numberHeader env req "image-compression-percent"));
    try discriminate;
    destruct (_ || _); try discriminate;
    destruct (Js.isNaN (numberHeader env req "max-views"));
    try discriminate;
    destruct (Js.ltb _ _); try discriminate;
    destruct (Js.truthyNum _); try discriminate;
    try (destruct (Js.isNaN (numberHeader env req "x-zipline-folder"));
         try discriminate;
         destruct (List.find _ _); try discriminate);
    intros [= <- <-]; simpl; split; try reflexivity;
    try discriminate; intros _; now eexists.
Qed.

End SinglePath.

(** ** The handler at one file of the batch *)

Section AtFile.

Variable env : Env.
Variable zconfig : Config.
Variable req : Request.

(** When the files before [file] went through, the handler goes on with
    [file] in the state they left, and then with the files after it. *)
Lemma handler_at_file st user o st1 before file after response_k st_k :
  prelude env zconfig req st = (Val (user, o), st1) ->
  isChunk zconfig req = false ->
  body req = MpFiles (before ++ file :: after) ->
  uploadLoop env zconfig req user o 0 before (response o) st1
    = (Val response_k, st_k) ->
  handler env zconfig req st =
  bind (uploadFile env zconfig req user o (List.length before) file response_k)
    (fun response' =>
       bind (uploadLoop env zconfig req user o (S (List.length before)) after
               response')
         (finish req))
    st_k.
Proof.
  intros Hp Hc Hb Hl. rewrite (handler_route _ _ _ _ _ _ _ Hp).
  unfold route, singleShot. rewrite Hc, Hb.
  destruct (Nat.eqb (List.length (before ++ file :: after)) 0) eqn:E.
  { apply Nat.eqb_eq in E. rewrite length_app in E. simpl in E. lia. }
  unfold bind at 1. rewrite uploadLoop_app, (bind_val _ _ _ _ _ Hl).
  cbn [uploadLoop]. simpl Nat.add. unfold bind.
  now destruct (uploadFile env zconfig req user o (List.length before) file
                  response_k st_k) as [[a|r|m] st2].
Qed.

Lemma run_rejected_at_file st user o st1 before file after response_k st_k
    reason :
  prelude env zconfig req st = (Val (user, o), st1) ->
  isChunk zconfig req = false ->
  body req = MpFiles (before ++ file :: after) ->
  uploadLoop env zconfig req user o 0 before (response o) st1
    = (Val response_k, st_k) ->
  validateFile env zconfig req user o (List.length before) file st_k
    = (Ret (BadRequest reason), st_k) ->
  run env zconfig req st = (Returned (BadRequest reason), st_k).
Proof.
  intros Hp Hc Hb Hl Hv. unfold run.
  rewrite (handler_at_file _ _ _ _ _ _ _ _ _ Hp Hc Hb Hl).
  unfold uploadFile.
  now rewrite (bind_ret_stop _ _ _ _ _ (bind_ret_stop _ _ _ _ _ Hv)).
Qed.

Lemma run_thrown_at_file st user o st1 before file after response_k st_k m :
  prelude env zconfig req st = (Val (user, o), st1) ->
  isChunk zconfig req = false ->
  body req = MpFiles (before ++ file :: after) ->
  uploadLoop env zconfig req user o 0 before (response o) st1
    = (Val response_k, st_k) ->
  validateFile env zconfig req user o (List.length before) file st_k
    = (Throw m, st_k) ->
  run env zconfig req st = (Thrown m, st_k).
Proof.
  intros Hp Hc Hb Hl Hv. unfold run.
  rewrite (handler_at_file _ _ _ _ _ _ _ _ _ Hp Hc Hb Hl).
  unfold uploadFile.
  now rewrite (bind_throw_stop _ _ _ _ _ (bind_throw_stop _ _ _ _ _ Hv)).
Qed.

Lemma validateFile_of_accepted user o i file st decodedName :
  accepted env zconfig req user o (files st) file decodedName ->
  validateFile env zconfig req user o i file st =
  (Val (decodedName, extOf decodedName,
        formatFileName env i (format o) decodedName), st).
Proof.
  intros (H1 & H2 & H3 & H4 & H5). unfold validateFile.
  apply Z.ltb_ge in H1.
  rewrite H1, (truthy_nonempty _ H2), H3, H4. simpl.
  unfold bind, findFile, get, ret.
  destruct (isName (format o) || Js.truthy (header req "x-zipline-filename"));
    [|reflexivity].
  simpl. now rewrite (proj2 (find_nameMatches_none _ _) (H5 eq_refl)).
Qed.

(** A file that is reached and passes the validations gets its record,
    whatever becomes of the request afterwards. *)
Lemma run_creates_record st user o st1 before file after response_k st_k
    decodedName evs :
  prelude env zconfig req st = (Val (user, o), st1) ->
  isChunk zconfig req = false ->
  body req = MpFiles (before ++ file :: after) ->
  uploadLoop env zconfig req user o 0 before (response o) st1
    = (Val response_k, st_k) ->
  accepted env zconfig req user o (files st_k) file decodedName ->
  snd (run env zconfig req st) = replay st1 evs ->
  created evs !! List.length before
  = Some (recordOf env zconfig req user o (List.length before) file
            decodedName (nextFileId st_k)).
Proof.
  intros Hp Hc Hb Hl Hacc E.
  destruct (uploadLoop_records env zconfig req user o before 0%nat
              (response o) st1)
    as (evs0 & E0 & _ & _ & _ & _ & _ & _ & _ & Hval & _).
  rewrite Hl in E0, Hval. simpl in E0.
  destruct (Hval response_k eq_refl) as (Hlen & _).
  pose proof (validateFile_of_accepted user o (List.length before) file st_k
                decodedName Hacc) as V.
  rewrite run_state, (handler_at_file _ _ _ _ _ _ _ _ _ Hp Hc Hb Hl) in E.
  destruct (uploadFile_valid env zconfig req user o (List.length before)
              file response_k st_k _ _ _ V)
    as [(evs1 & response' & b & U & Hcr & _)
       |(evs1 & m & U & _ & _ & Hcr & _)].
  - rewrite (bind_val _ _ _ _ _ U) in E.
    destruct (uploadLoop_records env zconfig req user o after
                (S (List.length before)) response' (replay st_k evs1))
      as (evs2 & E2 & _).
    assert (E3 : snd (bind (uploadLoop env zconfig req user o
                              (S (List.length before)) after response')
                        (finish req) (replay st_k evs1))
                 = replay (replay st_k evs1) evs2).
    { rewrite <- E2. unfold bind, finish.
      destruct (uploadLoop env zconfig req user o (S (List.length before))
                  after response' (replay st_k evs1)) as [[a|r|m] s];
        [|reflexivity|reflexivity].
      now destruct (Js.truthy (header req "no-json")). }
    rewrite E3, E0, <- !replay_app in E. apply replay_inj in E. subst evs.
    rewrite !created_app, Hcr. simpl.
    apply list_lookup_middle. now rewrite Hlen.
  - rewrite (bind_throw_stop _ _ _ _ _ U) in E. simpl in E.
    rewrite E0, <- replay_app in E. apply replay_inj in E. subst evs.
    rewrite created_app, Hcr.
    apply list_lookup_middle. now rewrite Hlen.
Qed.

(** The encoder rejects the bytes of a file that is reached and passes the
    validations: the request ends in the encoder's exception, and no blob
    is saved for the file. *)
Lemma run_encoder_fails st user o st1 before file after response_k st_k
    decodedName m evs :
  prelude env zconfig req st = (Val (user, o), st1) ->
  isChunk zconfig req = false ->
  body req = MpFiles (before ++ file :: after) ->
  uploadLoop env zconfig req user o 0 before (response o) st1
    = (Val response_k, st_k) ->
  accepted env zconfig req user o (files st_k) file decodedName ->
  compressionUsed o file = true ->
  sharpJpeg env (up_buffer file) (Js.toNum (imageCompressionPercent o))
    = Err m ->
  snd (run env zconfig req st) = replay st1 evs ->
  fst (run env zconfig req st) = Thrown m
  /\ List.length (saved evs) = List.length before.
Proof.
  intros Hp Hc Hb Hl Hacc Hcu He E.
  destruct (uploadLoop_records env zconfig req user o before 0%nat
              (response o) st1)
    as (evs0 & E0 & _ & _ & _ & _ & _ & _ & _ & Hval & _).
  rewrite Hl in E0, Hval. simpl in E0.
  destruct (Hval response_k eq_refl) as (Hlen & Hsv & _).
  pose proof (validateFile_of_accepted user o (List.length before) file st_k
                decodedName Hacc) as V.
  destruct (uploadFile_encoder_fails env zconfig req user o
              (List.length before) file response_k st_k _ _ _ m V Hcu He)
    as (mid & Hmid & U).
  revert E. unfold run.
  rewrite (handler_at_file _ _ _ _ _ _ _ _ _ Hp Hc Hb Hl),
    (bind_throw_stop _ _ _ _ _ U). cbn [fst snd]. intros E.
  split; [reflexivity|].
  rewrite E0, <- replay_app in E. apply replay_inj in E. subst evs.
  rewrite saved_app. cbn [saved]. rewrite (quiet_saved _ Hmid), app_nil_r.
  now rewrite Hsv, length_map.
Qed.


End AtFile.

(** C2: in a single-shot upload, after authentication, the rate limit and
    the option headers, (a) the k-th record created is the record of the
    k-th file of the batch, and that file passes every validation against
    the file table as it is at that moment (the table at the start plus the
    records created before); (b) every [datasource.save] comes after the
    [prisma.file.create] of the record whose name it saves under, with no
    other creation or save in between, and that record is in the file table
    when the save is made. *)
Theorem record_after_validation_blob_after_record
    env zconfig req st user o st1 :
  prelude env zconfig req st = (Val (user, o), st1) ->
  isChunk zconfig req = false ->
  exists evs,
    snd (run env zconfig req st) = replay st1 evs
    /\ (forall k r,
          created evs !! k = Some r ->
          exists file decodedName,
            batch req !! k = Some file
            /\ accepted env zconfig req user o
                 (files st1 ++ take k (created evs)) file decodedName
            /\ r = recordOf env zconfig req user o k file decodedName
                     (nextFileId st1 + Z.of_nat k))
    /\ (forall pre n d t post,
          evs = pre ++ EvSave n d t :: post ->
          exists pre1 r pre2,
            pre = pre1 ++ EvFileCreate r :: pre2
            /\ n = file_name r
            /\ created pre2 = [] /\ saved pre2 = []
            /\ In r (files (replay st1 pre))).
Proof.
  intros Hp Hc.
  destruct (run_single env zconfig req st user o st1 Hp Hc)
    as (evs & E & [q Hm] & R & _).
  exists evs. split; [exact E|split].
  - intros k r Hk.
    destruct (Records_lookup _ _ _ _ _ _ _ _ _ _ R k r Hk)
      as (file & dn & Hf & Ha & Hr).
    now exists file, dn.
  - intros pre n d t post Heq.
    destruct (monitor_save evs None q pre n d t post Hm Heq)
      as [(pre1 & r & pre2 & -> & Hn & Hcr & Hs)|(r & Hr & _)];
      [|discriminate].
    exists pre1, r, pre2. repeat split; try assumption.
    rewrite replay_files, created_app. simpl.
    apply in_or_app. right. apply in_or_app. right. now left.
Qed.

(** C6: in a single-shot upload every file of the batch that is reached
    (the files before it went through) and passes the validations has its
    record created, as the k-th record, and the record of the k-th file
    has, as its mimetype, text/plain when the uploadtext header is set;
    otherwise image/jpeg when compression applies (a compression percentage
    other than 0 was asked for and the declared mimetype starts with
    image/), and then the stored name is the formatted name followed by
    .jpg; otherwise the declared mimetype, except that for
    application/octet-stream with assume_mimetypes enabled it is the
    mimetype guessed from the extension when there is one.  No other record
    is created, and a request answered 200 has created the record of every
    file of the batch. *)
Theorem stored_mimetype_priority env zconfig req st user o st1 :
  prelude env zconfig req st = (Val (user, o), st1) ->
  isChunk zconfig req = false ->
  exists evs,
    snd (run env zconfig req st) = replay st1 evs
    /\ files (snd (run env zconfig req st)) = files st1 ++ created evs
    /\ (forall before file after response_k st_k decodedName,
          body req = MpFiles (before ++ file :: after) ->
          uploadLoop env zconfig req user o 0 before (response o) st1
            = (Val response_k, st_k) ->
          accepted env zconfig req user o (files st_k) file decodedName ->
          exists r,
            created evs !! List.length before = Some r
            /\ file_mimetype r =
                 Some
                   (if Js.truthy (header req "uploadtext") then "text/plain"
                    else if compressionUsed o file then "image/jpeg"
                    else if String.eqb (up_mimetype file)
                              "application/octet-stream"
                            && uploader_assume_mimetypes zconfig
                    then
                      match guess env (Js.replace "." ""
                                         (pathExt env decodedName)) with
                      | Some "" | None => up_mimetype file
                      | Some mime => mime
                      end
                    else up_mimetype file)
            /\ (compressionUsed o file = true ->
                file_name r =
                  formatFileName env (List.length before) (format o)
                    decodedName +:+ ".jpg"))
    /\ (forall k r,
          created evs !! k = Some r ->
          exists file decodedName,
            batch req !! k = Some file
            /\ decodeURI env (up_originalname file) = Ok decodedName
            /\ file_mimetype r =
                 Some
                   (if Js.truthy (header req "uploadtext") then "text/plain"
                    else if compressionUsed o file then "image/jpeg"
                    else if String.eqb (up_mimetype file)
                              "application/octet-stream"
                            && uploader_assume_mimetypes zconfig
                    then
                      match guess env (Js.replace "." ""
                                         (pathExt env decodedName)) with
                      | Some "" | None => up_mimetype file
                      | Some mime => mime
                      end
                    else up_mimetype file)
            /\ (compressionUsed o file = true ->
                file_name r =
                  formatFileName env k (format o) decodedName +:+ ".jpg"))
    /\ (forall resp,
          fst (run env zconfig req st) = Returned resp ->
          isOk resp = true ->
          List.length (created evs) = List.length (batch req)).
Proof.
  intros Hp Hc.
  destruct (run_single env zconfig req st user o st1 Hp Hc)
    as (evs & E & _ & R & _ & _ & _ & _ & _ & _ & Hok & _).
  assert (M : forall i file dn id,
            file_mimetype (recordOf env zconfig req user o i file dn id) =
              Some
                (if Js.truthy (header req "uploadtext") then "text/plain"
                 else if compressionUsed o file then "image/jpeg"
                 else if String.eqb (up_mimetype file)
                           "application/octet-stream"
                         && uploader_assume_mimetypes zconfig
                 then
                   match guess env (Js.replace "." "" (pathExt env dn)) with
                   | Some "" | None => up_mimetype file
                   | Some mime => mime
                   end
                 else up_mimetype file)
            /\ (compressionUsed o file = true ->
                file_name (recordOf env zconfig req user o i file dn id) =
                  formatFileName env i (format o) dn +:+ ".jpg")).
  { intros i file dn id. split.
    - unfold recordOf, newRecord, resolveMime. simpl.
      destruct (Js.truthy (header req "uploadtext")); [reflexivity|].
      destruct (compressionUsed o file); [reflexivity|].
      destruct (String.eqb _ _ && _); [|reflexivity].
      destruct (guess env _) as [[|c m]|]; reflexivity.
    - intros Hcu. unfold recordOf, newRecord. simpl. now rewrite Hcu. }
  exists evs. split; [exact E|].
  split; [rewrite E; apply replay_files|]. split; [|split].
  - intros before file after response_k st_k dn Hb Hl Hacc.
    eexists. split; [|apply M].
    exact (run_creates_record env zconfig req st user o st1 before file
             after response_k st_k dn evs Hp Hc Hb Hl Hacc E).
  - intros k r Hk.
    destruct (Records_lookup _ _ _ _ _ _ _ _ _ _ R k r Hk)
      as (file & dn & Hf & Ha & ->).
    exists file, dn. split; [exact Hf|].
    split; [apply Ha|]. apply M.
  - intros resp Hr Hk. now destruct (Hok resp Hr Hk).
Qed.

(** C9: when a default expiration is configured, every file of a
    single-shot upload that is reached (the files before it went through)
    and passes the validations has its record created, and every record the
    upload creates carries the expiry parsed from the configured default,
    whatever the expires-at header says, while the [expiresAt] of the JSON
    answer is the date parsed from the expires-at header (and is absent
    without that header).  A request answered 200 has created the record of
    every file of the batch. *)
Theorem default_expiration_overrides_header env zconfig req st user o st1 :
  prelude env zconfig req st = (Val (user, o), st1) ->
  isChunk zconfig req = false ->
  Js.truthy (uploader_default_expiration zconfig) = true ->
  exists d evs,
    parseExpiry env (Js.show (uploader_default_expiration zconfig)) = Ok d
    /\ snd (run env zconfig req st) = replay st1 evs
    /\ files (snd (run env zconfig req st)) = files st1 ++ created evs
    /\ (forall before file after response_k st_k decodedName,
          body req = MpFiles (before ++ file :: after) ->
          uploadLoop env zconfig req user o 0 before (response o) st1
            = (Val response_k, st_k) ->
          accepted env zconfig req user o (files st_k) file decodedName ->
          exists r,
            created evs !! List.length before = Some r
            /\ file_expiresAt r = Some d)
    /\ (forall r, In r (created evs) -> file_expiresAt r = Some d)
    /\ (forall resp,
          fst (run env zconfig req st) = Returned resp ->
          isOk resp = true ->
          List.length (created evs) = List.length (batch req))
    /\ (forall b,
          fst (run env zconfig req st) = Returned (Json b) ->
          resp_expiresAt b =
            if Js.truthy (header req "expires-at") then
              match parseExpiry env (Js.show (header req "expires-at")) with
              | Ok d' => Some d'
              | Err _ => None
              end
            else None).
Proof.
  intros Hp Hc Hd.
  destruct (prelude_options env zconfig req st user o st1 Hp) as (st0 & Ho).
  destruct (parseOptions_expiry env zconfig req user st0 o st1 Ho)
    as (Hresp & Hexp).
  destruct (Hexp Hd) as (d & Hparse & Ho_d).
  destruct (run_single env zconfig req st user o st1 Hp Hc)
    as (evs & E & _ & R & _ & _ & _ & _ & _ & _ & Hok & Hb & _).
  assert (In_created : forall r, In r (created evs) ->
                                 file_expiresAt r = Some d).
  { intros r Hr. apply In_lookup in Hr as (k & Hk).
    destruct (Records_lookup _ _ _ _ _ _ _ _ _ _ R k r Hk)
      as (file & dn & _ & _ & ->).
    exact Ho_d. }
  exists d, evs. split; [exact Hparse|]. split; [exact E|].
  split; [rewrite E; apply replay_files|].
  split; [|split; [exact In_created|split]].
  - intros before file after response_k st_k dn Hbody Hl Hacc.
    pose proof (run_creates_record env zconfig req st user o st1 before file
                  after response_k st_k dn evs Hp Hc Hbody Hl Hacc E) as Hk.
    eexists. split; [exact Hk|]. exact Ho_d.
  - intros resp Hr Hk. now destruct (Hok resp Hr Hk).
  - intros b Hjson. now rewrite (Hb b Hjson).
Qed.

(** ** Validation of the files of a batch *)

Lemma string_app_last_inj a b c :
  a +:+ String c "" = b +:+ String c "" -> a = b.
Proof.
  revert b. induction a as [|x a IH]; intros [|y b]; simpl; intros H.
  - reflexivity.
  - injection H as _ H. now destruct b.
  - injection H as _ H. now destruct a.
  - injection H as -> H. now rewrite (IH b H).
Qed.

Lemma fileTag_inj i j : fileTag i = fileTag j -> i = j.
Proof.
  unfold fileTag. intros H. apply (inj pretty).
  apply (string_app_last_inj _ _ "]"%char).
  now apply (inj (String.app "file[")) in H.
Qed.

(** C3, as the code has it: when the loop of a single-shot upload reaches a
    file (the files before it went through), the checks on it are made in
    the order size, filename, extension, name in use, and the first that
    fails ends the request with a 400 whose reason starts with [file[k]], k
    being the index of the file, different for different indices; nothing
    is done for that file or the files after it (the state is the one the
    files before it left).  Between the filename and the extension check
    the name is URI-decoded: a name that cannot be decoded ends the request
    in the exception of [decodeURI], not in a 400, and the last two checks
    are made on the decoded name.  The name looked up by the last check is
    the x-zipline-filename header when it is set and the decoded original
    name otherwise, not the name the record is stored under. *)
Theorem validation_order env zconfig req st user o st1
    before file after response_k st_k :
  prelude env zconfig req st = (Val (user, o), st1) ->
  isChunk zconfig req = false ->
  body req = MpFiles (before ++ file :: after) ->
  uploadLoop env zconfig req user o 0 before (response o) st1
    = (Val response_k, st_k) ->
  let k := List.length before in
  let rejectedWith reason :=
    run env zconfig req st
    = (Returned (BadRequest (fileTag k +:+ reason)), st_k) in
  (sizeLimit zconfig user < up_size file -> rejectedWith ": size too big")
  /\ (up_size file <= sizeLimit zconfig user ->
      up_originalname file = "" ->
      rejectedWith ": no filename")
  /\ (forall decodedName,
        up_size file <= sizeLimit zconfig user ->
        up_originalname file <> "" ->
        decodeURI env (up_originalname file) = Ok decodedName ->
        Js.includes (uploader_disabled_extensions zconfig)
          (extOf decodedName) = true ->
        rejectedWith (": disabled extension recieved: " +:+ extOf decodedName))
  /\ (forall decodedName r,
        up_size file <= sizeLimit zconfig user ->
        up_originalname file <> "" ->
        decodeURI env (up_originalname file) = Ok decodedName ->
        Js.includes (uploader_disabled_extensions zconfig)
          (extOf decodedName) = false ->
        isName (format o) || Js.truthy (header req "x-zipline-filename")
          = true ->
        In r (files st_k) ->
        file_name r
        = (if Js.truthy (header req "x-zipline-filename")
           then Js.show (header req "x-zipline-filename")
           else decodedName) ->
        rejectedWith (": filename already exists: '" +:+ decodedName +:+ "'"))
  /\ (forall m,
        up_size file <= sizeLimit zconfig user ->
        up_originalname file <> "" ->
        decodeURI env (up_originalname file) = Err m ->
        run env zconfig req st = (Thrown m, st_k))
  /\ (forall j, fileTag j = fileTag k -> j = k).
Proof.
  intros Hp Hc Hb Hl k rejectedWith. subst rejectedWith. cbv beta.
  pose proof (run_rejected_at_file env zconfig req st user o st1 before file
                after response_k st_k) as R.
  repeat split.
  - intros H. apply R; try assumption. now apply validateFile_tooBig.
  - intros H1 H2. apply R; try assumption. now apply validateFile_noFilename.
  - intros dn H1 H2 H3 H4. apply R; try assumption.
    now apply validateFile_disabled.
  - intros dn r H1 H2 H3 H4 H5 H6 H7. apply R; try assumption.
    now apply (validateFile_nameTaken env zconfig req user o _ _ _ dn r).
  - intros m H1 H2 H3.
    apply (run_thrown_at_file env zconfig req st user o st1 before file after
             response_k st_k m); try assumption.
    now apply validateFile_malformed.
  - intros j. apply fileTag_inj.
Qed.

(** C3 as stated fails.  A file of 3 bytes called bad%.exe, the extension
    exe disabled: the name is no URI encoding and the request ends in the
    exception of [decodeURI], with no 400 that names the file.  And a
    picture a.png sent with the x-zipline-filename header big.bin, a name a
    record has: the request is refused for a name already in use, although
    no record has the name the picture would be stored under. *)
Lemma undecodable_name_is_no_bad_request :
  (let f := Scenario.upload "bad%.exe" "application/octet-stream" 3 in
   body Scenario.malformed = MpFiles [f]
   /\ up_size f <= sizeLimit Scenario.config Scenario.alice
   /\ up_originalname f <> ""
   /\ Js.includes (uploader_disabled_extensions Scenario.config)
        (extOf (up_originalname f)) = true
   /\ run Scenario.env Scenario.config Scenario.malformed Scenario.state
      = (Thrown "URI malformed", Scenario.state))
  /\ (let r := recordOf Scenario.env Scenario.config Scenario.overriding
                 Scenario.alice Scenario.plainOptions 0 Scenario.png "a.png"
                 2 in
      run Scenario.env Scenario.config Scenario.overriding
        Scenario.stateWithFile
      = (Returned (BadRequest "file[0]: filename already exists: 'a.png'"),
         Scenario.stateWithFile)
      /\ file_name r = "rnd0.png"
      /\ forall r', In r' (files Scenario.stateWithFile) ->
                    file_name r' <> file_name r).
Proof.
  split.
  - cbv zeta. repeat split; try reflexivity; discriminate.
  - cbv zeta. repeat split; try reflexivity.
    intros r' [<-|[]]. discriminate.
Qed.

(** ** A failing GPS removal *)

Lemma resolveMime_files env zconfig file decodedName response :
  resp_files (snd (resolveMime env zconfig file decodedName response))
  = resp_files response.
Proof.
  unfold resolveMime.
  destruct (String.eqb _ _ && _); [|reflexivity].
  now destruct (negb _).
Qed.

(** C8, as the code has it: when the GPS removal is attempted on the record
    of an accepted file whose blob could be saved (the encoder, when
    compression applies, made a JPEG of its bytes: a failure of the encoder
    is not caught and ends the request before the GPS step) and the removal
    fails, the failure is caught and logged, and the iteration ends like a
    successful one: the record was created, the blob saved, the URL of the
    file is in the response, and [removed_gps] is set to false; the handler
    then goes on with the files after it.  When the file is the last of the
    batch the request is answered 200: with no-json the plain list of URLs,
    otherwise the JSON body whose [removed_gps] is false and whose [files]
    end with the URL of the file. *)
Theorem gps_failure_is_caught env zconfig req st user o st1
    before file after response_k st_k decodedName m :
  prelude env zconfig req st = (Val (user, o), st1) ->
  isChunk zconfig req = false ->
  body req = MpFiles (before ++ file :: after) ->
  uploadLoop env zconfig req user o 0 before (response o) st1
    = (Val response_k, st_k) ->
  accepted env zconfig req user o (files st_k) file decodedName ->
  let k := List.length before in
  let r := recordOf env zconfig req user o k file decodedName
             (nextFileId st_k) in
  gpsAttempted zconfig r = true ->
  removeGPSData env r = Err m ->
  (compressionUsed o file = true ->
   exists jpeg,
     sharpJpeg env (up_buffer file) (Js.toNum (imageCompressionPercent o))
     = Ok jpeg) ->
  exists evs response',
    let st' :=
      replay st_k
        (evs ++ [EvRemoveGPS (file_id r); EvLogError (file_id r) m]) in
    uploadFile env zconfig req user o k file response_k st_k
      = (Val response', st')
    /\ created evs = [r]
    /\ saved evs = [file_name r]
    /\ resp_removed_gps response' = Some false
    /\ resp_files response'
       = resp_files response_k ++ [responseUrlOf env zconfig req k user r]
    /\ handler env zconfig req st
       = bind (uploadLoop env zconfig req user o (S k) after response')
           (finish req) st'
    /\ (after = [] ->
        run env zconfig req st
        = (Returned
             (if Js.truthy (header req "no-json")
              then PlainText (Js.join "," (resp_files response'))
              else Json response'),
           st')).
Proof.
  intros Hp Hc Hb Hl Hacc k r Hgps Hfail Henc.
  pose proof (validateFile_of_accepted env zconfig req user o k file st_k
                decodedName Hacc) as V.
  destruct (encoder_cases env o file) as [(d & t & Hst)|(Hcu & m' & He)];
    [|destruct (Henc Hcu) as (jpeg & Hj); congruence].
  destruct (uploadFile_stored env zconfig req user o k file response_k st_k
              _ _ _ _ _ _ V Hst) as (mid & disc & Hmid & Hdisc & E).
  fold r in E.
  rewrite (stripGps_failed env zconfig r _ _ m Hgps Hfail) in E.
  rewrite <- replay_app in E.
  exists (EvFileCreate r :: mid ++ EvSave (file_name r) d t :: disc).
  eexists. cbv zeta.
  assert (Hh : handler env zconfig req st
               = bind (uploadLoop env zconfig req user o (S k) after
                         (setRemovedGps
                            (pushFile
                               (snd (resolveMime env zconfig file decodedName
                                       response_k))
                               (responseUrlOf env zconfig req k user r))
                            false))
                   (finish req)
                   (replay st_k
                      ((EvFileCreate r :: mid
                        ++ EvSave (file_name r) d t :: disc)
                       ++ [EvRemoveGPS (file_id r);
                           EvLogError (file_id r) m]))).
  { rewrite (handler_at_file env zconfig req st user o st1 before file after
               response_k st_k Hp Hc Hb Hl).
    fold k. now rewrite (bind_val _ _ _ _ _ E). }
  split; [exact E|]. split.
  { cbn [created]. rewrite created_app. cbn [created].
    now rewrite (quiet_created _ Hmid), (quiet_created _ Hdisc). }
  split.
  { cbn [saved]. rewrite saved_app. cbn [saved].
    now rewrite (quiet_saved _ Hmid), (quiet_saved _ Hdisc). }
  split; [reflexivity|]. split.
  { simpl. now rewrite resolveMime_files. }
  split; [exact Hh|].
  intros ->. unfold run. rewrite Hh. cbn [uploadLoop].
  unfold bind, ret, finish.
  now destruct (Js.truthy (header req "no-json")).
Qed.

(** ** The last chunk *)


(** ** The claims on the concrete deployment *)



Lemma record_after_validation_blob_after_record_witness :
  prelude Scenario.env Scenario.config Scenario.aliceBatch Scenario.state
  = (Val (Scenario.alice, Scenario.plainOptions), Scenario.state)
  /\ isChunk Scenario.config Scenario.aliceBatch = false
  /\ exists evs,
       snd (run Scenario.env Scenario.config Scenario.aliceBatch
              Scenario.state) = replay Scenario.state evs
       /\ forall pre n d t post,
            evs = pre ++ EvSave n d t :: post ->
            exists pre1 r pre2,
              pre = pre1 ++ EvFileCreate r :: pre2 /\ n = file_name r.
Proof.
  split; [reflexivity|split; [reflexivity|]].
  destruct (record_after_validation_blob_after_record Scenario.env
              Scenario.config Scenario.aliceBatch Scenario.state
              Scenario.alice Scenario.plainOptions Scenario.state)
    as (evs & E & _ & Hs); [reflexivity|reflexivity|].
  exists evs. split; [exact E|].
  intros pre n d t post H.
  destruct (Hs pre n d t post H) as (pre1 & r & pre2 & H1 & H2 & _).
  now exists pre1, r, pre2.
Defined.

Lemma validation_order_witness :
  prelude Scenario.env Scenario.config Scenario.aliceTooBig Scenario.state
  = (Val (Scenario.alice, Scenario.plainOptions), Scenario.state)
  /\ sizeLimit Scenario.config Scenario.alice < up_size Scenario.big
  /\ run Scenario.env Scenario.config Scenario.aliceTooBig Scenario.state
     = (Returned (BadRequest (fileTag 1 +:+ ": size too big")),
        snd Scenario.afterPng).
Proof.
  split; [reflexivity|split; [reflexivity|]].
  destruct (validation_order Scenario.env Scenario.config
              Scenario.aliceTooBig Scenario.state Scenario.alice
              Scenario.plainOptions Scenario.state [Scenario.png]
              Scenario.big [] (Scenario.valueOf (fst Scenario.afterPng))
              (snd Scenario.afterPng))
    as (H & _); [reflexivity|reflexivity|reflexivity|reflexivity|].
  apply H. reflexivity.
Defined.

Lemma stored_mimetype_priority_witness :
  prelude Scenario.env Scenario.config Scenario.compressing Scenario.state
  = (Val (Scenario.alice, Scenario.compressOptions), Scenario.state)
  /\ isChunk Scenario.config Scenario.compressing = false
  /\ exists evs r,
       snd (run Scenario.env Scenario.config Scenario.compressing
              Scenario.state) = replay Scenario.state evs
       /\ created evs !! 0%nat = Some r
       /\ In r (files (snd (run Scenario.env Scenario.config
                              Scenario.compressing Scenario.state)))
       /\ up_mimetype Scenario.photo = "image/png"
       /\ file_mimetype r = Some "image/jpeg"
       /\ file_name r = "rnd0.jpg".
Proof.
  split; [reflexivity|split; [reflexivity|]].
  destruct (stored_mimetype_priority Scenario.env Scenario.config
              Scenario.compressing Scenario.state Scenario.alice
              Scenario.compressOptions Scenario.state)
    as (evs & E & F & H & _); [reflexivity|reflexivity|].
  destruct (H [] Scenario.photo [] emptyResponse Scenario.state "pic.png")
    as (r & Hk & Hm & Hn); [reflexivity|reflexivity| |].
  { repeat split; try reflexivity; discriminate. }
  exists evs, r. split; [exact E|]. split; [exact Hk|].
  split.
  { rewrite F. apply in_or_app. right.
    exact (lookup_In _ _ _ Hk). }
  split; [reflexivity|]. split; [exact Hm|]. now apply Hn.
Defined.

(** C8 as stated fails.  A picture whose GPS removal fails, sent with
    no-json, is answered with the plain URL, which carries no [removed_gps];
    and in a batch of two pictures where the removal fails for the first and
    succeeds for the second, the JSON answer has [removed_gps] true. *)
Lemma gps_failure_without_false_flag :
  (existsb gpsRemovalTried
     (trace (snd (run Scenario.env Scenario.config Scenario.gpsNoJson
                    Scenario.state))) = true
   /\ existsb gpsRemovalFailed
        (trace (snd (run Scenario.env Scenario.config Scenario.gpsNoJson
                       Scenario.state))) = true
   /\ fst (run Scenario.env Scenario.config Scenario.gpsNoJson Scenario.state)
      = Returned (PlainText "http://h.io/u/nogps.png"))
  /\ (existsb gpsRemovalFailed
        (trace (snd (run Scenario.env Scenario.config Scenario.gpsBatch
                       Scenario.state))) = true
      /\ exists b,
           fst (run Scenario.env Scenario.config Scenario.gpsBatch
                  Scenario.state) = Returned (Json b)
           /\ resp_files b = ["http://h.io/u/nogps.png"; "http://h.io/u/ok.png"]
           /\ resp_removed_gps b = Some true).
Proof.
  repeat split; try (vm_compute; reflexivity).
  eexists. repeat split; vm_compute; reflexivity.
Qed.

Lemma gps_failure_is_caught_witness :
  prelude Scenario.env Scenario.config Scenario.gpsCompressed Scenario.state
  = (Val (Scenario.alice, Scenario.compressNameOptions), Scenario.state)
  /\ compressionUsed Scenario.compressNameOptions Scenario.nogpsPhoto = true
  /\ removeGPSData Scenario.env
       (recordOf Scenario.env Scenario.config Scenario.gpsCompressed
          Scenario.alice Scenario.compressNameOptions 0 Scenario.nogpsPhoto
          "nogps.png" 1)
     = Err "no exif data"
  /\ exists b,
       fst (run Scenario.env Scenario.config Scenario.gpsCompressed
              Scenario.state)
       = Returned (Json b)
       /\ resp_removed_gps b = Some false
       /\ resp_files b = ["http://h.io/u/nogps.jpg"].
Proof.
  split; [reflexivity|split; [reflexivity|split; [reflexivity|]]].
  destruct (gps_failure_is_caught Scenario.env Scenario.config
              Scenario.gpsCompressed Scenario.state Scenario.alice
              Scenario.compressNameOptions Scenario.state []
              Scenario.nogpsPhoto [] emptyResponse Scenario.state
              "nogps.png" "no exif data")
    as (evs & b & _ & _ & _ & Hflag & Hfiles & _ & Hrun);
    [reflexivity|reflexivity|reflexivity|reflexivity| |reflexivity
    |reflexivity| |].
  { repeat split; try reflexivity; try discriminate.
    intros _ r []. }
  { intros _. now eexists. }
  exists b. rewrite (Hrun eq_refl). split; [reflexivity|].
  split; [exact Hflag|]. rewrite Hfiles. reflexivity.
Defined.

Lemma default_expiration_overrides_header_witness :
  prelude Scenario.env Scenario.expiringConfig Scenario.aliceExpiring
    Scenario.state
  = (Val (Scenario.alice, Scenario.expiringOptions), Scenario.state)
  /\ header Scenario.aliceExpiring "expires-at" = Some "7000"
  /\ uploader_default_expiration Scenario.expiringConfig = Some "9000"
  /\ exists evs r b,
       snd (run Scenario.env Scenario.expiringConfig Scenario.aliceExpiring
              Scenario.state) = replay Scenario.state evs
       /\ created evs !! 0%nat = Some r
       /\ In r (files (snd (run Scenario.env Scenario.expiringConfig
                              Scenario.aliceExpiring Scenario.state)))
       /\ file_expiresAt r = Some 9000
       /\ fst (run Scenario.env Scenario.expiringConfig
                 Scenario.aliceExpiring Scenario.state) = Returned (Json b)
       /\ resp_expiresAt b = Some 7000.
Proof.
  split; [reflexivity|split; [reflexivity|split; [reflexivity|]]].
  destruct (default_expiration_overrides_header Scenario.env
              Scenario.expiringConfig Scenario.aliceExpiring Scenario.state
              Scenario.alice Scenario.expiringOptions Scenario.state)
    as (d & evs & Hd & E & F & Hat & _ & _ & Hb);
    [reflexivity|reflexivity|reflexivity|].
  destruct (Hat [] Scenario.png [] (response Scenario.expiringOptions)
              Scenario.state "a.png")
    as (r & Hk & Hr); [reflexivity|reflexivity| |].
  { repeat split; try reflexivity; discriminate. }
  exists evs, r,
    {| resp_files := ["http://h.io/u/rnd0.png"];
       resp_expiresAt := Some 7000;
       resp_removed_gps := Some true;
       resp_assumed_mimetype := None;
       resp_folder := None |}.
  split; [exact E|]. split; [exact Hk|]. split.
  { rewrite F. apply in_or_app. right. exact (lookup_In _ _ _ Hk). }
  split.
  { rewrite Hr. vm_compute in Hd. now injection Hd as <-. }
  split; reflexivity.
Defined.

(** * Further properties of the handler *)

(** ** Requests stopped at the gate *)

Lemma run_stopped_at_gate env zconfig req st r st1 :
  gate env zconfig req st = (Ret r, st1) ->
  run env zconfig req st = (Returned r, st1).
Proof.
  intros H. unfold run.
  now rewrite handler_afterGate, (bind_ret_stop _ _ _ _ _ H).
Qed.

Lemma find_token_none us token :
  (forall u, In u us -> user_token u <> token) ->
  List.find (fun u => String.eqb (user_token u) token) us = None.
Proof.
  intros H. induction us as [|u us IH]; simpl; [reflexivity|].
  destruct (String.eqb (user_token u) token) eqn:E.
  - apply String.eqb_eq in E. now elim (H u (or_introl eq_refl)).
  - apply IH. intros u' Hu'. apply H. now right.
Qed.

(** X1 (lines 23-31): a request without an authorization header, or with an
    empty one, is answered 403 "no authorization"; a request whose token is
    the token of no user is answered 403 "authorization incorrect".  In both
    cases the handler makes no call: the state is untouched. *)
Theorem unauthenticated_is_forbidden env zconfig req st :
  (Js.truthy (header req "authorization") = false ->
   run env zconfig req st = (Returned (Forbidden "no authorization"), st))
  /\ (Js.truthy (header req "authorization") = true ->
      (forall u, In u (users st) ->
                 user_token u <> Js.show (header req "authorization")) ->
      run env zconfig req st
      = (Returned (Forbidden "authorization incorrect"), st)).
Proof.
  split.
  - intros H. apply run_stopped_at_gate. unfold gate.
    apply bind_ret_stop. unfold authenticate. now rewrite H.
  - intros H Hnone. apply run_stopped_at_gate. unfold gate.
    apply bind_ret_stop. unfold authenticate, findUser, bind, get, ret.
    rewrite H. simpl. now rewrite (find_token_none _ _ Hnone).
Qed.

Lemma unauthenticated_is_forbidden_witness :
  Js.truthy (header Scenario.anonymous "authorization") = false
  /\ run Scenario.env Scenario.config Scenario.anonymous Scenario.state
     = (Returned (Forbidden "no authorization"), Scenario.state)
  /\ Js.truthy (header Scenario.stranger "authorization") = true
  /\ run Scenario.env Scenario.config Scenario.stranger Scenario.state
     = (Returned (Forbidden "authorization incorrect"), Scenario.state).
Proof.
  destruct (unauthenticated_is_forbidden Scenario.env Scenario.config
              Scenario.anonymous Scenario.state) as [A _].
  destruct (unauthenticated_is_forbidden Scenario.env Scenario.config
              Scenario.stranger Scenario.state) as [_ B].
  split; [reflexivity|split; [apply A; reflexivity|]].
  split; [reflexivity|]. apply B; [reflexivity|].
  intros u Hu. simpl in Hu.
  destruct Hu as [<-|[<-|[<-|[<-|[]]]]]; discriminate.
Defined.

(** X2 (lines 33-47): a request without content-range of a user whose
    rate-limit timestamp lies in the future is answered 429 with the
    milliseconds left, a positive number, and the handler makes no call: the
    timestamp stays as it is and nothing of the request is looked at. *)
Theorem active_limit_is_rejected env zconfig req st user limit :
  authenticate req st = (Val user, st) ->
  user_ratelimit user = Some limit ->
  now env < limit ->
  Js.truthy (header req "content-range") = false ->
  run env zconfig req st = (Returned (RateLimited (limit - now env)), st)
  /\ 0 < limit - now env.
Proof.
  intros H Hr Hl Hc. split; [|lia].
  apply run_stopped_at_gate. rewrite (gate_val _ _ _ _ _ H).
  apply bind_ret_stop. unfold rateLimit. rewrite Hr, Hc. simpl.
  destruct (limit - now env <=? 0) eqn:E; [|reflexivity].
  apply Z.leb_le in E. lia.
Qed.

Lemma active_limit_is_rejected_witness :
  authenticate Scenario.bobUpload Scenario.state
  = (Val Scenario.bob, Scenario.state)
  /\ run Scenario.env Scenario.config Scenario.bobUpload Scenario.state
     = (Returned (RateLimited 3000), Scenario.state).
Proof.
  split; [reflexivity|].
  apply (active_limit_is_rejected Scenario.env Scenario.config
           Scenario.bobUpload Scenario.state Scenario.bob 5000);
    reflexivity.
Defined.

(** X3 (lines 48-57, before lines 72-371): the cooldown of an administrator
    starts with the request, not with the upload.  For an administrator
    without a timestamp and a positive administrator cooldown, a request
    without content-range leaves the timestamp at now + cooldown * 1000
    whatever becomes of it afterwards: a 400, an exception or a 200. *)
Theorem cooldown_starts_with_the_request env zconfig req st user :
  authenticate req st = (Val user, st) ->
  user_ratelimit user = None ->
  user_administrator user = true ->
  0 < ratelimit_admin zconfig ->
  Js.truthy (header req "content-range") = false ->
  ratelimitOf (snd (run env zconfig req st)) (user_id user)
  = Some (Some (now env + ratelimit_admin zconfig * 1000)).
Proof.
  intros H Hr Ha Hp Hc.
  pose proof (gate_fresh env zconfig req st user H Hr Ha Hp Hc) as Hg.
  destruct (handler_past_gate env zconfig req st user _ Hg)
    as (_ & evs & Eq & Hq).
  unfold ratelimitOf. rewrite Eq, (replay_users _ _ Hq). simpl.
  rewrite find_withRatelimit.
  destruct (authenticate_found req st user st H) as (_ & u & F).
  rewrite F. simpl. unfold withRatelimit.
  apply find_some in F as [_ F]. now rewrite F.
Qed.

Lemma cooldown_starts_with_the_request_witness :
  authenticate Scenario.emptyUpload Scenario.state
  = (Val Scenario.freshAdmin, Scenario.state)
  /\ fst (run Scenario.env Scenario.config Scenario.emptyUpload
            Scenario.state) = Returned (BadRequest "no files")
  /\ ratelimitOf
       (snd (run Scenario.env Scenario.config Scenario.emptyUpload
               Scenario.state)) 2 = Some (Some 62000).
Proof.
  split; [reflexivity|split; [reflexivity|]].
  apply (cooldown_starts_with_the_request Scenario.env Scenario.config
           Scenario.emptyUpload Scenario.state Scenario.freshAdmin);
    reflexivity.
Defined.

(** ** The expiry headers *)

Lemma run_stopped_in_options env zconfig req st user st1 r :
  gate env zconfig req st = (Val user, st1) ->
  (forall m, body req <> MpError m) ->
  parseOptions env zconfig req user st1 = (Ret r, st1) ->
  run env zconfig req st = (Returned r, st1).
Proof.
  intros Hg Hb Hp. unfold run, handler.
  rewrite (bind_ret_stop _ _ _ r st1); [reflexivity|].
  rewrite (prelude_afterGate env zconfig req st user st1 Hg Hb).
  now apply bind_ret_stop.
Qed.

(** X4 (lines 88-98): when the expires-at header does not parse, the request
    is answered 400 with the message of the parser, and nothing has happened
    since the gate. *)
Theorem bad_expiry_header_is_rejected env zconfig req st user st1 m :
  gate env zconfig req st = (Val user, st1) ->
  (forall m', body req <> MpError m') ->
  Js.truthy (header req "expires-at") = true ->
  parseExpiry env (Js.show (header req "expires-at")) = Err m ->
  run env zconfig req st = (Returned (BadRequest m), st1).
Proof.
  intros Hg Hb Ht He. apply (run_stopped_in_options _ _ _ _ user); auto.
  unfold parseOptions. apply bind_ret_stop.
  unfold clientExpiry. now rewrite Ht, He.
Qed.

Lemma bad_expiry_header_is_rejected_witness :
  gate Scenario.env Scenario.config Scenario.aliceSoon Scenario.state
  = (Val Scenario.alice, Scenario.state)
  /\ run Scenario.env Scenario.config Scenario.aliceSoon Scenario.state
     = (Returned (BadRequest "invalid date"), Scenario.state).
Proof.
  split; [reflexivity|].
  apply (bad_expiry_header_is_rejected Scenario.env Scenario.config
           Scenario.aliceSoon Scenario.state Scenario.alice);
    try reflexivity.
  intros m'. discriminate.
Defined.

(** X5 (lines 100-106): a configured default expiration that does not parse
    stops every request that gets as far: whether or not the client sent an
    expiry of its own (one that parses), the answer is a 400 whose reason is
    the message of the parser followed by (UPLOADER_DEFAULT_EXPIRATION), and
    nothing has happened since the gate. *)
Theorem bad_default_expiration_rejects env zconfig req st user st1 m :
  gate env zconfig req st = (Val user, st1) ->
  (forall m', body req <> MpError m') ->
  (Js.truthy (header req "expires-at") = true ->
   exists d, parseExpiry env (Js.show (header req "expires-at")) = Ok d) ->
  Js.truthy (uploader_default_expiration zconfig) = true ->
  parseExpiry env (Js.show (uploader_default_expiration zconfig)) = Err m ->
  run env zconfig req st
  = (Returned (BadRequest (m +:+ " (UPLOADER_DEFAULT_EXPIRATION)")), st1).
Proof.
  intros Hg Hb Hc Ht He. apply (run_stopped_in_options _ _ _ _ user); auto.
  unfold parseOptions, clientExpiry, defaultExpiry, bind, ret, respond.
  rewrite Ht, He.
  destruct (Js.truthy (header req "expires-at")); [|reflexivity].
  destruct (Hc eq_refl) as (d & ->). reflexivity.
Qed.

Lemma bad_default_expiration_rejects_witness :
  gate Scenario.env Scenario.brokenConfig Scenario.aliceUpload Scenario.state
  = (Val Scenario.alice, Scenario.state)
  /\ run Scenario.env Scenario.brokenConfig Scenario.aliceUpload
       Scenario.state
     = (Returned
          (BadRequest "invalid date (UPLOADER_DEFAULT_EXPIRATION)"),
        Scenario.state).
Proof.
  split; [reflexivity|].
  apply (bad_default_expiration_rejects Scenario.env Scenario.brokenConfig
           Scenario.aliceUpload Scenario.state Scenario.alice Scenario.state
           "invalid date");
    try reflexivity.
  - intros m'. discriminate.
  - discriminate.
Defined.

(** ** A batch without files *)

(** X6 (lines 239-240): a request on the single-shot path that carries no
    file, because the body was not multipart or held no file part, is
    answered 400 "no files", and nothing has happened since the option
    headers were read. *)
Theorem no_files_is_rejected env zconfig req st user o st1 :
  prelude env zconfig req st = (Val (user, o), st1) ->
  isChunk zconfig req = false ->
  batch req = [] ->
  run env zconfig req st = (Returned (BadRequest "no files"), st1).
Proof.
  intros Hp Hc Hb. unfold run. rewrite (handler_route _ _ _ _ _ _ _ Hp).
  unfold route, singleShot. rewrite Hc. unfold batch in Hb.
  destruct (body req) as [m| |fs]; try reflexivity.
  subst fs. reflexivity.
Qed.

Lemma no_files_is_rejected_witness :
  prelude Scenario.env Scenario.config Scenario.aliceEmpty Scenario.state
  = (Val (Scenario.alice, Scenario.plainOptions), Scenario.state)
  /\ run Scenario.env Scenario.config Scenario.aliceEmpty Scenario.state
     = (Returned (BadRequest "no files"), Scenario.state).
Proof.
  split; [reflexivity|].
  apply (no_files_is_rejected Scenario.env Scenario.config
           Scenario.aliceEmpty Scenario.state Scenario.alice
           Scenario.plainOptions); reflexivity.
Defined.

(** ** What a single-shot upload leaves behind *)

(** X7 (lines 254-370): a single-shot upload that is answered 200 has
    created exactly one record per file of the batch and saved one blob for
    each, under the name of the record; the URLs of the answer are those of
    the records, in the order of the files, as the [files] of the JSON body
    or, with no-json, joined by commas. *)
Theorem success_has_one_record_per_file env zconfig req st user o st1 resp :
  prelude env zconfig req st = (Val (user, o), st1) ->
  isChunk zconfig req = false ->
  fst (run env zconfig req st) = Returned resp ->
  isOk resp = true ->
  exists evs,
    snd (run env zconfig req st) = replay st1 evs
    /\ files (snd (run env zconfig req st)) = files st1 ++ created evs
    /\ List.length (created evs) = List.length (batch req)
    /\ saved evs = map file_name (created evs)
    /\ (resp = PlainText
                 (Js.join "," (urlsOf env zconfig req user 0 (created evs)))
        \/ exists b,
             resp = Json b
             /\ resp_files b = urlsOf env zconfig req user 0 (created evs)).
Proof.
  intros Hp Hc Hr Hok.
  destruct (run_single env zconfig req st user o st1 Hp Hc)
    as (evs & E & _ & _ & _ & _ & _ & _ & _ & Hs & Hval & _).
  destruct (Hval resp Hr Hok) as [Hl Hu].
  exists evs. split; [exact E|]. split; [rewrite E; apply replay_files|].
  split; [exact Hl|]. split; [exact (Hs resp Hr)|exact Hu].
Qed.

Lemma success_has_one_record_per_file_witness :
  prelude Scenario.env Scenario.config Scenario.aliceBatch Scenario.state
  = (Val (Scenario.alice, Scenario.plainOptions), Scenario.state)
  /\ exists evs,
       snd (run Scenario.env Scenario.config Scenario.aliceBatch
              Scenario.state) = replay Scenario.state evs
       /\ List.length (created evs) = 2%nat.
Proof.
  split; [reflexivity|].
  destruct (success_has_one_record_per_file Scenario.env Scenario.config
              Scenario.aliceBatch Scenario.state Scenario.alice
              Scenario.plainOptions Scenario.state
              (Json {| resp_files := ["http://h.io/u/rnd0.png";
                                      "http://h.io/u/rnd1.bin"];
                       resp_expiresAt := None;
                       resp_removed_gps := Some true;
                       resp_assumed_mimetype := Some None;
                       resp_folder := None |}))
    as (evs & E & _ & Hl & _);
    [reflexivity|reflexivity|reflexivity|reflexivity|].
  exists evs. split; [exact E|exact Hl].
Defined.

(** X8 (lines 254-326): whatever the outcome of a single-shot upload, the
    records it created stay in the file table, and the blobs it saved are
    those of the first records, in order, each under the name of its
    record; at most the last record has no blob.  When the request is
    answered (200 or 400) every record has its blob, and a request that is
    refused at some file leaves fewer records than the batch has files.
    When the encoder rejects the bytes of a file to compress (a file that is
    reached and passes the validations), the request ends in the encoder's
    exception: the record of that file was created and stays in the table,
    and no blob is saved for it. *)
Theorem records_are_kept_with_their_blobs env zconfig req st user o st1 :
  prelude env zconfig req st = (Val (user, o), st1) ->
  isChunk zconfig req = false ->
  exists evs,
    snd (run env zconfig req st) = replay st1 evs
    /\ files (snd (run env zconfig req st)) = files st1 ++ created evs
    /\ saved evs
       = map file_name (take (List.length (saved evs)) (created evs))
    /\ (List.length (saved evs) <= List.length (created evs))%nat
    /\ (List.length (created evs) <= S (List.length (saved evs)))%nat
    /\ (List.length (created evs) <= List.length (batch req))%nat
    /\ (forall resp,
          fst (run env zconfig req st) = Returned resp ->
          saved evs = map file_name (created evs))
    /\ (forall resp,
          fst (run env zconfig req st) = Returned resp ->
          isOk resp = false ->
          batch req <> [] ->
          (List.length (created evs) < List.length (batch req))%nat)
    /\ (isSuccess (fst (run env zconfig req st)) = false ->
        batch req <> [] ->
        (List.length (saved evs) < List.length (batch req))%nat)
    /\ (forall before file after response_k st_k decodedName m,
          body req = MpFiles (before ++ file :: after) ->
          uploadLoop env zconfig req user o 0 before (response o) st1
            = (Val response_k, st_k) ->
          accepted env zconfig req user o (files st_k) file decodedName ->
          compressionUsed o file = true ->
          sharpJpeg env (up_buffer file)
            (Js.toNum (imageCompressionPercent o)) = Err m ->
          fst (run env zconfig req st) = Thrown m
          /\ created evs !! List.length before
             = Some (recordOf env zconfig req user o (List.length before)
                       file decodedName (nextFileId st_k))
          /\ List.length (saved evs) = List.length before).
Proof.
  intros Hp Hc.
  destruct (run_single env zconfig req st user o st1 Hp Hc)
    as (evs & E & _ & _ & Hs & _ & Hle1 & Hle2 & Hle3 & Hret & _ & _ & Hfail
        & Hbad).
  exists evs. split; [exact E|]. split; [rewrite E; apply replay_files|].
  split; [exact Hs|]. split; [exact Hle1|]. split; [exact Hle2|].
  split; [exact Hle3|]. split; [exact Hret|]. split; [exact Hbad|].
  split; [exact Hfail|].
  intros before file after response_k st_k dn m Hb Hl Hacc Hcu He.
  destruct (run_encoder_fails env zconfig req st user o st1 before file after
              response_k st_k dn m evs Hp Hc Hb Hl Hacc Hcu He E)
    as [Hout Hlen].
  split; [exact Hout|]. split; [|exact Hlen].
  exact (run_creates_record env zconfig req st user o st1 before file after
           response_k st_k dn evs Hp Hc Hb Hl Hacc E).
Qed.

Lemma records_are_kept_with_their_blobs_witness :
  prelude Scenario.env Scenario.config Scenario.compressingNoise
    Scenario.state
  = (Val (Scenario.alice, Scenario.compressOptions), Scenario.state)
  /\ fst (run Scenario.env Scenario.config Scenario.compressingNoise
            Scenario.state)
     = Thrown "Input buffer contains unsupported image format"
  /\ map file_name
       (files (snd (run Scenario.env Scenario.config
                      Scenario.compressingNoise Scenario.state)))
     = ["rnd0.jpg"]
  /\ exists evs,
       snd (run Scenario.env Scenario.config Scenario.compressingNoise
              Scenario.state) = replay Scenario.state evs
       /\ List.length (created evs) = 1%nat
       /\ saved evs = [].
Proof.
  split; [reflexivity|split; [reflexivity|split; [reflexivity|]]].
  destruct (records_are_kept_with_their_blobs Scenario.env Scenario.config
              Scenario.compressingNoise Scenario.state Scenario.alice
              Scenario.compressOptions Scenario.state)
    as (evs & E & F & _ & _ & _ & Hle & _ & _ & _ & Henc);
    [reflexivity|reflexivity|].
  destruct (Henc [] Scenario.png [] emptyResponse Scenario.state "a.png"
              "Input buffer contains unsupported image format")
    as (_ & Hk & Hlen); [reflexivity|reflexivity| |reflexivity|reflexivity|].
  { repeat split; try reflexivity; discriminate. }
  exists evs. split; [exact E|]. split.
  - apply lookup_In in Hk. simpl in Hle.
    destruct (created evs) as [|r [|r' l]]; simpl in *;
      [contradiction|reflexivity|lia].
  - now destruct (saved evs).
Defined.

(** X9 (lines 296, 318-326): the k-th blob a single-shot upload saves is the
    blob of the k-th file of the batch: its buffer as uploaded, under its
    declared mimetype, unless compression applies (a compression percentage
    other than 0 and a declared mimetype that starts with image/), in which
    case it is the JPEG the encoder makes of the buffer, under
    image/jpeg. *)
Theorem saved_blob_is_the_upload env zconfig req st user o st1 :
  prelude env zconfig req st = (Val (user, o), st1) ->
  isChunk zconfig req = false ->
  exists evs,
    snd (run env zconfig req st) = replay st1 evs
    /\ forall k n d t,
         blobs evs !! k = Some (n, d, t) ->
         exists file,
           batch req !! k = Some file
           /\ (compressionUsed o file = false ->
               d = up_buffer file /\ t = up_mimetype file)
           /\ (compressionUsed o file = true ->
               sharpJpeg env (up_buffer file)
                 (Js.toNum (imageCompressionPercent o)) = Ok d
               /\ t = "image/jpeg").
Proof.
  intros Hp Hc.
  destruct (run_single env zconfig req st user o st1 Hp Hc)
    as (evs & E & _ & _ & _ & Hb & _).
  exists evs. split; [exact E|].
  intros k n d t Hk.
  destruct (Forall2_lookup_l _ _ _ _ _ Hb Hk) as (file & Hf & Hst).
  exists file. split.
  - apply lookup_take_Some in Hf. apply Hf.
  - unfold storesFile in Hst. simpl in Hst.
    destruct (compressionUsed o file); split; intros; try discriminate;
      exact Hst.
Qed.

Lemma saved_blob_is_the_upload_witness :
  prelude Scenario.env Scenario.config Scenario.aliceBatch Scenario.state
  = (Val (Scenario.alice, Scenario.plainOptions), Scenario.state)
  /\ exists evs,
       snd (run Scenario.env Scenario.config Scenario.aliceBatch
              Scenario.state) = replay Scenario.state evs
       /\ forall k n d t,
            blobs evs !! k = Some (n, d, t) ->
            exists file, batch Scenario.aliceBatch !! k = Some file
                         /\ d = up_buffer file.
Proof.
  split; [reflexivity|].
  destruct (saved_blob_is_the_upload Scenario.env Scenario.config
              Scenario.aliceBatch Scenario.state Scenario.alice
              Scenario.plainOptions Scenario.state)
    as (evs & E & H); [reflexivity|reflexivity|].
  exists evs. split; [exact E|].
  intros k n d t Hk. destruct (H k n d t Hk) as (file & Hf & Hno & _).
  exists file. split; [exact Hf|]. now apply Hno.
Defined.

(** ** Whose records, in which folder *)

Section Ownership.

Variable env : Env.
Variable zconfig : Config.
Variable req : Request.

Lemma maxViews_valid st v st' :
  maxViews env req st = (Val v, st') -> validViews v.
Proof.
  unfold maxViews, validViews.
  destruct (Js.isNaN _) eqn:E1; [discriminate|].
  destruct (Js.ltb _ _) eqn:E2; [discriminate|].
  now intros [= <- _].
Qed.

Lemma folderOption_owned user response st fo response' st' :
  folderOption env req user response st = (Val (fo, response'), st') ->
  forall n, folderIdOf fo = Some n ->
  exists f, In f (folders st)
            /\ Js.eqb (Js.ofZ (folder_id f)) n = true
            /\ folder_userId f = user_id user.
Proof.
  unfold folderOption, findFolder, folderIdOf, bind, get, ret, respond.
  destruct (Js.truthyNum (numberHeader env req "x-zipline-folder")) eqn:T.
  - destruct (Js.isNaN _); [discriminate|].
    destruct (List.find _ (folders st)) as [f|] eqn:F; [|discriminate].
    intros [= <- _ _] n. rewrite T. intros Hn.
    apply find_some in F as [Hin Hf]. apply andb_prop in Hf as [H1 H2].
    exists f. rewrite Hn in H1. simpl in H1.
    split; [exact Hin|]. split; [exact H1|]. now apply Z.eqb_eq.
  - intros [= <- _ _] n. rewrite T. discriminate.
Qed.

Lemma parseOptions_valid user st0 o st1 :
  parseOptions env zconfig req user st0 = (Val o, st1) ->
  st1 = st0
  /\ validViews (fileMaxViews o)
  /\ (forall n, folderIdOf (folderToAdd o) = Some n ->
      exists f, In f (folders st0)
                /\ Js.eqb (Js.ofZ (folder_id f)) n = true
                /\ folder_userId f = user_id user).
Proof.
  intros H.
  pose proof (emits_noCall _ st0 (parseOptions_reads env zconfig req user))
    as S.
  rewrite H in S. simpl in S. split; [exact S|].
  revert H. unfold parseOptions. intros H.
  apply bind_val_inv in H as ([e0 r0] & s1 & H1 & H).
  apply bind_val_inv in H as (e1 & s2 & H2 & H).
  apply bind_val_inv in H as (icp & s3 & H3 & H).
  apply bind_val_inv in H as (mv & s4 & H4 & H).
  apply bind_val_inv in H as ([fo r1] & s5 & H5 & H).
  injection H as <- _. simpl.
  split; [exact (maxViews_valid _ _ _ H4)|].
  assert (s4 = st0) as ->.
  { pose proof (emits_noCall _ st0 (parseOptions_reads env zconfig req user))
      as _.
    assert (N : forall {A} (c : M A) s a s',
               emits noCall c -> c s = (Val a, s') -> s' = s).
    { intros A c s a s' Hc Hcs. pose proof (emits_noCall _ s Hc) as X.
      now rewrite Hcs in X. }
    assert (s1 = st0) as ->.
    { eapply (N _ (clientExpiry env req)); [|exact H1].
      unfold clientExpiry. emits_auto. }
    assert (s2 = st0) as ->.
    { eapply (N _ (defaultExpiry env zconfig e0)); [|exact H2].
      unfold defaultExpiry. emits_auto. }
    assert (s3 = st0) as ->.
    { eapply (N _ (compressionPercent env req)); [|exact H3].
      unfold compressionPercent. emits_auto. }
    eapply (N _ (maxViews env req)); [|exact H4].
    unfold maxViews. emits_auto. }
  exact (folderOption_owned _ _ _ _ _ _ H5).
Qed.

Lemma prelude_user_token st user o st1 :
  prelude env zconfig req st = (Val (user, o), st1) ->
  user_token user = Js.show (header req "authorization")
  /\ folders st1 = folders st.
Proof.
  intros H. split.
  - unfold prelude in H.
    apply bind_val_inv in H as (u & s1 & Hg & H).
    apply bind_val_inv in H as ([] & s2 & _ & H).
    apply bind_val_inv in H as (o' & s3 & _ & H).
    injection H as -> _ _.
    unfold gate in Hg.
    apply bind_val_inv in Hg as (u' & s4 & Ha & Hg).
    apply bind_val_inv in Hg as ([] & s5 & _ & Hg).
    injection Hg as -> _.
    revert Ha. unfold authenticate, findUser, bind, get, ret.
    destruct (negb _); [discriminate|].
    destruct (List.find _ (users st)) as [u0|] eqn:F; [|discriminate].
    intros [= -> _]. apply find_some in F as [_ F].
    now apply String.eqb_eq in F.
  - destruct (prelude_updates env zconfig req st) as (evs & E & _).
    rewrite H in E. simpl in E. rewrite E. apply replay_folders.
Qed.

(** The record a chunked request may create. *)
Lemma chunked_new_records user o st :
  exists new,
    files (snd (chunked env zconfig req user o st)) = files st ++ new
    /\ forall r, In r new ->
         file_userId r = user_id user
         /\ file_folderId r = folderIdOf (folderToAdd o)
         /\ file_maxViews r = None.
Proof.
  assert (Nil : forall s : State,
            files s = files st ->
            exists new,
              files s = files st ++ new
              /\ forall r, In r new ->
                   file_userId r = user_id user
                   /\ file_folderId r = folderIdOf (folderToAdd o)
                   /\ file_maxViews r = None).
  { intros s Hs. exists []. rewrite app_nil_r. split; [exact Hs|].
    intros r []. }
  unfold chunked, findFile, firstBuffer, bind, get, ret, respond, throw,
    emit, createFile.
  destruct (isName (format o));
    [destruct (List.find _ (files st)); [now apply Nil|]|];
    (destruct (body req) as [m| |[|f rest]]; try (now apply Nil));
    (destruct (header req "x-zipline-partial-lastchunk") as [v|];
       [destruct (String.eqb v "true")|]; try (now apply Nil));
    (destruct (header req "x-zipline-partial-filename");
       [|now apply Nil]);
    simpl; eexists [_]; (split; [reflexivity|]);
    intros r [<-|[]]; now simpl.
Qed.

End Ownership.

(** X10 (lines 25-31, 121-137, 183-193, 298-313): every record a request
    adds to the file table, on either path, belongs to the user whose token
    is in the authorization header; its max-views is absent or a number that
    is not below 0; and its folder, when it has one, is a folder of that
    same user. *)
Theorem records_belong_to_the_uploader env zconfig req st user o st1 :
  prelude env zconfig req st = (Val (user, o), st1) ->
  user_token user = Js.show (header req "authorization")
  /\ exists new,
       files (snd (run env zconfig req st)) = files st1 ++ new
       /\ forall r, In r new ->
            file_userId r = user_id user
            /\ validViews (file_maxViews r)
            /\ (forall n, file_folderId r = Some n ->
                exists f, In f (folders st1)
                          /\ Js.eqb (Js.ofZ (folder_id f)) n = true
                          /\ folder_userId f = user_id user).
Proof.
  intros Hp.
  destruct (prelude_user_token env zconfig req st user o st1 Hp) as [Ht _].
  split; [exact Ht|].
  destruct (prelude_options env zconfig req st user o st1 Hp) as (st0 & Ho).
  destruct (parseOptions_valid env zconfig req user st0 o st1 Ho)
    as (-> & Hv & Hf).
  destruct (isChunk zconfig req) eqn:Hc.
  - destruct (chunked_new_records env zconfig req user o st0)
      as (new & E & Hnew).
    exists new. split.
    + rewrite run_state, (handler_route _ _ _ _ _ _ _ Hp). unfold route.
      now rewrite Hc.
    + intros r Hr. destruct (Hnew r Hr) as (H1 & H2 & H3).
      split; [exact H1|]. split; [now rewrite H3|].
      intros n Hn. apply Hf. now rewrite <- H2.
  - destruct (run_single env zconfig req st user o st0 Hp Hc)
      as (evs & E & _ & R & _).
    exists (created evs). split; [rewrite E; apply replay_files|].
    intros r Hr. apply In_lookup in Hr as (k & Hk).
    destruct (Records_lookup _ _ _ _ _ _ _ _ _ _ R k r Hk)
      as (file & dn & _ & _ & ->).
    split; [reflexivity|]. split; [exact Hv|exact Hf].
Qed.

Lemma records_belong_to_the_uploader_witness :
  prelude Scenario.env Scenario.config Scenario.aliceFiling
    Scenario.stateWithFolder
  = (Val (Scenario.alice, Scenario.filingOptions), Scenario.stateWithFolder)
  /\ map file_folderId
       (files (snd (run Scenario.env Scenario.config Scenario.aliceFiling
                      Scenario.stateWithFolder))) = [Some (Js.ofZ 7)]
  /\ exists new,
       files (snd (run Scenario.env Scenario.config Scenario.aliceFiling
                     Scenario.stateWithFolder))
       = files Scenario.stateWithFolder ++ new
       /\ forall r, In r new -> file_userId r = 3.
Proof.
  split; [reflexivity|split; [reflexivity|]].
  destruct (records_belong_to_the_uploader Scenario.env Scenario.config
              Scenario.aliceFiling Scenario.stateWithFolder Scenario.alice
              Scenario.filingOptions Scenario.stateWithFolder)
    as (_ & new & E & H); [reflexivity|].
  exists new. split; [exact E|]. intros r Hr. apply (H r Hr).
Defined.

(** ** Chunks that are not the last *)



(** X12 (lines 141-149): under the name format, a chunk request whose
    partial filename is the name of a record (or, without that header, any
    request when the file table is not empty) is answered 400 before anything
    is written: not even the chunk is stored. *)
Theorem chunk_name_conflict_is_rejected env zconfig req st user o st1 r :
  prelude env zconfig req st = (Val (user, o), st1) ->
  isChunk zconfig req = true ->
  isName (format o) = true ->
  List.find (nameMatches (header req "x-zipline-partial-filename"))
    (files st1) = Some r ->
  run env zconfig req st
  = (Returned (BadRequest "filename already exists (conflict: NAME format)"),
     st1).
Proof.
  intros Hp Hc Hn Hf. unfold run.
  rewrite (handler_route _ _ _ _ _ _ _ Hp). unfold route. rewrite Hc.
  unfold chunked, findFile, bind, get, ret, respond.
  now rewrite Hn, Hf.
Qed.

Lemma chunk_name_conflict_is_rejected_witness :
  prelude Scenario.env Scenario.config Scenario.namedChunk
    Scenario.stateWithFile
  = (Val (Scenario.alice, Scenario.nameOptions), Scenario.stateWithFile)
  /\ run Scenario.env Scenario.config Scenario.namedChunk
       Scenario.stateWithFile
     = (Returned
          (BadRequest "filename already exists (conflict: NAME format)"),
        Scenario.stateWithFile).
Proof.
  split; [reflexivity|].
  apply (chunk_name_conflict_is_rejected Scenario.env Scenario.config
           Scenario.namedChunk Scenario.stateWithFile Scenario.alice
           Scenario.nameOptions Scenario.stateWithFile Scenario.taken);
    reflexivity.
Defined.

(** X13 (line 177): a chunk request without a file part, because the body
    was not multipart or held no file, and that, under the name format,
    finds no record for its partial filename (the lookup of line 142,
    unfiltered when the header is missing), ends in an exception before
    anything is written.  Under the name format with a record of that name
    the request is refused with a 400 instead (X12). *)
Theorem chunk_without_file_throws env zconfig req st user o st1 :
  prelude env zconfig req st = (Val (user, o), st1) ->
  isChunk zconfig req = true ->
  batch req = [] ->
  (isName (format o) = true ->
   List.find (nameMatches (header req "x-zipline-partial-filename"))
     (files st1) = None) ->
  exists m, run env zconfig req st = (Thrown m, st1).
Proof.
  intros Hp Hc Hb Hfree. exists "TypeError". unfold run.
  rewrite (handler_route _ _ _ _ _ _ _ Hp). unfold route. rewrite Hc.
  unfold chunked, findFile, firstBuffer, bind, get, ret, respond, throw.
  unfold batch in Hb.
  destruct (isName (format o)); [rewrite (Hfree eq_refl)|];
    destruct (body req) as [m| |fs]; try reflexivity; now subst fs.
Qed.

Lemma chunk_without_file_throws_witness :
  prelude Scenario.env Scenario.config Scenario.bareChunk Scenario.state
  = (Val (Scenario.alice, Scenario.plainOptions), Scenario.state)
  /\ exists m,
       run Scenario.env Scenario.config Scenario.bareChunk Scenario.state
       = (Thrown m, Scenario.state).
Proof.
  split; [reflexivity|].
  apply (chunk_without_file_throws Scenario.env Scenario.config
           Scenario.bareChunk Scenario.state Scenario.alice
           Scenario.plainOptions Scenario.state);
    reflexivity.
Defined.

(** ** Which calls a request can make *)

Lemma handler_emits (Q : Event -> bool) env zconfig req :
  (forall e, isUserUpdate e = true -> Q e = true) ->
  (forall user o, emits Q (route env zconfig req user o)) ->
  emits Q (handler env zconfig req).
Proof.
  intros Hu Hr. unfold handler. apply emits_bind.
  - apply (emits_weaken isUserUpdate); [exact Hu|apply prelude_updates].
  - intros [user o]. apply Hr.
Qed.

Lemma emits_when_if (Q : Event -> bool) c m :
  (c = true -> emits Q m) -> emits Q (when c m).
Proof. destruct c; simpl; [now intros H; apply H|]. intros _. apply emits_ret. Qed.

Section Paths.

Variable env : Env.
Variable zconfig : Config.
Variable req : Request.

Lemma uploadLoop_singleCall user o fs : forall i response,
  emits singleCall (uploadLoop env zconfig req user o i fs response).
Proof.
  induction fs as [|file rest IH]; intros i response; simpl.
  - apply emits_ret.
  - apply emits_bind; [|intros response'; apply IH].
    unfold uploadFile. apply emits_bind.
    { apply (emits_weaken noCall); [discriminate|apply validateFile_reads]. }
    intros [[decodedName ext] fileName].
    destruct (resolveMime _ _ _ _ _) as [mimetype response'].
    unfold saveBlob, stripGps. emits_auto.
Qed.

Lemma route_by_path user o :
  emits (if isChunk zconfig req then chunkCall else singleCall)
    (route env zconfig req user o).
Proof.
  unfold route. destruct (isChunk zconfig req).
  - unfold chunked, findFile, firstBuffer. emits_auto.
  - unfold singleShot, finish. destruct (body req); emits_auto.
    apply uploadLoop_singleCall.
Qed.

Lemma stripGps_optional r response :
  emits (optionalCall zconfig req) (stripGps env zconfig r response).
Proof.
  unfold stripGps. destruct (gpsAttempted zconfig r) eqn:G;
    [|apply emits_ret].
  unfold gpsAttempted in G. apply andb_prop in G as [G _].
  apply emits_bind; [now apply emits_emit|]. intros _.
  destruct (removeGPSData env r); [apply emits_ret|].
  apply emits_bind; [now apply emits_emit|]. intros _. apply emits_ret.
Qed.

Lemma uploadLoop_optional user o fs : forall i response,
  emits (optionalCall zconfig req)
    (uploadLoop env zconfig req user o i fs response).
Proof.
  induction fs as [|file rest IH]; intros i response; simpl.
  - apply emits_ret.
  - apply emits_bind; [|intros response'; apply IH].
    unfold uploadFile. apply emits_bind.
    { apply (emits_weaken noCall); [discriminate|apply validateFile_reads]. }
    intros [[decodedName ext] fileName].
    destruct (resolveMime _ _ _ _ _) as [mimetype response'].
    apply emits_bind; [now apply emits_createFile|]. intros fileUpload.
    apply emits_bind.
    { apply emits_when_if. intros Z. now apply emits_emit. }
    intros _. apply emits_bind.
    { unfold saveBlob. destruct (compressionUsed o file);
        [destruct (sharpJpeg env _ _); [|apply emits_throw]|];
        now apply emits_emit. }
    intros _. apply emits_bind.
    { apply emits_when_if. intros D. now apply emits_emit. }
    intros _. apply stripGps_optional.
Qed.

Lemma route_optional user o :
  emits (optionalCall zconfig req) (route env zconfig req user o).
Proof.
  unfold route. destruct (isChunk zconfig req).
  - unfold chunked, findFile, firstBuffer. emits_auto.
  - unfold singleShot, finish. destruct (body req); emits_auto.
    apply uploadLoop_optional.
Qed.

End Paths.

(** X14 (lines 140, 239): the two paths do not mix.  A request routed to the
    chunked path (content-range present and chunks enabled) only updates the
    rate limit, writes a temporary file, creates a record and starts the
    worker: it never saves a blob, creates an alias, notifies or touches GPS
    data.  Any other request never writes a temporary file and never starts
    a worker; in particular, with chunks disabled no request does. *)
Theorem paths_do_not_mix env zconfig req st :
  exists evs,
    snd (run env zconfig req st) = replay st evs
    /\ forallb (if isChunk zconfig req then chunkCall else singleCall) evs
       = true.
Proof.
  rewrite run_state. apply handler_emits.
  - intros [] H; try discriminate. now destruct (isChunk zconfig req).
  - intros user o. apply route_by_path.
Qed.

(** X15 (lines 315-316, 344-351, 353-362): the optional steps are taken on
    request only.  Whatever the request, [createInvisImage] is called only
    when the zws header contains true, [sendUpload] only when the discord
    upload notification is configured, and [removeGPSData] (and the log of
    its failure) only when exif handling and GPS removal are both
    enabled. *)
Theorem optional_steps_only_on_request env zconfig req st :
  exists evs,
    snd (run env zconfig req st) = replay st evs
    /\ forallb (optionalCall zconfig req) evs = true.
Proof.
  rewrite run_state. apply handler_emits.
  - now intros [].
  - intros user o. apply route_optional.
Qed.

(** ** Strings: the content-range header and the extension *)

Lemma substring_all s : String.substring 0 (String.length s) s = s.
Proof. induction s as [|c s IH]; simpl; [easy|]. now rewrite IH. Qed.

Lemma dropStr_app p x : Js.dropStr (String.length p) (p +:+ x) = x.
Proof.
  unfold Js.dropStr. induction p as [|c p IH]; simpl.
  - rewrite Nat.sub_0_r. apply substring_all.
  - exact IH.
Qed.

Lemma prefix_app p x : String.prefix p (p +:+ x) = true.
Proof.
  induction p as [|c p IH]; simpl; [now destruct x|].
  destruct (ascii_dec c c); [exact IH|contradiction].
Qed.

(** A pattern at the very start is the occurrence replaced. *)
Lemma replace_at_start p r x : Js.replace p r (p +:+ x) = r +:+ x.
Proof.
  destruct p as [|c p].
  - simpl. destruct x; simpl; unfold Js.dropStr; simpl;
      now rewrite ?Nat.sub_0_r, ?substring_all.
  - change (Js.replace (String c p) r (String c p +:+ x))
      with (if String.prefix (String c p) (String c p +:+ x)
            then r +:+ Js.dropStr (String.length (String c p))
                         (String c p +:+ x)
            else String c (Js.replace (String c p) r (p +:+ x))).
    now rewrite prefix_app, dropStr_app.
Qed.

(** The first occurrence of a character is the one replaced. *)
Lemma replace_first_char c r s rest :
  hasChar c s = false ->
  Js.replace (String c "") r (s +:+ String c rest) = s +:+ r +:+ rest.
Proof.
  induction s as [|x s IH]; intros H.
  - apply (replace_at_start (String c "") r rest).
  - simpl in H. apply orb_false_elim in H as [Hx Hs].
    change (Js.replace (String c "") r (String x s +:+ String c rest))
      with (if String.prefix (String c "") (String x (s +:+ String c rest))
            then r +:+ Js.dropStr 1 (String x (s +:+ String c rest))
            else String x (Js.replace (String c "") r (s +:+ String c rest))).
    simpl String.prefix.
    destruct (ascii_dec c x) as [->|N].
    + now rewrite Ascii.eqb_refl in Hx.
    + now rewrite (IH Hs).
Qed.

Lemma split_nonempty c s : Js.split c s <> [].
Proof.
  destruct s as [|x s]; simpl; [discriminate|].
  destruct (Ascii.eqb x c); [discriminate|].
  now destruct (Js.split c s).
Qed.

Lemma split_no_separator c s : hasChar c s = false -> Js.split c s = [s].
Proof.
  induction s as [|x s IH]; simpl; [easy|].
  intros H. apply orb_false_elim in H as [Hx Hs].
  now rewrite Hx, (IH Hs).
Qed.

(** Splitting distributes over a separator. *)
Lemma split_at_separator c a b :
  Js.split c (a +:+ String c b) = Js.split c a ++ Js.split c b.
Proof.
  induction a as [|x a IH]; simpl.
  - now rewrite Ascii.eqb_refl.
  - destruct (Ascii.eqb x c); [now rewrite IH|].
    rewrite IH. pose proof (split_nonempty c a) as N.
    now destruct (Js.split c a).
Qed.

(** X16 (lines 152-156): a content-range header of the form
    [bytes <start>-<end>/<total>], where start holds neither a dash nor a
    slash and end and total hold no slash, is read as the three numbers
    start, end and total, each the [Number] of its text. *)
Theorem content_range_is_parsed env req s e t :
  header req "content-range"
  = Some ("bytes " +:+ s +:+ "-" +:+ e +:+ "/" +:+ t) ->
  hasChar "-" s = false -> hasChar "/" s = false ->
  hasChar "/" e = false -> hasChar "/" t = false ->
  contentRange env req = [Number env s; Number env e; Number env t].
Proof.
  intros H Hs1 Hs2 He Ht. unfold contentRange. rewrite H.
  cbn [Js.show].
  rewrite (replace_at_start "bytes " "" (s +:+ "-" +:+ e +:+ "/" +:+ t)).
  change (Js.replace "-" "/" ("" +:+ s +:+ "-" +:+ e +:+ "/" +:+ t))
    with (Js.replace "-" "/" (s +:+ String "-" (e +:+ String "/" t))).
  rewrite (replace_first_char "-" "/" s (e +:+ String "/" t) Hs1).
  change (s +:+ "/" +:+ e +:+ String "/" t)
    with (s +:+ String "/" (e +:+ String "/" t)).
  rewrite !split_at_separator.
  now rewrite (split_no_separator _ _ Hs2), (split_no_separator _ _ He),
    (split_no_separator _ _ Ht).
Qed.

Lemma content_range_is_parsed_witness :
  header (Scenario.chunk "bytes 10-20/20" 10 true) "content-range"
  = Some ("bytes " +:+ "10" +:+ "-" +:+ "20" +:+ "/" +:+ "20")
  /\ contentRange Scenario.env (Scenario.chunk "bytes 10-20/20" 10 true)
     = [Js.ofZ 10; Js.ofZ 20; Js.ofZ 20].
Proof.
  split; [reflexivity|].
  rewrite (content_range_is_parsed Scenario.env
             (Scenario.chunk "bytes 10-20/20" 10 true) "10" "20" "20");
    reflexivity.
Defined.

(** X17 (lines 181, 263): the extension of a name is what follows its last
    dot: a name without a dot has the empty extension, and so has a name
    that ends with a dot; only the last of several extensions counts. *)
Theorem extension_is_last_suffix base e :
  hasChar "." e = false ->
  extOf (base +:+ "." +:+ e) = e /\ extOf e = "".
Proof.
  intros H. unfold extOf. split.
  - change (base +:+ "." +:+ e) with (base +:+ String "." e).
    rewrite split_at_separator, (split_no_separator _ _ H).
    rewrite last_last, length_app.
    pose proof (split_nonempty "." base) as N.
    destruct (Js.split "." base) as [|h l]; [contradiction|].
    cbn [List.length]. now rewrite Nat.add_1_r.
  - now rewrite (split_no_separator _ _ H).
Qed.

Lemma extension_is_last_suffix_witness :
  hasChar "." "gz" = false
  /\ extOf "backup.tar.gz" = "gz"
  /\ extOf "gz" = "".
Proof.
  split; [reflexivity|].
  exact (extension_is_last_suffix "backup.tar" "gz" eq_refl).
Defined.

(** ** A body that cannot be parsed *)

(** X18 (lines 72-77): when the multipart parser reports an error, the
    request that got through the gate ends in an exception carrying the
    message of the parser, not in a 400; no header is looked at and nothing
    has happened since the gate. *)
Theorem multipart_error_is_thrown env zconfig req st user st1 m :
  gate env zconfig req st = (Val user, st1) ->
  body req = MpError m ->
  run env zconfig req st = (Thrown m, st1).
Proof.
  intros Hg Hb. unfold run.
  rewrite handler_afterGate, (bind_val _ _ _ _ _ Hg).
  unfold afterGate, multer, bind, throw. now rewrite Hb.
Qed.

Lemma multipart_error_is_thrown_witness :
  gate Scenario.env Scenario.config Scenario.garbled Scenario.state
  = (Val Scenario.alice, Scenario.state)
  /\ run Scenario.env Scenario.config Scenario.garbled Scenario.state
     = (Thrown "Unexpected end of form", Scenario.state).
Proof.
  split; [reflexivity|].
  apply (multipart_error_is_thrown Scenario.env Scenario.config
           Scenario.garbled Scenario.state Scenario.alice);
    reflexivity.
Defined.
